(** * Getis-Ord Gi* hotspot analysis of geo_mcp

    A shallow embedding of [hotspot_analysis_getis_ord_gi_star]
    (src/geo_mcp/core/spatial_analysis.py, and its sibling in
    src/mcp-client/server.py) together with the properties the
    specification states about it.

    Numbers are modelled as the code has them: [float64] values are Rocq's
    primitive binary64 floats (so NaN, infinities and rounding behave as in
    NumPy), [int64] values are [Z] with the wrap-around written out, and
    Python's [int] is [Z].  The third-party functions the code calls
    ([os.path.exists], [pandas.read_csv], [pandas.read_excel],
    [sklearn.metrics.pairwise.haversine_distances], [scipy.stats.norm.cdf])
    and the [pow] of the C library, which NumPy calls for a power of two
    [float64] scalars, are section variables.  NumPy's own [np.sum] is
    written out, with the grouping of the additions it performs. *)

From Stdlib Require Import ZArith Floats Lia Bool Ascii String.
From stdpp Require Import base list strings pretty.

Set Warnings "-inexact-float".
Local Open Scope Z_scope.

(** ** Python exceptions

    A computation either returns a value or raises an exception, of which
    only the message ([str(e)]) is ever observed by the code. *)

Inductive Exc (A : Type) : Type :=
| Return (a : A)
| Raise (msg : string).

Arguments Return {A} a.
Arguments Raise {A} msg.

Definition bind {A B : Type} (m : Exc A) (k : A -> Exc B) : Exc B :=
  match m with
  | Return a => k a
  | Raise e => Raise e
  end.

Notation "'try!' x ':=' m 'in' k" := (bind m (fun x => k))
  (at level 10, x name, m at level 100, k at level 200).

Fixpoint mapM {A B : Type} (f : A -> Exc B) (l : list A) : Exc (list B) :=
  match l with
  | [] => Return []
  | a :: l' => try! b := f a in try! bs := mapM f l' in Return (b :: bs)
  end.

(** ** Machine numbers *)

(** NumPy's [int64]: two's complement wrap-around on overflow. *)
Definition wrap64 (z : Z) : Z := (z + 2 ^ 63) mod 2 ^ 64 - 2 ^ 63.

Definition int64_add (a b : Z) : Z := wrap64 (a + b).
Definition int64_sub (a b : Z) : Z := wrap64 (a - b).
Definition int64_mul (a b : Z) : Z := wrap64 (a * b).

(** Conversion of an integer to [float64], rounding to nearest even. *)
Definition float_of_int (z : Z) : float :=
  SF2Prim (binary_normalize prec emax z 0 false).

(** [np.sum] over a contiguous [float64] vector.  [np.add.reduce] starts
    from the identity 0 and adds to it the pairwise sum of the vector
    ([DOUBLE_pairwise_sum] of NumPy's loops_utils.h.src): fewer than 8
    numbers are added one after the other, starting from -0 (from 0
    before NumPy 1.25, which gives the same sum once it is added to the
    identity); up to 128 numbers are added into 8 accumulators, which are
    then added in pairs, and the numbers left over after the last full
    group of 8 are added at the end; a longer vector is cut in two, the
    first part a multiple of 8 long, and the sums of the two parts are
    added. *)

(** [for (...) res += a[i]] *)
Definition add_each (res : float) (a : list float) : float :=
  fold_left PrimFloat.add a res.

(** The accumulators [r[0]], ..., [r[7]]. *)
Definition Accumulators : Type :=
  (float * float * float * float * float * float * float * float)%type.

(** The unrolled loop: [r[k] += a[i + k]] for every full group of 8; what
    is left of [a] is returned with the accumulators. *)
Fixpoint accumulate (r : Accumulators) (a : list float)
  : Accumulators * list float :=
  match a with
  | a0 :: a1 :: a2 :: a3 :: a4 :: a5 :: a6 :: a7 :: a' =>
      let '(r0, r1, r2, r3, r4, r5, r6, r7) := r in
      accumulate (r0 + a0, r1 + a1, r2 + a2, r3 + a3,
                  r4 + a4, r5 + a5, r6 + a6, r7 + a7)%float a'
  | _ => (r, a)
  end.

(** The sum of at most 128 numbers. *)
Definition block_sum (a : list float) : float :=
  match a with
  | a0 :: a1 :: a2 :: a3 :: a4 :: a5 :: a6 :: a7 :: a' =>
      let '((r0, r1, r2, r3, r4, r5, r6, r7), rest) :=
        accumulate (a0, a1, a2, a3, a4, a5, a6, a7) a' in
      add_each (((r0 + r1) + (r2 + r3)) + ((r4 + r5) + (r6 + r7)))%float rest
  | _ => add_each neg_zero a
  end.

(** [DOUBLE_pairwise_sum]; [depth] bounds the nesting of the halvings, and
    [length a] is enough ([pairwise_sum_depth] below). *)
Fixpoint pairwise_sum (depth : nat) (a : list float) : float :=
  match depth with
  | S depth' =>
      if (128 <? length a)%nat then
        let n2 := (length a / 2 - (length a / 2) mod 8)%nat in
        (pairwise_sum depth' (take n2 a) + pairwise_sum depth' (drop n2 a))%float
      else block_sum a
  | O => block_sum a
  end.

Definition np_sum (l : list float) : float :=
  (0 + pairwise_sum (length l) l)%float.

(** [np.sum] (and [.sum(axis=1)] on one row) over an [int64] vector. *)
Definition np_sum_int (l : list Z) : Z :=
  fold_left int64_add l 0.

(** ** Strings: [str.lower] and [str.endswith]

    Only ASCII letters matter for the suffixes tested by the code. *)

Definition lower_ascii (c : ascii) : ascii :=
  let n := nat_of_ascii c in
  if (65 <=? n)%nat && (n <=? 90)%nat then ascii_of_nat (n + 32) else c.

Fixpoint lower (s : string) : string :=
  match s with
  | EmptyString => EmptyString
  | String c s' => String (lower_ascii c) (lower s')
  end.

Definition endswith (s suffix : string) : bool :=
  (String.length suffix <=? String.length s)%nat &&
  String.eqb
    (substring (String.length s - String.length suffix)
               (String.length suffix) s)
    suffix.

(** ** Tables

    A [pandas.DataFrame] as the code uses it: named columns of cells and a
    row count.  A cell is a number, or text that [float] rejects.  (A
    column that [pandas.read_csv] could not read as numbers holds text in
    every row; a column of both kinds comes from a spreadsheet.) *)

Inductive Cell : Type :=
| CNum (x : float)
| CText (t : string).

Record DataFrame : Type := mkDataFrame {
  df_columns : list (string * list Cell);
  df_len : nat
}.

Definition has_column (df : DataFrame) (col : string) : bool :=
  bool_decide (col ∈ (df_columns df).*1).

Fixpoint assoc {A : Type} (k : string) (l : list (string * A)) : option A :=
  match l with
  | [] => None
  | (k', v) :: l' => if String.eqb k k' then Some v else assoc k l'
  end.

(** [df[col].values]; a missing column is a [KeyError]. *)
Definition column_values (df : DataFrame) (col : string) : Exc (list Cell) :=
  match assoc col (df_columns df) with
  | Some c => Return c
  | None => Raise ("'" +:+ col +:+ "'")
  end.

(** [.astype(float)] *)
Definition astype_float (c : list Cell) : Exc (list float) :=
  mapM (fun x =>
          match x with
          | CNum f => Return f
          | CText t =>
              Raise ("could not convert string to float: '" +:+ t +:+ "'")
          end) c.

(** [np.radians] on one number: multiplication by pi/180. *)
Definition deg2rad (x : float) : float := (x * 0x1.1df46a2529d39p-6)%float.

(** ** The result document

    The dictionaries handed to [json.dumps]. *)

Inductive Label : Type := hotspot | coldspot | not_significant.

Definition label_text (l : Label) : string :=
  match l with
  | hotspot => "hotspot"
  | coldspot => "coldspot"
  | not_significant => "not significant"
  end.

Record HotspotResult : Type := mkResult {
  index : Z;
  latitude : float;
  longitude : float;
  value : float;
  gi_star : float;
  z_score : float;
  p_value : float;
  label : Label;
  neighbors : Z
}.

Inductive Value : Type :=
| VStr (s : string)
| VInt (z : Z)
| VFloat (f : float)
| VResults (rs : list HotspotResult).

Definition Doc : Type := list (string * Value).

Definition failure (info : string) : Doc :=
  [("status", VStr "failure"); ("info", VStr info)].

Definition get (key : string) (d : Doc) : option Value := assoc key d.

(** ** Calling convention

    [distance_threshold] is a keyword argument with a default: a caller
    may leave it out, or pass a value, which is [None] or a number. *)

Inductive Arg (A : Type) : Type :=
| Omitted
| Passed (v : A).

Arguments Omitted {A}.
Arguments Passed {A} v.

Definition with_default {A : Type} (d : A) (a : Arg A) : A :=
  match a with
  | Omitted => d
  | Passed v => v
  end.

(** ** Arrays *)

(** [a[i]] *)
Definition getitem {A : Type} (a : list A) (i : nat) : Exc A :=
  match a !! i with
  | Some x => Return x
  | None => Raise "index out of bounds"
  end.

(** [(row <= t).astype(int)] *)
Definition threshold_row (row : list float) (t : float) : list Z :=
  map (fun d => if (d <=? t)%float then 1 else 0) row.

(** [np.fill_diagonal(wij, 0)] on a square matrix *)
Definition fill_diagonal (wij : list (list Z)) (v : Z) : list (list Z) :=
  imap (fun i row => <[i := v]> row) wij.

(** The name NumPy reports for the Python type of an object-array entry. *)
Definition type_name (c : Cell) : string :=
  match c with
  | CNum _ => "float"
  | CText _ => "str"
  end.

Definition is_text (c : Cell) : bool :=
  match c with
  | CNum _ => false
  | CText _ => true
  end.

Definition cell_float (c : Cell) : float :=
  match c with
  | CNum x => x
  | CText _ => nan
  end.

(** [df[[lat_col, lon_col]].values]: one (latitude, longitude) pair per row. *)
Definition coords_values (lat lon : list Cell) : list (Cell * Cell) :=
  zip lat lon.

(** Whether the coordinate array has a numeric dtype. *)
Definition numeric_coords (coords : list (Cell * Cell)) : bool :=
  forallb (fun c => negb (is_text c.1) && negb (is_text c.2)) coords.

(** [np.radians(coords)]: defined on numeric arrays only; on an object array
    NumPy raises a [TypeError] naming the type of the first entry, the
    latitude of the first row: [str] when that cell is text, [float] when
    it is a number and the text is further down or in the other column. *)
Definition np_radians (coords : list (Cell * Cell)) : Exc (list (float * float)) :=
  if numeric_coords coords then
    Return (map (fun c => (deg2rad (cell_float c.1), deg2rad (cell_float c.2))) coords)
  else
    Raise ("loop of ufunc does not support argument 0 of type " +:+
           match coords with
           | c :: _ => type_name c.1
           | [] => "NoneType"
           end +:+ " which has no callable radians method").

(** ** Classification *)

Definition classify (z_score : float) : Label :=
  if (2.58 <? z_score)%float then hotspot
  else if (z_score <? -2.58)%float then coldspot
  else not_significant.

(** ** Global statistics: lines 80-84

    On the array [xj], [xj ** 2] is [np.square], the product of every
    entry with itself.  On the [float64] scalar [mean_x], [mean_x ** 2]
    is the [pow] of the C library at the exponent 2.0, whose result is
    within one unit in the last place of the square but need not be the
    rounded product [mean_x * mean_x]. *)

Record GlobalStats : Type := mkStats {
  mean_x : float;
  s : float
}.

Definition global_stats (libm_pow : float -> float -> float)
           (n : Z) (xj : list float) : GlobalStats :=
  let xj_sum := np_sum xj in
  let xj2_sum := np_sum (map (fun x => x * x)%float xj) in
  let mean_x := (xj_sum / float_of_int n)%float in
  let s := PrimFloat.sqrt (xj2_sum / float_of_int n - libm_pow mean_x 2)%float in
  mkStats mean_x s.

(** ** The Gi* statistic of one point: lines 88-100 *)

Definition num (wij_i : list Z) (xj : list float) : float :=
  np_sum (zip_with (fun w x => float_of_int w * x)%float wij_i xj).

Definition denom (n : Z) (s : float) (wij_i : list Z) (sum_wij_i : Z) : float :=
  (s * PrimFloat.sqrt
         (float_of_int
            (int64_sub (int64_mul n (np_sum_int (map (fun w => int64_mul w w) wij_i)))
                       (int64_mul sum_wij_i sum_wij_i))
          / float_of_int (n - 1)))%float.

Record Stat : Type := mkStat {
  st_gi_star : float;
  st_z_score : float;
  st_p_value : float
}.

Section Statistic.

(** [scipy.stats.norm.cdf] *)
Variable norm_cdf : float -> float.

Definition gi_star_stat (n : Z) (g : GlobalStats) (xj : list float)
           (wij_i : list Z) (sum_wij_i : Z) : Stat :=
  let num := num wij_i xj in
  let denom := denom n (s g) wij_i sum_wij_i in
  if (denom =? 0)%float then
    mkStat 0 0 1
  else
    let gi_star := ((num - mean_x g * float_of_int sum_wij_i) / denom)%float in
    let z_score := gi_star in
    let p_value := (2 * (1 - norm_cdf (abs z_score)))%float in
    mkStat gi_star z_score p_value.

(** One pass of the loop of lines 87-120. *)
Definition result_of (n : Z) (g : GlobalStats) (coords : list (Cell * Cell))
           (xj : list float) (wij : list (list Z)) (sum_wij : list Z)
           (i : nat) : Exc HotspotResult :=
  try! wij_i := getitem wij i in
  try! sum_wij_i := getitem sum_wij i in
  let st := gi_star_stat n g xj wij_i sum_wij_i in
  let label := classify (st_z_score st) in
  try! c := getitem coords i in
  try! x := getitem xj i in
  Return (mkResult (Z.of_nat i) (cell_float c.1) (cell_float c.2) x
                   (st_gi_star st) (st_z_score st) (st_p_value st)
                   label sum_wij_i).

End Statistic.

(** ** The weight matrix: lines 63-76 *)

(** The [distance_threshold] entry of the answer. *)
Definition variable_from_data : Value := VStr "variable (from data)".

(** Whether the per-point branch of line 64 is taken. *)
Definition variable_policy (distance_threshold : option float) (df : DataFrame) : bool :=
  match distance_threshold with
  | None => has_column df "distance"
  | Some _ => false
  end.

(** The scalar applied by the [else] branch of lines 71-73. *)
Definition fixed_threshold (distance_threshold : option float) : float :=
  match distance_threshold with
  | None => 1000.0%float
  | Some t => t
  end.

(** Lines 65-68: row [i] thresholded by [distance_arr[i]]. *)
Definition variable_weights (n : nat) (dists : list (list float))
           (distance_arr : list float) : Exc (list (list Z)) :=
  mapM (fun i =>
          try! row := getitem dists i in
          try! r := getitem distance_arr i in
          Return (threshold_row row r)) (seq 0 n).

(** Line 73 *)
Definition fixed_weights (dists : list (list float)) (t : float) : list (list Z) :=
  map (fun row => threshold_row row t) dists.

(** Lines 64-76: the matrix after [np.fill_diagonal], and [used_distance]. *)
Definition weights (df : DataFrame) (n : nat) (dists : list (list float))
           (distance_threshold : option float) : Exc (list (list Z) * Value) :=
  try! r :=
    (if variable_policy distance_threshold df then
       try! cells := column_values df "distance" in
       try! distance_arr := astype_float cells in
       try! wij := variable_weights n dists distance_arr in
       Return (wij, variable_from_data)
     else
       let distance_threshold := fixed_threshold distance_threshold in
       Return (fixed_weights dists distance_threshold, VFloat distance_threshold)) in
  Return (fill_diagonal r.1 0, r.2).

(** ** The analysis *)

(** The variables in scope after line 76; [len_df] is the code's [n]. *)
Record Prepared : Type := mkPrepared {
  len_df : nat;
  coords : list (Cell * Cell);
  values : list float;
  dists : list (list float);
  wij : list (list Z);
  used_distance : Value
}.

(** The value [distance_threshold] is bound to in the core function, whose
    signature gives it the default [1000.0]. *)
Definition bound (distance_threshold : Arg (option float)) : option float :=
  with_default (Some 1000.0%float) distance_threshold.

Section Analysis.

(** [os.path.exists] *)
Variable os_path_exists : string -> bool.
(** [pandas.read_csv] and [pandas.read_excel] *)
Variable pd_read_csv : string -> Exc DataFrame.
Variable pd_read_excel : string -> Exc DataFrame.
(** [sklearn.metrics.pairwise.haversine_distances], in radians *)
Variable haversine_distances :
  list (float * float) -> list (float * float) -> Exc (list (list float)).
(** [pow] of the C library, called by NumPy for [x ** y] on scalars *)
Variable libm_pow : float -> float -> float.
(** [scipy.stats.norm.cdf] *)
Variable norm_cdf : float -> float.

(** Line 61: great-circle distances in metres. *)
Definition distances (coords_rad : list (float * float)) : Exc (list (list float)) :=
  try! h := haversine_distances coords_rad coords_rad in
  Return (map (map (fun d => d * 6371000)%float) h).

(** Lines 54-76, once the table is loaded and its columns are checked. *)
Definition prepare (df : DataFrame) (lat_col lon_col value_col : string)
           (distance_threshold : option float) : Exc Prepared :=
  try! lat := column_values df lat_col in
  try! lon := column_values df lon_col in
  let coords := coords_values lat lon in
  try! cells := column_values df value_col in
  try! values := astype_float cells in
  let n := df_len df in
  try! coords_rad := np_radians coords in
  try! dists := distances coords_rad in
  try! w := weights df n dists distance_threshold in
  Return (mkPrepared n coords values dists w.1 w.2).

(** Lines 78-127: the statistics, the loop over the points and the answer. *)
Definition assemble (p : Prepared) : Exc Doc :=
  let n := len_df p in
  let sum_wij := map np_sum_int (wij p) in
  let xj := values p in
  let g := global_stats libm_pow (Z.of_nat n) xj in
  try! results :=
    mapM (result_of norm_cdf (Z.of_nat n) g (coords p) xj (wij p) sum_wij)
         (seq 0 n) in
  Return [("status", VStr "success");
          ("count", VInt (Z.of_nat n));
          ("distance_threshold", used_distance p);
          ("results", VResults results)].

(** Lines 36-44: the table, or [None] for an unsupported extension. *)
Definition read_table (file_path : string) : Exc (option DataFrame) :=
  if endswith (lower file_path) ".csv" then
    try! df := pd_read_csv file_path in Return (Some df)
  else if endswith (lower file_path) ".xls" || endswith (lower file_path) ".xlsx" then
    try! df := pd_read_excel file_path in Return (Some df)
  else
    Return None.

(** Lines 47-52: the first required column the table lacks. *)
Definition missing_column (df : DataFrame) (lat_col lon_col value_col : string)
  : option string :=
  find (fun col => negb (has_column df col)) [lat_col; lon_col; value_col].

(** The body of the [try] statement, lines 36-127. *)
Definition try_body (file_path lat_col lon_col value_col : string)
           (distance_threshold : option float) : Exc Doc :=
  try! table := read_table file_path in
  match table with
  | None => Return (failure "仅支持csv、xls、xlsx文件")
  | Some df =>
      match missing_column df lat_col lon_col value_col with
      | Some col => Return (failure ("缺少字段: " +:+ col))
      | None =>
          try! p := prepare df lat_col lon_col value_col distance_threshold in
          assemble p
      end
  end.

(** Lines 29-132, for the value [distance_threshold] is bound to. *)
Definition run (file_path lat_col lon_col value_col : string)
           (distance_threshold : option float) : Doc :=
  if negb (os_path_exists file_path) then
    failure ("文件不存在: " +:+ file_path)
  else
    match try_body file_path lat_col lon_col value_col distance_threshold with
    | Return doc => doc
    | Raise e => failure ("热点分析出错: " +:+ e)
    end.

(** The state of a run that reaches line 78, if it does. *)
Definition prepared (file_path lat_col lon_col value_col : string)
           (distance_threshold : option float) : option Prepared :=
  if os_path_exists file_path then
    match read_table file_path with
    | Return (Some df) =>
        match missing_column df lat_col lon_col value_col with
        | None =>
            match prepare df lat_col lon_col value_col distance_threshold with
            | Return p => Some p
            | Raise _ => None
            end
        | Some _ => None
        end
    | _ => None
    end
  else None.

(** The function of src/geo_mcp/core/spatial_analysis.py. *)
Definition hotspot_analysis_getis_ord_gi_star
           (file_path lat_col lon_col value_col : string)
           (distance_threshold : Arg (option float)) : Doc :=
  run file_path lat_col lon_col value_col (bound distance_threshold).

End Analysis.

(** The answer of a run that reaches line 78 and completes the loop. *)
Definition success (p : Prepared) (results : list HotspotResult) : Doc :=
  [("status", VStr "success");
   ("count", VInt (Z.of_nat (len_df p)));
   ("distance_threshold", used_distance p);
   ("results", VResults results)].

(** The threshold the fixed branch applies in the core function. *)
Definition applied_threshold (distance_threshold : Arg (option float)) : float :=
  match distance_threshold with
  | Passed (Some t) => t
  | _ => 1000.0%float
  end.

(** Rows of a weight matrix hold zeros and ones. *)
Definition binary (row : list Z) : Prop := Forall (fun x => x = 0 \/ x = 1) row.

(** ** Outcomes

    The answers of a run, by the stage at which it stops. *)

Section Outcomes.

Variable os_path_exists : string -> bool.
Variable pd_read_csv : string -> Exc DataFrame.
Variable pd_read_excel : string -> Exc DataFrame.
Variable haversine_distances :
  list (float * float) -> list (float * float) -> Exc (list (list float)).
Variable libm_pow : float -> float -> float.
Variable norm_cdf : float -> float.

Inductive Outcome (file_path lat_col lon_col value_col : string)
          (distance_threshold : option float) : Doc -> Prop :=
| no_file :
    os_path_exists file_path = false ->
    Outcome file_path lat_col lon_col value_col distance_threshold
            (failure ("文件不存在: " +:+ file_path))
| read_error e :
    os_path_exists file_path = true ->
    read_table pd_read_csv pd_read_excel file_path = Raise e ->
    Outcome file_path lat_col lon_col value_col distance_threshold
            (failure ("热点分析出错: " +:+ e))
| bad_extension :
    os_path_exists file_path = true ->
    read_table pd_read_csv pd_read_excel file_path = Return None ->
    Outcome file_path lat_col lon_col value_col distance_threshold
            (failure "仅支持csv、xls、xlsx文件")
| no_column df col :
    os_path_exists file_path = true ->
    read_table pd_read_csv pd_read_excel file_path = Return (Some df) ->
    missing_column df lat_col lon_col value_col = Some col ->
    Outcome file_path lat_col lon_col value_col distance_threshold
            (failure ("缺少字段: " +:+ col))
| prepare_error df e :
    os_path_exists file_path = true ->
    read_table pd_read_csv pd_read_excel file_path = Return (Some df) ->
    missing_column df lat_col lon_col value_col = None ->
    prepare haversine_distances df lat_col lon_col value_col distance_threshold = Raise e ->
    Outcome file_path lat_col lon_col value_col distance_threshold
            (failure ("热点分析出错: " +:+ e))
| loop_error df p e :
    os_path_exists file_path = true ->
    read_table pd_read_csv pd_read_excel file_path = Return (Some df) ->
    missing_column df lat_col lon_col value_col = None ->
    prepare haversine_distances df lat_col lon_col value_col distance_threshold = Return p ->
    assemble libm_pow norm_cdf p = Raise e ->
    Outcome file_path lat_col lon_col value_col distance_threshold
            (failure ("热点分析出错: " +:+ e))
| completed df p results :
    os_path_exists file_path = true ->
    read_table pd_read_csv pd_read_excel file_path = Return (Some df) ->
    missing_column df lat_col lon_col value_col = None ->
    prepare haversine_distances df lat_col lon_col value_col distance_threshold = Return p ->
    assemble libm_pow norm_cdf p = Return (success p results) ->
    Outcome file_path lat_col lon_col value_col distance_threshold
            (success p results).

End Outcomes.


(** ** The variant of src/mcp-client/server.py

    The same statements up to line 127 of the core module, except that an
    omitted [distance_threshold] is [None], and that the answer echoes the
    variable [distance_threshold] itself, as reassigned by the fixed
    branch, or the text "variable" while it is still [None]. *)

Module Client.

(** Lines 322-333: the matrix after [np.fill_diagonal] and the value of
    [distance_threshold] afterwards. *)
Definition weights (df : DataFrame) (n : nat) (dists : list (list float))
           (distance_threshold : option float)
  : Exc (list (list Z) * option float) :=
  try! r :=
    (if variable_policy distance_threshold df then
       try! cells := column_values df "distance" in
       try! distance_arr := astype_float cells in
       try! wij := variable_weights n dists distance_arr in
       Return (wij, distance_threshold)
     else
       let distance_threshold := fixed_threshold distance_threshold in
       Return (fixed_weights dists distance_threshold, Some distance_threshold)) in
  Return (fill_diagonal r.1 0, r.2).

(** Line 378 *)
Definition echo (distance_threshold : option float) : Value :=
  match distance_threshold with
  | Some t => VFloat t
  | None => VStr "variable"
  end.

Section Analysis.

Variable os_path_exists : string -> bool.
Variable pd_read_csv : string -> Exc DataFrame.
Variable pd_read_excel : string -> Exc DataFrame.
Variable haversine_distances :
  list (float * float) -> list (float * float) -> Exc (list (list float)).
Variable libm_pow : float -> float -> float.
Variable norm_cdf : float -> float.

Definition prepare (df : DataFrame) (lat_col lon_col value_col : string)
           (distance_threshold : option float) : Exc Prepared :=
  try! lat := column_values df lat_col in
  try! lon := column_values df lon_col in
  let coords := coords_values lat lon in
  try! cells := column_values df value_col in
  try! values := astype_float cells in
  let n := df_len df in
  try! coords_rad := np_radians coords in
  try! dists := distances haversine_distances coords_rad in
  try! w := weights df n dists distance_threshold in
  Return (mkPrepared n coords values dists w.1 (echo w.2)).

Definition try_body (file_path lat_col lon_col value_col : string)
           (distance_threshold : option float) : Exc Doc :=
  try! table := read_table pd_read_csv pd_read_excel file_path in
  match table with
  | None => Return (failure "仅支持csv、xls、xlsx文件")
  | Some df =>
      match missing_column df lat_col lon_col value_col with
      | Some col => Return (failure ("缺少字段: " +:+ col))
      | None =>
          try! p := prepare df lat_col lon_col value_col distance_threshold in
          assemble libm_pow norm_cdf p
      end
  end.

Definition hotspot_analysis_getis_ord_gi_star
           (file_path lat_col lon_col value_col : string)
           (distance_threshold : Arg (option float)) : Doc :=
  if negb (os_path_exists file_path) then
    failure ("文件不存在: " +:+ file_path)
  else
    match try_body file_path lat_col lon_col value_col
                   (with_default None distance_threshold) with
    | Return doc => doc
    | Raise e => failure ("热点分析出错: " +:+ e)
    end.

End Analysis.

End Client.

(** ** The statistic as the specification words it

    Sections 4.3 and 4.4, read in binary64: a sum over [j] adds its terms
    one after the other from 0, a square is the product of a number with
    itself, and the integer sums are sums of integers. *)

Module Spec.

Definition sum (x : list float) : float :=
  fold_left (fun acc x_j => acc + x_j)%float x 0%float.

Definition sum_int (l : list Z) : Z := fold_left Z.add l 0.

Definition mean (n : Z) (x : list float) : float :=
  (sum x / float_of_int n)%float.

Definition pooled_std (n : Z) (x : list float) : float :=
  PrimFloat.sqrt
    (sum (map (fun x_j => x_j * x_j) x) / float_of_int n
     - mean n x * mean n x)%float.

Definition sum_w (w_i : list Z) : Z := sum_int w_i.

Definition numerator (n : Z) (x : list float) (w_i : list Z) : float :=
  (sum (zip_with (fun w x_j => float_of_int w * x_j) w_i x)
   - mean n x * float_of_int (sum_w w_i))%float.

Definition denom (n : Z) (x : list float) (w_i : list Z) : float :=
  (pooled_std n x *
   PrimFloat.sqrt
     (float_of_int (n * sum_int (map (fun w => w * w) w_i) - sum_w w_i * sum_w w_i)%Z
      / float_of_int (n - 1)%Z))%float.

Definition gi_star (n : Z) (x : list float) (w_i : list Z) : float :=
  (numerator n x w_i / denom n x w_i)%float.

Definition p_value (Phi : float -> float) (z_score : float) : float :=
  (2 * (1 - Phi (abs z_score)))%float.

End Spec.

(** ** Divisions made explicit

    The statistics with every division checked: [None] stands for a
    division whose divisor is zero.  The divisors [n] and [n - 1] are
    Python integers, [denom] is a [float64]. *)

Module Checked.

Definition div_int (x : float) (d : Z) : option float :=
  if d =? 0 then None else Some (x / float_of_int d)%float.

Definition div_float (x d : float) : option float :=
  if (d =? 0)%float then None else Some (x / d)%float.

Definition global_stats (libm_pow : float -> float -> float)
           (n : Z) (xj : list float) : option GlobalStats :=
  let xj_sum := np_sum xj in
  let xj2_sum := np_sum (map (fun x => x * x)%float xj) in
  mean_x ← div_int xj_sum n;
  q ← div_int xj2_sum n;
  Some (mkStats mean_x (PrimFloat.sqrt (q - libm_pow mean_x 2)%float)).

Definition denom (n : Z) (s : float) (wij_i : list Z) (sum_wij_i : Z)
  : option float :=
  q ← div_int
        (float_of_int
           (int64_sub (int64_mul n (np_sum_int (map (fun w => int64_mul w w) wij_i)))
                      (int64_mul sum_wij_i sum_wij_i)))
        (n - 1);
  Some (s * PrimFloat.sqrt q)%float.

Definition gi_star_stat (norm_cdf : float -> float) (n : Z) (g : GlobalStats)
           (xj : list float) (wij_i : list Z) (sum_wij_i : Z) : option Stat :=
  let num := num wij_i xj in
  denom ← denom n (s g) wij_i sum_wij_i;
  if (denom =? 0)%float then
    Some (mkStat 0 0 1)
  else
    gi_star ← div_float (num - mean_x g * float_of_int sum_wij_i)%float denom;
    let z_score := gi_star in
    let p_value := (2 * (1 - norm_cdf (abs z_score)))%float in
    Some (mkStat gi_star z_score p_value).

End Checked.

(** ** Shapes

    What the arrays of a run look like when the table has [len_df] rows in
    every column and the distance matrix is square. *)

Definition well_shaped (p : Prepared) : bool :=
  (length (coords p) =? len_df p)%nat &&
  (length (values p) =? len_df p)%nat &&
  (length (wij p) =? len_df p)%nat &&
  forallb (fun row => (length row =? len_df p)%nat) (wij p).

Definition square (n : nat) (m : list (list float)) : bool :=
  (length m =? n)%nat && forallb (fun row => (length row =? n)%nat) m.

(** Every column of a table has as many cells as the table has rows. *)
Definition frame_ok (df : DataFrame) : bool :=
  forallb (fun c => (length c.2 =? df_len df)%nat) (df_columns df).

(** Entry [w[i][j]] of a matrix. *)
Definition entry {A : Type} (w : list (list A)) (i j : nat) : option A :=
  w !! i ≫= (.!! j).

(** Whether two entries are the same [float64], or both absent. *)
Definition same_entry (a b : option float) : bool :=
  match a, b with
  | Some x, Some y => PrimFloat.Leibniz.eqb x y
  | None, None => true
  | _, _ => false
  end.

(** [dist[i][j] == dist[j][i]] for all [i], [j] below [n]. *)
Definition symmetricb (n : nat) (m : list (list float)) : bool :=
  forallb (fun i => forallb (fun j => same_entry (entry m i j) (entry m j i))
                            (seq 0 n))
          (seq 0 n).

(** ** A sample environment

    Stand-ins for the library functions, used to run the analysis on
    concrete tables: on the equator the central angle between two points
    is their difference of longitude, which [sample_haversine] returns
    (in radians) for such points. *)

Module Sample.

Local Open Scope float_scope.

Definition exists_ (file_path : string) : bool :=
  String.eqb file_path "points.csv".

Definition table (lat lon value : list float) : DataFrame :=
  mkDataFrame [("lat", CNum <$> lat); ("lon", CNum <$> lon);
               ("value", CNum <$> value)] (length lat).

Definition with_distance (df : DataFrame) (radii : list float) : DataFrame :=
  mkDataFrame (df_columns df ++ [("distance", CNum <$> radii)]) (df_len df).

Definition angle (a b : float * float) : float :=
  PrimFloat.sqrt ((a.1 - b.1) * (a.1 - b.1) + (a.2 - b.2) * (a.2 - b.2)).

Definition haversine (X Y : list (float * float)) : Exc (list (list float)) :=
  Return (map (fun x => map (angle x) Y) X).

(** A sigmoid with value 1/2 at 0, NaN at NaN. *)
Definition cdf (x : float) : float :=
  0.5 + 0.5 * (x / PrimFloat.sqrt (1 + x * x)).

(** The [pow] of the GNU C library at the exponent 2, the only one the
    analysis uses.  For most arguments it returns the rounded product;
    at 95.97 it returns the next number above it. *)
Definition glibc_pow (x y : float) : float :=
  if (y =? 2) then
    if (x =? 95.97) then 0x1.1fd1ed5cfaacep+13 else x * x
  else nan.

Definition no_excel (file_path : string) : Exc DataFrame :=
  Raise "Excel file format cannot be determined".

(** Three points on the equator: 0 and 2 are 111 m apart, 1 is 111 km away. *)
Definition three_points : DataFrame :=
  table [0; 0; 0] [0; 1; 0.001] [0; 2; 1].

Definition one_point : DataFrame := table [0] [0] [5].

Definition core (df : DataFrame) (distance_threshold : Arg (option float)) : Doc :=
  hotspot_analysis_getis_ord_gi_star
    exists_ (fun _ => Return df) no_excel haversine glibc_pow cdf
    "points.csv" "lat" "lon" "value" distance_threshold.

Definition client (df : DataFrame) (distance_threshold : Arg (option float)) : Doc :=
  Client.hotspot_analysis_getis_ord_gi_star
    exists_ (fun _ => Return df) no_excel haversine glibc_pow cdf
    "points.csv" "lat" "lon" "value" distance_threshold.

Definition state (df : DataFrame) (distance_threshold : option float)
  : option Prepared :=
  prepared exists_ (fun _ => Return df) no_excel haversine
           "points.csv" "lat" "lon" "value" distance_threshold.

(** Twenty points on the equator: a pair 111 m apart with value [v], and
    eighteen points with value 0, one degree of longitude apart. *)
Definition cluster (v : float) : DataFrame :=
  table (replicate 20 0)
        ([0; 0.001] ++ map (fun k => float_of_int (Z.of_nat k)) (seq 1 18))
        ([v; v] ++ replicate 18 0).

(** The [results] entry of an answer (empty when there is none). *)
Definition results_of (doc : Doc) : list HotspotResult :=
  match get "results" doc with
  | Some (VResults rs) => rs
  | _ => []
  end.

End Sample.

(** ** Sample runs, evaluated *)

Module Examples.

Import Sample.
Local Open Scope float_scope.

Definition hot_results : list HotspotResult :=
  Eval vm_compute in results_of (core (cluster 10) Omitted).

Definition hot_point : HotspotResult :=
  Eval vm_compute in
    match hot_results with
    | r :: _ => r
    | [] => mkResult 0 0 0 0 0 0 0 not_significant 0
    end.

Definition three_state : Prepared :=
  Eval vm_compute in
    match state three_points (Some 1000) with
    | Some p => p
    | None => mkPrepared 0 [] [] [] [] (VStr "")
    end.

Definition three_results : list HotspotResult :=
  Eval vm_compute in results_of (core three_points Omitted).

(** The three points with a catchment radius each: 200 m, 0 m and 50 m. *)
Definition radii_table : DataFrame := with_distance three_points [200; 0; 50].

Definition radii_state : Prepared :=
  Eval vm_compute in
    match state radii_table None with
    | Some p => p
    | None => mkPrepared 0 [] [] [] [] (VStr "")
    end.

End Examples.

(** * The rest of the tool set

    The functions around the hotspot analysis: the configuration
    helpers, the geodesic distance, the distance distribution, the
    dispatcher of the SSE server and the route distance. *)

#[local] Set Warnings "-register-all".

(** ** Python values

    The objects that [json.loads] and [yaml.safe_load] build and that the
    code passes around untyped.  A [dict] keeps its keys in insertion
    order; its keys are strings, as the annotations [Dict[str, Any]] say. *)

Inductive PyVal : Type :=
| PNone
| PBool (b : bool)
| PInt (z : Z)
| PFloat (f : float)
| PStr (s : string)
| PList (l : list PyVal)
| PDict (d : list (string * PyVal)).

(** [d[k] = v] on a [dict]: an existing key keeps its place. *)
Fixpoint dict_set {A : Type} (k : string) (v : A) (d : list (string * A))
  : list (string * A) :=
  match d with
  | [] => [(k, v)]
  | (k', v') :: d' =>
      if String.eqb k k' then (k, v) :: d' else (k', v') :: dict_set k v d'
  end.

(** [needle in hay] on two strings *)
Fixpoint contains (needle hay : string) : bool :=
  String.prefix needle hay ||
  match hay with
  | EmptyString => false
  | String _ hay' => contains needle hay'
  end.

Definition is_str (key : string) (v : PyVal) : bool :=
  match v with
  | PStr s => String.eqb s key
  | _ => false
  end.

(** The name [type(v).__name__] *)
Definition py_type (v : PyVal) : string :=
  match v with
  | PNone => "NoneType"
  | PBool _ => "bool"
  | PInt _ => "int"
  | PFloat _ => "float"
  | PStr _ => "str"
  | PList _ => "list"
  | PDict _ => "dict"
  end.

(** [key in container], for a string [key] *)
Definition py_in (key : string) (container : PyVal) : Exc bool :=
  match container with
  | PDict d => Return (bool_decide (is_Some (assoc key d)))
  | PStr s => Return (contains key s)
  | PList l => Return (existsb (is_str key) l)
  | _ => Raise ("argument of type '" +:+ py_type container +:+ "' is not iterable")
  end.

(** [container[key]], for a string [key] *)
Definition py_getitem (container : PyVal) (key : string) : Exc PyVal :=
  match container with
  | PDict d =>
      match assoc key d with
      | Some v => Return v
      | None => Raise ("'" +:+ key +:+ "'")
      end
  | PStr _ => Raise "string indices must be integers, not 'str'"
  | PList _ => Raise "list indices must be integers or slices, not str"
  | _ => Raise ("'" +:+ py_type container +:+ "' object is not subscriptable")
  end.

(** [container[key] = v], for a string [key]: the container afterwards *)
Definition py_setitem (container : PyVal) (key : string) (v : PyVal) : Exc PyVal :=
  match container with
  | PDict d => Return (PDict (dict_set key v d))
  | PList _ => Raise "list indices must be integers or slices, not str"
  | _ => Raise ("'" +:+ py_type container +:+
                "' object does not support item assignment")
  end.

(** [s.split(sep)] for a separator of one character *)
Fixpoint split_on (sep : ascii) (s : string) : list string :=
  match s with
  | EmptyString => [EmptyString]
  | String c s' =>
      if Ascii.eqb c sep then EmptyString :: split_on sep s'
      else
        match split_on sep s' with
        | p :: ps => String c p :: ps
        | [] => [String c EmptyString]
        end
  end.

(** Whether the character [c] occurs in [s]. *)
Fixpoint occurs (c : ascii) (s : string) : bool :=
  match s with
  | EmptyString => false
  | String c' s' => Ascii.eqb c' c || occurs c s'
  end.

(** [s.count(c)] for one character *)
Fixpoint count_char (c : ascii) (s : string) : nat :=
  match s with
  | EmptyString => 0
  | String c' s' => (if Ascii.eqb c' c then 1 else 0) + count_char c s'
  end.

(** ** Configuration: src/geo_mcp/utils/config.py *)

Module Config.

(** [_get_default_config], lines 43-64 *)
Definition _get_default_config : PyVal :=
  PDict [("api", PDict [("gaode_key", PStr ""); ("base_url", PStr "");
                        ("model", PStr "default")]);
         ("spatial", PDict [("default_crs", PStr "EPSG:4326");
                            ("distance_unit", PStr "km")]);
         ("debug", PDict [("enabled", PBool false); ("log_level", PStr "info")])].

Section Files.

(** [os.path.exists] *)
Variable os_path_exists : string -> bool.
(** [open] followed by [yaml.safe_load]: the document, [None] for an empty
    file, or the exception of either. *)
Variable yaml_safe_load : string -> Exc PyVal.

(** [load_config], lines 15-40; the log lines are left out. *)
Definition load_config (config_path : Arg string) : PyVal :=
  let config_path := with_default "config.yaml" config_path in
  match
    (if negb (os_path_exists config_path) then Return _get_default_config
     else
       try! config := yaml_safe_load config_path in
       match config with
       | PNone => Return _get_default_config
       | _ => Return config
       end)
  with
  | Return config => config
  | Raise _ => _get_default_config
  end.

End Files.

(** [get_api_key], lines 67-88; [PNone] is Python's [None]. *)
Definition get_api_key (config : PyVal) (api_name : string) : PyVal :=
  match
    (try! has_api := py_in "api" config in
     if negb has_api then Return PNone
     else
       let key_name := api_name +:+ "_key" in
       try! api := py_getitem config "api" in
       try! has_key := py_in key_name api in
       if has_key then
         try! api := py_getitem config "api" in
         py_getitem api key_name
       else Return PNone)
  with
  | Return v => v
  | Raise _ => PNone
  end.

(** The loop of lines 110-113 followed by line 116: [current] after the
    assignments.  The dictionaries are reached by reference, so that an
    assignment below [current[key]] is seen through [current]. *)
Fixpoint set_path (current : PyVal) (keys : list string) (last_key : string)
         (value : PyVal) : Exc PyVal :=
  match keys with
  | [] => py_setitem current last_key value
  | key :: keys' =>
      try! present := py_in key current in
      try! current :=
        (if negb present then py_setitem current key (PDict [])
         else Return current) in
      try! child := py_getitem current key in
      try! child := set_path child keys' last_key value in
      py_setitem current key child
  end.

(** [set_config_value], lines 91-118: the dictionary [config] afterwards,
    which is also what the function returns. *)
Definition set_config_value (config : PyVal) (key_path : string) (value : PyVal)
  : Exc PyVal :=
  match key_path with
  | EmptyString => Return config
  | _ =>
      let keys := split_on "." key_path in
      set_path config (removelast keys) (List.last keys EmptyString) value
  end.

(** Whether the loop of lines 110-113 only meets dictionaries. *)
Fixpoint path_clear (current : PyVal) (keys : list string) : bool :=
  match current with
  | PDict d =>
      match keys with
      | [] => true
      | key :: keys' =>
          match assoc key d with
          | Some child => path_clear child keys'
          | None => true
          end
      end
  | _ => false
  end.

End Config.

(** ** Geodesic distance: src/geo_mcp/core/geo_distance.py

    [calculate_geodesic_distance], which src/mcp-client/server.py repeats
    line for line.  The documents are those handed to [json.dumps]. *)

Module GeoDistance.

(** The [geopy] distance object, as far as the code reads it. *)
Record Distance : Type := mkDistance {
  kilometers : float;
  meters : float
}.

Definition failure_input (info input : string) : PyVal :=
  PDict [("status", PStr "failure"); ("info", PStr info); ("input", PStr input)].

(** [isinstance(point, list) and len(point) == 2] *)
Definition is_pair (point : PyVal) : bool :=
  match point with
  | PList [_; _] => true
  | _ => false
  end.

(** Line 20 *)
Definition json_shaped (coordinates_json : string) : bool :=
  String.prefix "{" coordinates_json && endswith coordinates_json "}".

Section Geodesic.

(** [json.loads]; [None] stands for a [json.JSONDecodeError]. *)
Variable json_loads : string -> option PyVal.
(** [geopy.distance.geodesic], which raises on coordinates it rejects *)
Variable geodesic : PyVal -> PyVal -> Exc Distance.
(** [float] on a string; [None] stands for a [ValueError]. *)
Variable py_float : string -> option float.
(** [round(x, 2)] *)
Variable round2 : float -> float.
(** [str] on a float, as an f-string renders it *)
Variable float_str : float -> string.

(** Lines 80-81 (and 91-92): [None] stands for the [ValueError] of the
    unpacking or of [float]. *)
Definition parse_point (part : string) : option (float * float) :=
  match split_on "_" part with
  | [lat; lon] =>
      lat ← py_float lat;
      lon ← py_float lon;
      Some (lat, lon)
  | _ => None
  end.

Definition point_list (point : float * float) : PyVal :=
  PList [PFloat point.1; PFloat point.2].

(** Lines 108-112 *)
Definition point_doc (point : float * float) : PyVal :=
  PDict [("latitude", PFloat point.1);
         ("longitude", PFloat point.2);
         ("formatted", PStr (float_str point.1 +:+ "_" +:+ float_str point.2))].

(** Lines 22-65: the [try] statement of the JSON format, whose handler
    catches [json.JSONDecodeError] only. *)
Definition json_format (coordinates_json : string) : Exc PyVal :=
  match json_loads coordinates_json with
  | None => Return (failure_input "无效的JSON格式" coordinates_json)
  | Some data =>
      try! has1 := py_in "point1" data in
      try! missing :=
        (if negb has1 then Return true
         else try! has2 := py_in "point2" data in Return (negb has2)) in
      if missing then
        Return (failure_input "输入数据缺少'point1'或'point2'字段" coordinates_json)
      else
        try! point1 := py_getitem data "point1" in
        try! point2 := py_getitem data "point2" in
        if negb (is_pair point1) || negb (is_pair point2) then
          Return (failure_input "坐标格式错误，应为[latitude, longitude]"
                                coordinates_json)
        else
          try! distance := geodesic point1 point2 in
          Return (PDict [("status", PStr "success");
                         ("distance_km", PFloat (round2 (kilometers distance)));
                         ("distance_m", PFloat (round2 (meters distance)));
                         ("point1", point1);
                         ("point2", point2);
                         ("input_format", PStr "json")])
  end.

(** Lines 70-121: the body of the [try] statement of the simple format. *)
Definition simple_body (coordinates_json : string) : Exc PyVal :=
  match split_on "," coordinates_json with
  | [part1; part2] =>
      match parse_point part1 with
      | None => Return (failure_input "第一个坐标点格式错误，应为'纬度_经度'" part1)
      | Some point1 =>
          match parse_point part2 with
          | None =>
              Return (failure_input "第二个坐标点格式错误，应为'纬度_经度'" part2)
          | Some point2 =>
              try! distance := geodesic (point_list point1) (point_list point2) in
              Return (PDict [("status", PStr "success");
                             ("distance_km", PFloat (round2 (kilometers distance)));
                             ("distance_m", PFloat (round2 (meters distance)));
                             ("point1", point_doc point1);
                             ("point2", point_doc point2);
                             ("input_format", PStr "simple")])
          end
      end
  | _ => Return (failure_input "坐标格式错误，应为'纬度_经度,纬度_经度'"
                               coordinates_json)
  end.

(** Lines 68-128: the handler catches every exception. *)
Definition simple_format (coordinates_json : string) : Exc PyVal :=
  match simple_body coordinates_json with
  | Return doc => Return doc
  | Raise e => Return (failure_input ("计算距离时出错: " +:+ e) coordinates_json)
  end.

Definition calculate_geodesic_distance (coordinates_json : string) : Exc PyVal :=
  if json_shaped coordinates_json then json_format coordinates_json
  else simple_format coordinates_json.

End Geodesic.

End GeoDistance.

(** Stand-ins for [json.loads], [geodesic], [float], [round] and [str]:
    one JSON text and a few numerals are understood, latitudes above 90
    are rejected as [geopy] does, and every distance is one kilometre. *)

Module SampleGeo.

Import GeoDistance.
Local Open Scope float_scope.

(** The double quote, and the text
    {"point1": [91, 0], "point2": [0, 0]}. *)
Definition dq : string := String (ascii_of_nat 34) EmptyString.

Definition north_of_pole : string :=
  "{" +:+ dq +:+ "point1" +:+ dq +:+ ": [91, 0], " +:+
  dq +:+ "point2" +:+ dq +:+ ": [0, 0]}".

Definition json_loads (s : string) : option PyVal :=
  if String.eqb s north_of_pole then
    Some (PDict [("point1", PList [PInt 91; PInt 0]);
                 ("point2", PList [PInt 0; PInt 0])])
  else None.

Definition too_far_north (point : PyVal) : bool :=
  match point with
  | PList (PInt z :: _) => (90 <? z)%Z
  | PList (PFloat x :: _) => 90 <? x
  | _ => false
  end.

Definition geodesic (p q : PyVal) : Exc Distance :=
  if too_far_north p || too_far_north q then
    Raise "Latitude must be in the [-90; 90] range."
  else Return (mkDistance 1 1000).

Definition py_float (s : string) : option float :=
  if String.eqb s "0" then Some 0
  else if String.eqb s "1" then Some 1
  else if String.eqb s "91" then Some 91
  else None.

Definition float_str (x : float) : string :=
  if x =? 0 then "0.0" else if x =? 1 then "1.0" else "91.0".

Definition distance (coordinates_json : string) : Exc PyVal :=
  calculate_geodesic_distance json_loads geodesic py_float (fun x => x) float_str
                              coordinates_json.

End SampleGeo.

(** ** The dispatcher: src/sse_server.py

    [execute_mcp_function] looks the arguments up in the request's
    parameters and calls the function named.  The functions are called
    with whatever objects the request holds. *)

(** [d.get(key, fallback)] *)
Definition py_get (d : PyVal) (key : string) (fallback : PyVal) : Exc PyVal :=
  match d with
  | PDict d => Return (default fallback (assoc key d))
  | _ => Raise ("'" +:+ py_type d +:+ "' object has no attribute 'get'")
  end.

(** The dictionaries of lines 110-120 and 122-127 of
    src/geo_mcp/core/spatial_analysis.py, as objects. *)
Definition result_doc (r : HotspotResult) : PyVal :=
  PDict [("index", PInt (index r));
         ("latitude", PFloat (latitude r));
         ("longitude", PFloat (longitude r));
         ("value", PFloat (value r));
         ("gi_star", PFloat (gi_star r));
         ("z_score", PFloat (z_score r));
         ("p_value", PFloat (p_value r));
         ("label", PStr (label_text (label r)));
         ("neighbors", PInt (neighbors r))].

Definition value_doc (v : Value) : PyVal :=
  match v with
  | VStr s => PStr s
  | VInt z => PInt z
  | VFloat f => PFloat f
  | VResults rs => PList (map result_doc rs)
  end.

Definition doc_value (doc : Doc) : PyVal :=
  PDict (map (fun kv => (kv.1, value_doc kv.2)) doc).

(** The threshold an object stands for, when it is [None] or a float. *)
Definition threshold_object (v : PyVal) : option (option float) :=
  match v with
  | PNone => Some None
  | PFloat t => Some (Some t)
  | _ => None
  end.

Module Sse.

(** Lines 272-276 *)
Definition failure_function (e function_name : string) : PyVal :=
  PDict [("status", PStr "failure");
         ("info", PStr ("函数执行错误: " +:+ e));
         ("function", PStr function_name)].

Section Dispatch.

(** The functions imported in lines 12-16, on objects *)
Variable calculate_geodesic_distance : PyVal -> Exc PyVal.
Variable read_table_file : PyVal -> PyVal -> Exc PyVal.
Variable analyze_distance_distribution : PyVal -> PyVal -> Exc PyVal.
Variable hotspot_analysis_getis_ord_gi_star :
  PyVal -> PyVal -> PyVal -> PyVal -> PyVal -> Exc PyVal.
Variable search_nearby_poi :
  PyVal -> PyVal -> PyVal -> PyVal -> PyVal -> PyVal -> PyVal -> Exc PyVal.
Variable geocode_address : PyVal -> PyVal -> PyVal -> Exc PyVal.
Variable calculate_route_distance : PyVal -> PyVal -> PyVal -> PyVal -> Exc PyVal.
(** [app.state.gaode_api_key], an [AttributeError] before it is set *)
Variable gaode_api_key : Exc PyVal.

(** Lines 211-268: the body of the [try] statement. *)
Definition try_body (function_name : string) (params : PyVal) : Exc PyVal :=
  if String.eqb function_name "calculate_geodesic_distance" then
    try! coordinates_json := py_get params "coordinates_json" (PStr "") in
    calculate_geodesic_distance coordinates_json
  else if String.eqb function_name "read_table_file" then
    try! file_path := py_get params "file_path" (PStr "") in
    try! nrows := py_get params "nrows" (PInt 5) in
    read_table_file file_path nrows
  else if String.eqb function_name "analyze_distance_distribution" then
    try! file_path := py_get params "file_path" (PStr "") in
    try! distance_col := py_get params "distance_col" (PStr "distance") in
    analyze_distance_distribution file_path distance_col
  else if String.eqb function_name "hotspot_analysis_getis_ord_gi_star" then
    try! file_path := py_get params "file_path" (PStr "") in
    try! lat_col := py_get params "lat_col" (PStr "") in
    try! lon_col := py_get params "lon_col" (PStr "") in
    try! value_col := py_get params "value_col" (PStr "") in
    try! distance_threshold :=
      py_get params "distance_threshold" (PFloat 1000.0) in
    hotspot_analysis_getis_ord_gi_star file_path lat_col lon_col value_col
                                       distance_threshold
  else if String.eqb function_name "search_nearby_poi" then
    try! key := gaode_api_key in
    try! location := py_get params "location" (PStr "") in
    try! keywords := py_get params "keywords" (PStr "") in
    try! poi_type := py_get params "poi_type" (PStr "") in
    try! radius := py_get params "radius" (PInt 5000) in
    try! page := py_get params "page" (PInt 1) in
    try! offset := py_get params "offset" (PInt 20) in
    search_nearby_poi key location keywords poi_type radius page offset
  else if String.eqb function_name "geocode_address" then
    try! key := gaode_api_key in
    try! address := py_get params "address" (PStr "") in
    try! city := py_get params "city" (PStr "") in
    geocode_address key address city
  else if String.eqb function_name "calculate_route_distance" then
    try! key := gaode_api_key in
    try! origin := py_get params "origin" (PStr "") in
    try! destination := py_get params "destination" (PStr "") in
    try! mode := py_get params "mode" (PStr "driving") in
    calculate_route_distance key origin destination mode
  else
    Raise ("未知的函数: " +:+ function_name).

(** [execute_mcp_function], lines 197-276; the log lines are left out. *)
Definition execute_mcp_function (function_name : string) (params : PyVal) : PyVal :=
  match try_body function_name params with
  | Return answer => answer
  | Raise e => failure_function e function_name
  end.

End Dispatch.

End Sse.

(** The functions the dispatcher calls, on objects: on a string each is
    the function modelled above; a call on any other object fails at the
    first string method. *)

Section OnObjects.

Variable json_loads : string -> option PyVal.
Variable geodesic : PyVal -> PyVal -> Exc GeoDistance.Distance.
Variable py_float : string -> option float.
Variable round2 : float -> float.
Variable float_str : float -> string.

(** Line 20 of src/geo_mcp/core/geo_distance.py is the first use of the
    argument. *)
Definition geodesic_distance_on (coordinates_json : PyVal) : Exc PyVal :=
  match coordinates_json with
  | PStr s =>
      GeoDistance.calculate_geodesic_distance
        json_loads geodesic py_float round2 float_str s
  | _ => Raise ("'" +:+ py_type coordinates_json +:+
                "' object has no attribute 'startswith'")
  end.

Variable os_path_exists : string -> bool.
Variable pd_read_csv : string -> Exc DataFrame.
Variable pd_read_excel : string -> Exc DataFrame.
Variable haversine_distances :
  list (float * float) -> list (float * float) -> Exc (list (list float)).
Variable libm_pow : float -> float -> float.
Variable norm_cdf : float -> float.
(** The hotspot analysis on arguments that are not four strings and a
    threshold that is [None] or a float: not modelled. *)
Variable hotspot_otherwise :
  PyVal -> PyVal -> PyVal -> PyVal -> PyVal -> Exc PyVal.

(** The call of lines 232-238 passes all five arguments. *)
Definition hotspot_on (file_path lat_col lon_col value_col distance_threshold : PyVal)
  : Exc PyVal :=
  match file_path, lat_col, lon_col, value_col,
        threshold_object distance_threshold with
  | PStr file_path, PStr lat_col, PStr lon_col, PStr value_col, Some t =>
      Return (doc_value
                (hotspot_analysis_getis_ord_gi_star
                   os_path_exists pd_read_csv pd_read_excel haversine_distances
                   libm_pow norm_cdf file_path lat_col lon_col value_col
                   (Passed t)))
  | _, _, _, _, _ =>
      hotspot_otherwise file_path lat_col lon_col value_col distance_threshold
  end.

End OnObjects.


(** Whether a [float64] is a number: neither NaN nor an infinity
    ([np.isfinite]). *)
Definition is_number (x : float) : bool :=
  match Prim2SF x with
  | S754_zero _ | S754_finite _ _ _ => true
  | _ => false
  end.

(** ** Distance distribution: src/geo_mcp/core/data_processing.py *)

Module DataProcessing.

Definition failure (info : string) : PyVal :=
  PDict [("status", PStr "failure"); ("info", PStr info)].

(** Lines 108-109 *)
Definition bins : list float :=
  [0; 100; 500; 1000; 2000; 5000; infinity]%float.

Definition labels : list string :=
  ["0-100m"; "100-500m"; "500-1000m"; "1-2km"; "2-5km"; ">5km"].

(** [np.searchsorted(bins, x, side="left")] on ascending [bins]: the
    number of leading edges below [x]; NaN sorts after every number. *)
Fixpoint leading_below (bins : list float) (x : float) : nat :=
  match bins with
  | [] => 0
  | b :: bins' => if (b <? x)%float then S (leading_below bins' x) else 0
  end.

Definition searchsorted_left (bins : list float) (x : float) : nat :=
  if is_nan x then length bins else leading_below bins x.

(** [pd.cut(x, bins, labels)] on one value, with the default [right=True]:
    the index of the label of the interval (bins[k], bins[k+1]] that holds
    [x], or [None] (a missing value) when [x] is NaN or in no interval. *)
Definition cut (bins : list float) (x : float) : option nat :=
  let ids := searchsorted_left bins x in
  if is_nan x || (ids =? length bins)%nat || (ids =? 0)%nat then None
  else Some (ids - 1)%nat.

Definition has_code (k : nat) (code : option nat) : bool :=
  match code with
  | Some j => (j =? k)%nat
  | None => false
  end.

(** [value_counts()] of a categorical series: one count for every
    category, also for those that do not occur; missing values are not
    counted. *)
Definition value_counts (categories : list string) (codes : list (option nat))
  : list (string * nat) :=
  imap (fun k label => (label, length (List.filter (has_code k) codes)))
       categories.

(** Lines 110-111, as a dictionary from labels to counts.  The entries
    are listed in the order of [labels]; pandas lists them by decreasing
    count. *)
Definition range_counts (distances : list float) : list (string * nat) :=
  value_counts labels (map (cut bins) distances).

Section Analysis.

Variable os_path_exists : string -> bool.
Variable pd_read_csv : string -> Exc DataFrame.
Variable pd_read_excel : string -> Exc DataFrame.
(** The reductions of a pandas series *)
Variable series_mean series_std series_min series_max series_median
  : list float -> float.
Variable series_quantile : list float -> float -> float.

(** Lines 89-105 *)
Definition statistics (distances : list float) : PyVal :=
  PDict [("count", PInt (Z.of_nat (length distances)));
         ("mean", PFloat (series_mean distances));
         ("std", PFloat (series_std distances));
         ("min", PFloat (series_min distances));
         ("max", PFloat (series_max distances));
         ("median", PFloat (series_median distances));
         ("q1", PFloat (series_quantile distances 0.25));
         ("q3", PFloat (series_quantile distances 0.75));
         ("percentiles",
          PDict [("10", PFloat (series_quantile distances 0.1));
                 ("25", PFloat (series_quantile distances 0.25));
                 ("50", PFloat (series_quantile distances 0.5));
                 ("75", PFloat (series_quantile distances 0.75));
                 ("90", PFloat (series_quantile distances 0.9))])].

(** Lines 70-117: the body of the [try] statement. *)
Definition try_body (file_path distance_col : string) : Exc PyVal :=
  try! table := read_table pd_read_csv pd_read_excel file_path in
  match table with
  | None => Return (failure "仅支持csv、xls、xlsx文件")
  | Some df =>
      if negb (has_column df distance_col) then
        Return (failure ("缺少距离字段: " +:+ distance_col))
      else
        try! cells := column_values df distance_col in
        try! distances := astype_float cells in
        Return (PDict [("status", PStr "success");
                       ("statistics", statistics distances);
                       ("distance_ranges",
                        PDict (map (fun lc => (lc.1, PInt (Z.of_nat lc.2)))
                                   (range_counts distances)))])
  end.

(** [analyze_distance_distribution], lines 52-122 *)
Definition analyze_distance_distribution (file_path : string)
           (distance_col : Arg string) : PyVal :=
  let distance_col := with_default "distance" distance_col in
  if negb (os_path_exists file_path) then
    failure ("文件不存在: " +:+ file_path)
  else
    match try_body file_path distance_col with
    | Return doc => doc
    | Raise e => failure ("分析距离分布时出错: " +:+ e)
    end.

End Analysis.

End DataProcessing.

(** The three sample points under a threshold of 100 m. *)
Definition three_state_100 : Prepared :=
  Eval vm_compute in
    match Sample.state Sample.three_points (Some 100%float) with
    | Some p => p
    | None => mkPrepared 0 [] [] [] [] (VStr "")
    end.

(** The three sample points with a catchment radius of 1000 m each, as
    src/geo_mcp/data/create.py writes the "distance" column. *)
Definition equal_radii_table : DataFrame :=
  Sample.with_distance Sample.three_points [1000; 1000; 1000]%float.

(** The state of a run under another echo of the threshold. *)
Definition echoing (u : Value) (p : Prepared) : Prepared :=
  mkPrepared (len_df p) (coords p) (values p) (dists p) (wij p) u.

(** ** Route distance: src/geo_mcp/api/gaode_api.py and
    src/mcp-client/server.py

    [calculate_route_distance] sends at most one request.  A call is
    modelled by what it does before the request, and by what it makes of
    the response. *)

(** [bool(v)] *)
Definition py_truthy (v : PyVal) : bool :=
  match v with
  | PNone => false
  | PBool b => b
  | PInt z => negb (z =? 0)
  | PFloat f => negb (f =? 0)%float
  | PStr s => negb (String.eqb s EmptyString)
  | PList l => match l with [] => false | _ => true end
  | PDict d => match d with [] => false | _ => true end
  end.

(** [v[0]] *)
Definition py_first (v : PyVal) : Exc PyVal :=
  match v with
  | PList (x :: _) => Return x
  | PList [] => Raise "list index out of range"
  | PStr (String c _) => Return (PStr (String c EmptyString))
  | PStr EmptyString => Raise "string index out of range"
  | PDict _ => Raise "0"
  | _ => Raise ("'" +:+ py_type v +:+ "' object is not subscriptable")
  end.

Module Route.

(** What the code reads of an [httpx] response; [response.json()] raises
    on a body that is not JSON. *)
Record Response : Type := mkResponse {
  status_code : Z;
  json : Exc PyVal
}.

(** A call either ends without a request, or sends [client.get(url=...,
    params=...)] and goes on with the response. *)
Inductive Call : Type :=
| Done (outcome : Exc PyVal)
| Get (url : string) (params : PyVal) (continue : Response -> Exc PyVal).

(** The outcome of a call, given what [client.get] does. *)
Definition perform (client_get : string -> PyVal -> Exc Response) (c : Call)
  : Exc PyVal :=
  match c with
  | Done outcome => outcome
  | Get url params continue =>
      try! response := client_get url params in continue response
  end.

Definition valid_modes : list string :=
  ["driving"; "walking"; "bicycling"; "transit"].

Definition query (origin destination mode : string) : PyVal :=
  PDict [("origin", PStr origin); ("destination", PStr destination);
         ("mode", PStr mode)].

(** Lines 175-182 of gaode_api.py *)
Definition base_url (mode : string) : string :=
  if String.eqb mode "driving" then
    "https://restapi.amap.com/v3/direction/driving"
  else if String.eqb mode "walking" then
    "https://restapi.amap.com/v3/direction/walking"
  else if String.eqb mode "bicycling" then
    "https://restapi.amap.com/v4/direction/bicycling"
  else if String.eqb mode "transit" then
    "https://restapi.amap.com/v3/direction/transit/integrated"
  else "".

(** Lines 195-237: the answer for a result whose status is '1', if one is
    returned there. *)
Definition formatted (origin destination mode : string) (result : PyVal)
  : Exc (option PyVal) :=
  if String.eqb mode "driving" then
    try! route := py_get result "route" (PDict []) in
    try! paths := py_get route "paths" (PList []) in
    if py_truthy paths then
      try! first_path := py_first paths in
      try! distance := py_get first_path "distance" (PStr "0") in
      try! duration := py_get first_path "duration" (PStr "0") in
      try! tolls := py_get first_path "tolls" (PStr "0") in
      try! toll_distance := py_get first_path "toll_distance" (PStr "0") in
      Return (Some (PDict [("status", PStr "success");
                           ("mode", PStr mode);
                           ("origin", PStr origin);
                           ("destination", PStr destination);
                           ("distance", distance);
                           ("duration", duration);
                           ("tolls", tolls);
                           ("toll_distance", toll_distance)]))
    else Return None
  else if String.eqb mode "walking" || String.eqb mode "bicycling" then
    try! route := py_get result "route" (PDict []) in
    try! paths := py_get route "paths" (PList []) in
    if py_truthy paths then
      try! first_path := py_first paths in
      try! distance := py_get first_path "distance" (PStr "0") in
      try! duration := py_get first_path "duration" (PStr "0") in
      Return (Some (PDict [("status", PStr "success");
                           ("mode", PStr mode);
                           ("origin", PStr origin);
                           ("destination", PStr destination);
                           ("distance", distance);
                           ("duration", duration)]))
    else Return None
  else if String.eqb mode "transit" then
    try! route := py_get result "route" (PDict []) in
    try! distance := py_get route "distance" (PStr "0") in
    try! taxi_cost := py_get route "taxi_cost" (PStr "0") in
    try! transits := py_get route "transits" (PList []) in
    Return (Some (PDict [("status", PStr "success");
                         ("mode", PStr mode);
                         ("origin", PStr origin);
                         ("destination", PStr destination);
                         ("distance", distance);
                         ("taxi_cost", taxi_cost);
                         ("transits", transits)]))
  else Return None.

(** Lines 193-259: what the call makes of the response. *)
Definition answer (origin destination mode : string) (response : Response)
  : Exc PyVal :=
  if status_code response =? 200 then
    try! result := json response in
    try! status := py_get result "status" PNone in
    try! early :=
      (if is_str "1" status then formatted origin destination mode result
       else Return None) in
    match early with
    | Some doc => Return doc
    | None =>
        try! info := py_get result "info" (PStr "未知错误") in
        try! infocode := py_get result "infocode" (PStr "") in
        Return (PDict [("status", PStr "failure");
                       ("info", info);
                       ("infocode", infocode);
                       ("query", query origin destination mode)])
    end
  else
    Return (PDict [("status", PStr "failure");
                   ("info", PStr ("HTTP错误: " +:+ pretty (status_code response)));
                   ("query", query origin destination mode)]).

(** Lines 160-169: whether [mode] is rejected, and the answer then. *)
Definition invalid_mode (mode : string) : bool :=
  negb (existsb (String.eqb mode) valid_modes).

Definition mode_failure (origin destination mode : string) : PyVal :=
  PDict [("status", PStr "failure");
         ("info", PStr ("无效的mode参数: " +:+ mode +:+
                        "。有效值为: driving, walking, bicycling, transit"));
         ("query", query origin destination mode)].

(** Lines 184-192: the request. *)
Definition send (key : PyVal) (origin destination mode : string) : Call :=
  Get (base_url mode)
      (PDict [("key", key); ("origin", PStr origin);
              ("destination", PStr destination); ("extensions", PStr "base")])
      (answer origin destination mode).

(** [calculate_route_distance] of src/geo_mcp/api/gaode_api.py, lines
    143-259; [mode] defaults to "driving". *)
Definition calculate_route_distance (api_key : PyVal) (origin destination : string)
           (mode : Arg string) : Call :=
  let mode := with_default "driving" mode in
  if invalid_mode mode then Done (Return (mode_failure origin destination mode))
  else send api_key origin destination mode.

(** Line 508 of src/mcp-client/server.py: whether the configuration read
    at start-up lacks the Gaode key. *)
Definition key_missing (config : PyVal) : Exc bool :=
  if negb (py_truthy config) then Return true
  else
    try! has_api := py_in "api" config in
    if negb has_api then Return true
    else
      try! api := py_getitem config "api" in
      try! has_key := py_in "gaode_key" api in
      Return (negb has_key).

(** [calculate_route_distance] of src/mcp-client/server.py, lines 504-607,
    for the module's [config]. *)
Definition server_calculate_route_distance (config : PyVal)
           (origin destination : string) (mode : Arg string) : Call :=
  let mode := with_default "driving" mode in
  match key_missing config with
  | Raise e => Done (Raise e)
  | Return true =>
      Done (Return (PDict [("status", PStr "failure");
                           ("info", PStr "高德API配置缺失或PyYAML未安装")]))
  | Return false =>
      if invalid_mode mode then
        Done (Return (mode_failure origin destination mode))
      else
        match (try! api := py_getitem config "api" in
               py_getitem api "gaode_key") with
        | Return key => send key origin destination mode
        | Raise e => Done (Raise e)
        end
  end.

End Route.

(** * Properties *)

(** ** Exceptions and loops *)

Lemma bind_Return {A B : Type} (m : Exc A) (k : A -> Exc B) (b : B) :
  bind m k = Return b -> exists a, m = Return a /\ k a = Return b.
Proof.
  destruct m as [a|e]; simpl; intros H; [eauto | discriminate].
Qed.

Lemma getitem_Return {A : Type} (a : list A) (i : nat) (x : A) :
  getitem a i = Return x <-> a !! i = Some x.
Proof.
  unfold getitem. destruct (a !! i); split; congruence.
Qed.

Lemma getitem_lt {A : Type} (a : list A) (i : nat) :
  (i < length a)%nat -> exists x, getitem a i = Return x /\ a !! i = Some x.
Proof.
  intros Hi. destruct (lookup_lt_is_Some_2 a i Hi) as [x Hx].
  exists x. split; [by apply getitem_Return | done].
Qed.

Lemma mapM_length {A B : Type} (f : A -> Exc B) (l : list A) (bs : list B) :
  mapM f l = Return bs -> length bs = length l.
Proof.
  revert bs. induction l as [|a l IH]; simpl; intros bs H.
  - by inversion H.
  - apply bind_Return in H as (b & _ & H).
    apply bind_Return in H as (bs' & Hbs & H).
    inversion H; subst. simpl. f_equal. by apply IH.
Qed.

Lemma mapM_lookup {A B : Type} (f : A -> Exc B) (l : list A) (bs : list B)
      (i : nat) (b : B) :
  mapM f l = Return bs -> bs !! i = Some b ->
  exists a, l !! i = Some a /\ f a = Return b.
Proof.
  revert bs i. induction l as [|a l IH]; simpl; intros bs i H Hb.
  - inversion H; subst. by rewrite lookup_nil in Hb.
  - apply bind_Return in H as (b0 & Hb0 & H).
    apply bind_Return in H as (bs' & Hbs & H).
    inversion H; subst. destruct i as [|i]; simpl in *.
    + inversion Hb; subst. eauto.
    + eauto.
Qed.

Lemma mapM_total {A B : Type} (f : A -> Exc B) (l : list A) :
  (forall a, a ∈ l -> exists b, f a = Return b) ->
  exists bs, mapM f l = Return bs.
Proof.
  induction l as [|a l IH]; simpl; intros Hf; [eauto|].
  destruct (Hf a) as [b Hb]; [left|].
  destruct IH as [bs Hbs]; [intros; apply Hf; by right|].
  rewrite Hb, Hbs. simpl. eauto.
Qed.

Lemma mapM_Raise {A B : Type} (f : A -> Exc B) (l : list A) (e : string) :
  mapM f l = Raise e -> exists a, a ∈ l /\ f a = Raise e.
Proof.
  induction l as [|a l IH]; simpl; [discriminate|].
  destruct (f a) as [b|e'] eqn:Hfa; simpl.
  - destruct (mapM f l) as [bs|e'] eqn:Hl; simpl; [discriminate|].
    intros H; inversion H; subst.
    destruct IH as (a' & Ha' & Hf); [done|]. exists a'. split; [by right | done].
  - intros H; inversion H; subst. exists a. split; [left | done].
Qed.

(** ** Classification (section 4.5) *)

Lemma ltb_2_58_exclusive (z : float) :
  (2.58 <? z)%float = true -> (z <? -2.58)%float = false.
Proof.
  rewrite !ltb_spec.
  replace (Prim2SF 2.58) with (S754_finite false 5809643519307940 (-51))
    by (vm_compute; reflexivity).
  replace (Prim2SF (-2.58)) with (S754_finite true 5809643519307940 (-51))
    by (vm_compute; reflexivity).
  destruct (Prim2SF z) as [sz|sz| |sz mz ez]; try destruct sz;
    unfold SFltb, SFcompare; try reflexivity; try discriminate.
Qed.

(** ** Columns *)

Lemma astype_float_lookup (cells : list Cell) (xs : list float) (i : nat) (x : float) :
  astype_float cells = Return xs -> xs !! i = Some x -> cells !! i = Some (CNum x).
Proof.
  unfold astype_float. intros H Hx.
  destruct (mapM_lookup _ _ _ _ _ H Hx) as (c & Hc & Hf).
  destruct c; inversion Hf; by subst.
Qed.

Lemma astype_float_length (cells : list Cell) (xs : list float) :
  astype_float cells = Return xs -> length xs = length cells.
Proof. apply mapM_length. Qed.

Lemma numeric_coords_lookup (cs : list (Cell * Cell)) (i : nat) (c : Cell * Cell) :
  numeric_coords cs = true -> cs !! i = Some c ->
  c = (CNum (cell_float c.1), CNum (cell_float c.2)).
Proof.
  unfold numeric_coords. rewrite forallb_forall. intros H Hc.
  assert (Hin : In c cs) by (apply list_elem_of_In; by eapply list_elem_of_lookup_2).
  specialize (H c Hin). destruct c as [[a|a] [b|b]]; simpl in *; done.
Qed.

Lemma np_radians_Return (cs : list (Cell * Cell)) (rad : list (float * float)) :
  np_radians cs = Return rad -> numeric_coords cs = true.
Proof.
  unfold np_radians. by destruct (numeric_coords cs).
Qed.

(** ** The loop over the points *)

Section Loop.

Variable libm_pow : float -> float -> float.
Variable norm_cdf : float -> float.

Lemma result_of_Return (n : Z) (g : GlobalStats) (cs : list (Cell * Cell))
      (xj : list float) (w : list (list Z)) (i : nat) (r : HotspotResult) :
  result_of norm_cdf n g cs xj w (map np_sum_int w) i = Return r ->
  exists wij_i c x,
    w !! i = Some wij_i /\ cs !! i = Some c /\ xj !! i = Some x /\
    r = let st := gi_star_stat norm_cdf n g xj wij_i (np_sum_int wij_i) in
        mkResult (Z.of_nat i) (cell_float c.1) (cell_float c.2) x
                 (st_gi_star st) (st_z_score st) (st_p_value st)
                 (classify (st_z_score st)) (np_sum_int wij_i).
Proof.
  unfold result_of. intros H.
  apply bind_Return in H as (wij_i & Hw & H). apply getitem_Return in Hw.
  apply bind_Return in H as (sum_i & Hs & H). apply getitem_Return in Hs.
  apply bind_Return in H as (c & Hc & H). apply getitem_Return in Hc.
  apply bind_Return in H as (x & Hx & H). apply getitem_Return in Hx.
  rewrite list_lookup_fmap, Hw in Hs. simpl in Hs. inversion Hs; subst.
  inversion H; subst. exists wij_i, c, x. done.
Qed.

Lemma result_of_total (n : Z) (g : GlobalStats) (cs : list (Cell * Cell))
      (xj : list float) (w : list (list Z)) (i : nat) :
  (i < length w)%nat -> (i < length cs)%nat -> (i < length xj)%nat ->
  exists r, result_of norm_cdf n g cs xj w (map np_sum_int w) i = Return r.
Proof.
  intros Hw Hc Hx. unfold result_of.
  destruct (getitem_lt w i Hw) as (wij_i & -> & Hwi). simpl.
  destruct (getitem_lt (map np_sum_int w) i) as (sm & -> & _);
    [by rewrite length_map|]. simpl.
  destruct (getitem_lt cs i Hc) as (c & -> & _). simpl.
  destruct (getitem_lt xj i Hx) as (x & -> & _). simpl. eauto.
Qed.

Lemma assemble_Return (p : Prepared) (doc : Doc) :
  assemble libm_pow norm_cdf p = Return doc ->
  exists results,
    doc = success p results /\
    mapM (result_of norm_cdf (Z.of_nat (len_df p))
                    (global_stats libm_pow (Z.of_nat (len_df p)) (values p))
                    (coords p) (values p) (wij p) (map np_sum_int (wij p)))
         (seq 0 (len_df p)) = Return results.
Proof.
  unfold assemble. intros H. apply bind_Return in H as (results & Hr & H).
  inversion H; subst. eauto.
Qed.

Lemma well_shaped_lengths (p : Prepared) :
  well_shaped p = true ->
  length (coords p) = len_df p /\ length (values p) = len_df p /\
  length (wij p) = len_df p /\
  (forall i row, wij p !! i = Some row -> length row = len_df p).
Proof.
  unfold well_shaped. rewrite !andb_true_iff, !Nat.eqb_eq, forallb_forall.
  intros [[[Hc Hv] Hw] Hr]. repeat split; try done.
  intros i row Hi. apply Nat.eqb_eq, Hr, list_elem_of_In.
  by eapply list_elem_of_lookup_2.
Qed.

Lemma assemble_total (p : Prepared) :
  well_shaped p = true ->
  exists results, assemble libm_pow norm_cdf p = Return (success p results).
Proof.
  intros Hp. apply well_shaped_lengths in Hp as (Hc & Hv & Hw & _).
  unfold assemble.
  edestruct (mapM_total
               (result_of norm_cdf (Z.of_nat (len_df p))
                  (global_stats libm_pow (Z.of_nat (len_df p)) (values p))
                  (coords p) (values p) (wij p) (map np_sum_int (wij p)))
               (seq 0 (len_df p))) as [results Hr].
  - intros i Hi. apply elem_of_seq in Hi.
    apply result_of_total; lia.
  - rewrite Hr. simpl. eauto.
Qed.

Lemma results_lookup (p : Prepared) (results : list HotspotResult)
      (i : nat) (r : HotspotResult) :
  assemble libm_pow norm_cdf p = Return (success p results) ->
  results !! i = Some r ->
  exists wij_i c x,
    (i < len_df p)%nat /\
    wij p !! i = Some wij_i /\ coords p !! i = Some c /\
    values p !! i = Some x /\
    r = let st := gi_star_stat norm_cdf (Z.of_nat (len_df p))
                    (global_stats libm_pow (Z.of_nat (len_df p)) (values p))
                    (values p) wij_i (np_sum_int wij_i) in
        mkResult (Z.of_nat i) (cell_float c.1) (cell_float c.2) x
                 (st_gi_star st) (st_z_score st) (st_p_value st)
                 (classify (st_z_score st)) (np_sum_int wij_i).
Proof.
  intros H Hr. apply assemble_Return in H as (results' & Heq & Hm).
  inversion Heq; subst results'.
  destruct (mapM_lookup _ _ _ _ _ Hm Hr) as (k & Hk & Hres).
  apply lookup_seq in Hk as [-> Hlt]. simpl in Hres.
  apply result_of_Return in Hres as (wij_i & c & x & ? & ? & ? & ?).
  exists wij_i, c, x. done.
Qed.

End Loop.

(** ** Runs of the analysis *)

Lemma get_failure_status (info : string) :
  get "status" (failure info) = Some (VStr "failure").
Proof. reflexivity. Qed.

Lemma get_failure_results (info : string) :
  get "results" (failure info) = None.
Proof. reflexivity. Qed.

Lemma get_failure_info (info : string) :
  get "info" (failure info) = Some (VStr info).
Proof. reflexivity. Qed.

Section Runs.

Variable os_path_exists : string -> bool.
Variable pd_read_csv : string -> Exc DataFrame.
Variable pd_read_excel : string -> Exc DataFrame.
Variable haversine_distances :
  list (float * float) -> list (float * float) -> Exc (list (list float)).
Variable libm_pow : float -> float -> float.
Variable norm_cdf : float -> float.

Local Abbreviation run' :=
  (run os_path_exists pd_read_csv pd_read_excel haversine_distances libm_pow norm_cdf).
Local Abbreviation prepared' :=
  (prepared os_path_exists pd_read_csv pd_read_excel haversine_distances).
Local Abbreviation read_table' := (read_table pd_read_csv pd_read_excel).
Local Abbreviation prepare' := (prepare haversine_distances).

Lemma run_outcome (file_path lat_col lon_col value_col : string)
      (distance_threshold : option float) :
  Outcome os_path_exists pd_read_csv pd_read_excel haversine_distances libm_pow norm_cdf
          file_path lat_col lon_col value_col distance_threshold
          (run' file_path lat_col lon_col value_col distance_threshold).
Proof.
  unfold run, try_body.
  destruct (os_path_exists file_path) eqn:He; simpl; [|by constructor].
  destruct (read_table' file_path) as [[df|]|e] eqn:Hr; simpl.
  - destruct (missing_column df lat_col lon_col value_col) as [col|] eqn:Hm.
    + by eapply no_column.
    + destruct (prepare' df lat_col lon_col value_col distance_threshold)
        as [p|e] eqn:Hp; simpl.
      * destruct (assemble libm_pow norm_cdf p) as [doc|e] eqn:Ha.
        -- destruct (assemble_Return _ _ _ _ Ha) as (results & -> & _).
           by eapply completed.
        -- by eapply loop_error.
      * by eapply prepare_error.
  - by constructor.
  - by constructor.
Qed.

Lemma prepared_Some (file_path lat_col lon_col value_col : string)
      (distance_threshold : option float) (p : Prepared) :
  prepared' file_path lat_col lon_col value_col distance_threshold = Some p <->
  os_path_exists file_path = true /\
  exists df, read_table' file_path = Return (Some df) /\
             missing_column df lat_col lon_col value_col = None /\
             prepare' df lat_col lon_col value_col distance_threshold = Return p.
Proof.
  unfold prepared. split.
  - destruct (os_path_exists file_path); [|done].
    destruct (read_table' file_path) as [[df|]|e]; try done.
    destruct (missing_column df lat_col lon_col value_col) eqn:Hm; [done|].
    destruct (prepare' df lat_col lon_col value_col distance_threshold) eqn:Hp;
      [|done].
    intros [= ->]. split; [done | exists df; done].
  - intros (-> & df & -> & -> & ->). done.
Qed.

Lemma run_prepared (file_path lat_col lon_col value_col : string)
      (distance_threshold : option float) (p : Prepared) :
  prepared' file_path lat_col lon_col value_col distance_threshold = Some p ->
  run' file_path lat_col lon_col value_col distance_threshold =
  match assemble libm_pow norm_cdf p with
  | Return doc => doc
  | Raise e => failure ("热点分析出错: " +:+ e)
  end.
Proof.
  intros (He & df & Hr & Hm & Hp)%prepared_Some.
  unfold run, try_body. rewrite He, Hr. simpl. rewrite Hm, Hp. done.
Qed.

Lemma run_results (file_path lat_col lon_col value_col : string)
      (distance_threshold : option float) (results : list HotspotResult) :
  get "results" (run' file_path lat_col lon_col value_col distance_threshold)
  = Some (VResults results) ->
  exists p,
    prepared' file_path lat_col lon_col value_col distance_threshold = Some p /\
    assemble libm_pow norm_cdf p = Return (success p results) /\
    run' file_path lat_col lon_col value_col distance_threshold
    = success p results.
Proof.
  intros H.
  destruct (run_outcome file_path lat_col lon_col value_col distance_threshold)
    as [ | | | | | |df p rs He Hr Hm Hp Ha]; try discriminate H.
  simpl in H. inversion H; subst rs. exists p. split; [|done].
  apply prepared_Some. eauto.
Qed.

Lemma run_well_shaped (file_path lat_col lon_col value_col : string)
      (distance_threshold : option float) (p : Prepared) :
  prepared' file_path lat_col lon_col value_col distance_threshold = Some p ->
  well_shaped p = true ->
  exists results,
    assemble libm_pow norm_cdf p = Return (success p results) /\
    run' file_path lat_col lon_col value_col distance_threshold
    = success p results.
Proof.
  intros Hp Hs. destruct (assemble_total libm_pow norm_cdf p Hs) as [results Hr].
  exists results. split; [done|]. by rewrite (run_prepared _ _ _ _ _ _ Hp), Hr.
Qed.

End Runs.

(** ** What [prepare] leaves in scope *)

Section Prepare.

Variable haversine_distances :
  list (float * float) -> list (float * float) -> Exc (list (list float)).

Lemma prepare_Return (df : DataFrame) (lat_col lon_col value_col : string)
      (distance_threshold : option float) (p : Prepared) :
  prepare haversine_distances df lat_col lon_col value_col distance_threshold
  = Return p ->
  exists lat lon cells,
    column_values df lat_col = Return lat /\
    column_values df lon_col = Return lon /\
    column_values df value_col = Return cells /\
    astype_float cells = Return (values p) /\
    coords p = coords_values lat lon /\
    numeric_coords (coords p) = true /\
    len_df p = df_len df /\
    weights df (df_len df) (dists p) distance_threshold
    = Return (wij p, used_distance p).
Proof.
  unfold prepare. intros H.
  apply bind_Return in H as (lat & Hlat & H).
  apply bind_Return in H as (lon & Hlon & H).
  apply bind_Return in H as (cells & Hcells & H).
  apply bind_Return in H as (vals & Hvals & H).
  apply bind_Return in H as (rad & Hrad & H).
  apply bind_Return in H as (d & Hd & H).
  apply bind_Return in H as ([w u] & Hw & H).
  inversion H; subst; simpl.
  exists lat, lon, cells. repeat split; try done.
  by eapply np_radians_Return.
Qed.

End Prepare.

Lemma coords_values_lookup (lat lon : list Cell) (i : nat) (c : Cell * Cell) :
  coords_values lat lon !! i = Some c ->
  lat !! i = Some c.1 /\ lon !! i = Some c.2.
Proof.
  unfold coords_values, zip. intros H.
  apply lookup_zip_with_Some in H as (a & b & -> & Ha & Hb). done.
Qed.

Lemma classify_cases (z : float) :
  (classify z = hotspot <-> (2.58 <? z)%float = true) /\
  (classify z = coldspot <-> (z <? -2.58)%float = true) /\
  (classify z = not_significant <->
   (2.58 <? z)%float = false /\ (z <? -2.58)%float = false).
Proof.
  unfold classify.
  destruct (2.58 <? z)%float eqn:Hhot.
  - rewrite (ltb_2_58_exclusive z Hhot). repeat split; try done.
    intros [? _]; done.
  - destruct (z <? -2.58)%float eqn:Hcold; repeat split; try done.
    intros [_ ?]; done.
Qed.

(** * The claims *)

Section Claims.

Variable os_path_exists : string -> bool.
Variable pd_read_csv : string -> Exc DataFrame.
Variable pd_read_excel : string -> Exc DataFrame.
Variable haversine_distances :
  list (float * float) -> list (float * float) -> Exc (list (list float)).
Variable libm_pow : float -> float -> float.
Variable norm_cdf : float -> float.

Local Abbreviation analysis :=
  (hotspot_analysis_getis_ord_gi_star
     os_path_exists pd_read_csv pd_read_excel haversine_distances libm_pow norm_cdf).
Local Abbreviation state :=
  (prepared os_path_exists pd_read_csv pd_read_excel haversine_distances).
Local Abbreviation table := (read_table pd_read_csv pd_read_excel).

(** Every entry of [results] is computed from row [i] of the weights. *)
Lemma analysis_results (file_path lat_col lon_col value_col : string)
      (distance_threshold : Arg (option float))
      (results : list HotspotResult) (i : nat) (r : HotspotResult) :
  get "results" (analysis file_path lat_col lon_col value_col distance_threshold)
  = Some (VResults results) ->
  results !! i = Some r ->
  exists p wij_i c x,
    state file_path lat_col lon_col value_col (bound distance_threshold) = Some p /\
    analysis file_path lat_col lon_col value_col distance_threshold
    = success p results /\
    (i < len_df p)%nat /\
    wij p !! i = Some wij_i /\ coords p !! i = Some c /\
    values p !! i = Some x /\
    r = let st := gi_star_stat norm_cdf (Z.of_nat (len_df p))
                    (global_stats libm_pow (Z.of_nat (len_df p)) (values p))
                    (values p) wij_i (np_sum_int wij_i) in
        mkResult (Z.of_nat i) (cell_float c.1) (cell_float c.2) x
                 (st_gi_star st) (st_z_score st) (st_p_value st)
                 (classify (st_z_score st)) (np_sum_int wij_i).
Proof.
  unfold hotspot_analysis_getis_ord_gi_star. intros H Hr.
  apply run_results in H as (p & Hp & Ha & Hrun).
  destruct (results_lookup _ _ _ _ _ _ Ha Hr) as (wij_i & c & x & ? & ? & ? & ? & ?).
  exists p, wij_i, c, x. done.
Qed.

(** C5. The label of every result is decided by the two constants 2.58
    and -2.58 alone: it is [hotspot] exactly when [z_score > 2.58],
    [coldspot] exactly when [z_score < -2.58], and [not_significant]
    exactly when neither comparison holds. *)
Theorem label_by_fixed_thresholds
        (file_path lat_col lon_col value_col : string)
        (distance_threshold : Arg (option float))
        (results : list HotspotResult) (i : nat) (r : HotspotResult) :
  get "results" (analysis file_path lat_col lon_col value_col distance_threshold)
  = Some (VResults results) ->
  results !! i = Some r ->
  (label r = hotspot <-> (2.58 <? z_score r)%float = true) /\
  (label r = coldspot <-> (z_score r <? -2.58)%float = true) /\
  (label r = not_significant <->
   (2.58 <? z_score r)%float = false /\ (z_score r <? -2.58)%float = false).
Proof.
  intros H Hr.
  destruct (analysis_results _ _ _ _ _ _ _ _ H Hr)
    as (p & wij_i & c & x & _ & _ & _ & _ & _ & _ & ->).
  simpl. apply classify_cases.
Qed.

(** C8. The results of a successful analysis are in input order: there
    is one entry per row of the table, and entry [i] carries index [i]
    and the latitude, longitude and value of row [i]. *)
Theorem order_preservation
        (file_path lat_col lon_col value_col : string)
        (distance_threshold : Arg (option float))
        (df : DataFrame) (results : list HotspotResult) :
  table file_path = Return (Some df) ->
  get "results" (analysis file_path lat_col lon_col value_col distance_threshold)
  = Some (VResults results) ->
  length results = df_len df /\
  get "count" (analysis file_path lat_col lon_col value_col distance_threshold)
  = Some (VInt (Z.of_nat (df_len df))) /\
  forall i : nat, (i < df_len df)%nat ->
    exists r lat lon cells,
      results !! i = Some r /\
      index r = Z.of_nat i /\
      column_values df lat_col = Return lat /\
      lat !! i = Some (CNum (latitude r)) /\
      column_values df lon_col = Return lon /\
      lon !! i = Some (CNum (longitude r)) /\
      column_values df value_col = Return cells /\
      cells !! i = Some (CNum (value r)).
Proof.
  unfold hotspot_analysis_getis_ord_gi_star. intros Ht H.
  apply run_results in H as (p & Hp & Ha & Hrun).
  apply prepared_Some in Hp as (_ & df' & Ht' & _ & Hp).
  rewrite Ht in Ht'. inversion Ht'; subst df'.
  apply prepare_Return in Hp
    as (lat & lon & cells & Hlat & Hlon & Hcells & Hvals & Hco & Hnum & Hn & _).
  pose proof Ha as Hm. apply assemble_Return in Hm as (rs & Heq & Hm).
  inversion Heq; subst rs.
  pose proof (mapM_length _ _ _ Hm) as Hlen. rewrite length_seq in Hlen.
  rewrite Hrun. split; [congruence|]. split; [by rewrite <- Hn|].
  intros i Hi.
  destruct (lookup_lt_is_Some_2 results i) as [r Hr]; [lia|].
  destruct (results_lookup _ _ _ _ _ _ Ha Hr)
    as (wij_i & c & x & _ & _ & Hc & Hx & ->).
  pose proof (numeric_coords_lookup _ _ _ Hnum Hc) as Hcc.
  rewrite Hco in Hc. apply coords_values_lookup in Hc as [Hc1 Hc2].
  eexists _, lat, lon, cells. simpl.
  repeat split; try done.
  - rewrite Hc1. f_equal. by rewrite Hcc.
  - rewrite Hc2. f_equal. by rewrite Hcc.
  - by eapply astype_float_lookup.
Qed.

Lemma read_table_unsupported (file_path : string) :
  endswith (lower file_path) ".csv" = false ->
  endswith (lower file_path) ".xls" = false ->
  endswith (lower file_path) ".xlsx" = false ->
  table file_path = Return None.
Proof.
  unfold read_table. by intros -> -> ->.
Qed.

Lemma failure_info_nonempty (prefix e : string) :
  prefix <> "" -> prefix +:+ e <> "".
Proof.
  destruct prefix; [done|]. intros _. simpl. discriminate.
Qed.

(** C9. A run that fails answers with a failure document and never
    raises: a missing file, an unsupported extension, a missing required
    column and an exception raised while reading or computing each give
    [status = "failure"] with a message naming the cause, and such a
    document has no [results] entry.  The only other answer is a success
    whose [results] hold one entry per counted point. *)
Theorem failure_atomicity
        (file_path lat_col lon_col value_col : string)
        (distance_threshold : Arg (option float)) :
  let doc := analysis file_path lat_col lon_col value_col distance_threshold in
  (os_path_exists file_path = false ->
   doc = failure ("文件不存在: " +:+ file_path)) /\
  (os_path_exists file_path = true ->
   (endswith (lower file_path) ".csv" = false ->
    endswith (lower file_path) ".xls" = false ->
    endswith (lower file_path) ".xlsx" = false ->
    doc = failure "仅支持csv、xls、xlsx文件") /\
   (forall df col,
       table file_path = Return (Some df) ->
       missing_column df lat_col lon_col value_col = Some col ->
       doc = failure ("缺少字段: " +:+ col)) /\
   (forall e,
       table file_path = Raise e ->
       doc = failure ("热点分析出错: " +:+ e)) /\
   (forall df e,
       table file_path = Return (Some df) ->
       missing_column df lat_col lon_col value_col = None ->
       prepare haversine_distances df lat_col lon_col value_col
               (bound distance_threshold) = Raise e ->
       doc = failure ("热点分析出错: " +:+ e)) /\
   (forall p e,
       state file_path lat_col lon_col value_col (bound distance_threshold)
       = Some p ->
       assemble libm_pow norm_cdf p = Raise e ->
       doc = failure ("热点分析出错: " +:+ e))) /\
  ((get "status" doc = Some (VStr "failure") /\
    get "results" doc = None /\
    exists info, get "info" doc = Some (VStr info) /\ info <> "") \/
   (get "status" doc = Some (VStr "success") /\
    exists results,
      get "results" doc = Some (VResults results) /\
      get "count" doc = Some (VInt (Z.of_nat (length results))))).
Proof.
  unfold hotspot_analysis_getis_ord_gi_star. fold (bound distance_threshold).
  set (dt := bound distance_threshold). simpl. split; [|split].
  - intros He. unfold run. by rewrite He.
  - intros He. unfold run, try_body. rewrite He. simpl.
    split; [|split; [|split; [|split]]].
    + intros H1 H2 H3. by rewrite (read_table_unsupported _ H1 H2 H3).
    + intros df col -> Hm. simpl. by rewrite Hm.
    + by intros e ->.
    + intros df e -> Hm Hp. simpl. by rewrite Hm, Hp.
    + intros p e (_ & df & -> & Hm & Hp)%prepared_Some Ha. simpl.
      by rewrite Hm, Hp; simpl; rewrite Ha.
  - destruct (run_outcome os_path_exists pd_read_csv pd_read_excel
                haversine_distances libm_pow norm_cdf
                file_path lat_col lon_col value_col dt)
      as [ | | | | | |df p results He Hr Hm Hp Ha];
      try (left; split; [reflexivity|]; split; [reflexivity|];
           eexists; split; [reflexivity|];
           first [by apply failure_info_nonempty | done]).
    right. split; [reflexivity|]. exists results. split; [reflexivity|].
    apply assemble_Return in Ha as (rs & Heq & Hmap).
    inversion Heq; subst rs.
    apply mapM_length in Hmap. rewrite length_seq in Hmap.
    unfold success, get. simpl. by rewrite Hmap.
Qed.

Lemma gi_star_stat_degenerate (n : Z) (g : GlobalStats) (xj : list float)
      (wij_i : list Z) (sum_wij_i : Z) :
  (denom n (s g) wij_i sum_wij_i =? 0)%float = true ->
  gi_star_stat norm_cdf n g xj wij_i sum_wij_i = mkStat 0 0 1.
Proof.
  unfold gi_star_stat. by intros ->.
Qed.

(** C1. When the denominator of point [i] evaluates to 0, the analysis
    succeeds and reports [gi_star = 0], [z_score = 0] and [p_value = 1]
    for that point (labelled not significant): the quotient by that
    denominator is not formed and the run is not a failure. *)
Theorem degenerate_denominator
        (file_path lat_col lon_col value_col : string)
        (distance_threshold : Arg (option float))
        (p : Prepared) (i : nat) (wij_i : list Z) :
  state file_path lat_col lon_col value_col (bound distance_threshold) = Some p ->
  well_shaped p = true ->
  wij p !! i = Some wij_i ->
  (denom (Z.of_nat (len_df p))
         (s (global_stats libm_pow (Z.of_nat (len_df p)) (values p)))
         wij_i (np_sum_int wij_i) =? 0)%float = true ->
  exists results r,
    analysis file_path lat_col lon_col value_col distance_threshold
    = success p results /\
    get "status" (success p results) = Some (VStr "success") /\
    results !! i = Some r /\
    gi_star r = 0%float /\ z_score r = 0%float /\ p_value r = 1%float /\
    label r = not_significant.
Proof.
  intros Hp Hs Hw Hd.
  destruct (run_well_shaped _ _ _ _ libm_pow norm_cdf _ _ _ _ _ _ Hp Hs)
    as (results & Ha & Hrun).
  apply well_shaped_lengths in Hs as (_ & _ & Hlen & _).
  assert (Hi : (i < length results)%nat).
  { apply assemble_Return in Ha as (rs & Heq & Hm). inversion Heq; subst rs.
    apply mapM_length in Hm. rewrite length_seq in Hm.
    apply lookup_lt_Some in Hw. lia. }
  destruct (lookup_lt_is_Some_2 results i Hi) as [r Hr].
  destruct (results_lookup _ _ _ _ _ _ Ha Hr)
    as (wij_i' & c & x & _ & Hw' & _ & _ & Heq).
  rewrite Hw in Hw'. inversion Hw'; subst wij_i'.
  rewrite (gi_star_stat_degenerate _ _ _ _ _ Hd) in Heq. simpl in Heq.
  exists results, r. split; [exact Hrun|]. split; [reflexivity|].
  split; [exact Hr|]. subst r. simpl. repeat split; reflexivity.
Qed.

End Claims.

Lemma label_by_fixed_thresholds_witness :
  get "results" (Sample.core (Sample.cluster 10) Omitted)
  = Some (VResults Examples.hot_results) /\
  Examples.hot_results !! 0%nat = Some Examples.hot_point /\
  (label Examples.hot_point = hotspot
   <-> (2.58 <? z_score Examples.hot_point)%float = true) /\
  (label Examples.hot_point = coldspot
   <-> (z_score Examples.hot_point <? -2.58)%float = true) /\
  (label Examples.hot_point = not_significant
   <-> (2.58 <? z_score Examples.hot_point)%float = false /\
       (z_score Examples.hot_point <? -2.58)%float = false).
Proof.
  assert (H1 : get "results" (Sample.core (Sample.cluster 10) Omitted)
               = Some (VResults Examples.hot_results))
    by (vm_compute; reflexivity).
  assert (H2 : Examples.hot_results !! 0%nat = Some Examples.hot_point)
    by reflexivity.
  split; [exact H1|]. split; [exact H2|].
  exact (label_by_fixed_thresholds
           Sample.exists_ (fun _ => Return (Sample.cluster 10)) Sample.no_excel
           Sample.haversine Sample.glibc_pow Sample.cdf "points.csv" "lat" "lon" "value" Omitted
           Examples.hot_results 0 Examples.hot_point H1 H2).
Defined.

Lemma order_preservation_witness :
  length Examples.three_results = 3%nat /\
  (exists r,
      Examples.three_results !! 2%nat = Some r /\ index r = 2 /\
      latitude r = 0%float /\ longitude r = 0.001%float /\ value r = 1%float).
Proof.
  assert (Ht : read_table (fun _ => Return Sample.three_points) Sample.no_excel
                          "points.csv" = Return (Some Sample.three_points))
    by reflexivity.
  assert (Hr : get "results" (Sample.core Sample.three_points Omitted)
               = Some (VResults Examples.three_results))
    by (vm_compute; reflexivity).
  destruct (order_preservation
              Sample.exists_ (fun _ => Return Sample.three_points) Sample.no_excel
              Sample.haversine Sample.glibc_pow Sample.cdf "points.csv" "lat" "lon" "value" Omitted
              Sample.three_points Examples.three_results Ht Hr)
    as (Hlen & _ & Hall).
  split; [exact Hlen|].
  destruct (Hall 2%nat) as (r & lat & lon & cells & Hr2 & Hidx &
                            Hlat & Hlat2 & Hlon & Hlon2 & Hval & Hval2);
    [simpl; lia|].
  exists r. split; [exact Hr2|]. split; [exact Hidx|].
  inversion Hlat; subst lat. inversion Hlon; subst lon.
  inversion Hval; subst cells.
  inversion Hlat2 as [E1]. inversion Hlon2 as [E2]. inversion Hval2 as [E3].
  repeat split; reflexivity.
Defined.

Lemma degenerate_denominator_witness :
  exists results r,
    Sample.core Sample.three_points Omitted = success Examples.three_state results /\
    get "status" (success Examples.three_state results) = Some (VStr "success") /\
    results !! 1%nat = Some r /\
    gi_star r = 0%float /\ z_score r = 0%float /\ p_value r = 1%float /\
    label r = not_significant.
Proof.
  apply (degenerate_denominator
           Sample.exists_ (fun _ => Return Sample.three_points) Sample.no_excel
           Sample.haversine Sample.glibc_pow Sample.cdf "points.csv" "lat" "lon" "value" Omitted
           Examples.three_state 1 [0; 0; 0]);
    vm_compute; reflexivity.
Defined.

(** ** The weight matrix *)

Lemma fill_diagonal_lookup (w : list (list Z)) (v : Z) (i : nat) :
  fill_diagonal w v !! i = (fun row => <[i := v]> row) <$> w !! i.
Proof. unfold fill_diagonal. by rewrite list_lookup_imap. Qed.

Lemma entry_fill_diagonal_diag (w : list (list Z)) (v : Z) (i : nat) (row : list Z) :
  w !! i = Some row -> (i < length row)%nat ->
  entry (fill_diagonal w v) i i = Some v.
Proof.
  intros Hw Hi. unfold entry. rewrite fill_diagonal_lookup, Hw. simpl.
  by apply list_lookup_insert_eq.
Qed.

Lemma entry_fill_diagonal_off (w : list (list Z)) (v : Z) (i j : nat) :
  i <> j -> entry (fill_diagonal w v) i j = entry w i j.
Proof.
  intros Hij. unfold entry. rewrite fill_diagonal_lookup.
  destruct (w !! i) as [row|]; simpl; [|done].
  by apply list_lookup_insert_ne.
Qed.

Lemma fill_diagonal_length (w : list (list Z)) (v : Z) :
  length (fill_diagonal w v) = length w.
Proof. apply length_imap. Qed.

Lemma entry_fixed_weights (d : list (list float)) (t : float) (i j : nat) :
  entry (fixed_weights d t) i j
  = (fun x => if (x <=? t)%float then 1 else 0) <$> entry d i j.
Proof.
  unfold entry, fixed_weights, threshold_row. rewrite list_lookup_fmap.
  destruct (d !! i) as [row|]; simpl; [|done]. by rewrite list_lookup_fmap.
Qed.

Lemma variable_weights_lookup (n : nat) (d : list (list float))
      (distance_arr : list float) (w : list (list Z)) :
  variable_weights n d distance_arr = Return w ->
  length w = n /\
  forall i : nat, (i < n)%nat ->
    exists row r, d !! i = Some row /\ distance_arr !! i = Some r /\
                  w !! i = Some (threshold_row row r).
Proof.
  unfold variable_weights. intros H.
  pose proof (mapM_length _ _ _ H) as Hlen. rewrite length_seq in Hlen.
  split; [done|]. intros i Hi.
  destruct (lookup_lt_is_Some_2 w i) as [wi Hwi]; [lia|].
  destruct (mapM_lookup _ _ _ _ _ H Hwi) as (k & Hk & Hf).
  apply lookup_seq in Hk as [-> _]. simpl in Hf.
  apply bind_Return in Hf as (row & Hrow & Hf). apply getitem_Return in Hrow.
  apply bind_Return in Hf as (r & Hr & Hf). apply getitem_Return in Hr.
  inversion Hf; subst. eauto.
Qed.

(** The two ways line 64 can go, as seen from the outcome of [weights]. *)
Lemma weights_Return (df : DataFrame) (n : nat) (d : list (list float))
      (distance_threshold : option float) (w : list (list Z)) (u : Value) :
  weights df n d distance_threshold = Return (w, u) ->
  (variable_policy distance_threshold df = true /\
   u = variable_from_data /\
   exists cells distance_arr rows,
     column_values df "distance" = Return cells /\
     astype_float cells = Return distance_arr /\
     variable_weights n d distance_arr = Return rows /\
     w = fill_diagonal rows 0) \/
  (variable_policy distance_threshold df = false /\
   u = VFloat (fixed_threshold distance_threshold) /\
   w = fill_diagonal (fixed_weights d (fixed_threshold distance_threshold)) 0).
Proof.
  unfold weights. intros H. apply bind_Return in H as ([w0 u0] & Hb & H).
  inversion H; subst; clear H. simpl.
  destruct (variable_policy distance_threshold df).
  - left. apply bind_Return in Hb as (cells & Hc & Hb).
    apply bind_Return in Hb as (arr & Ha & Hb).
    apply bind_Return in Hb as (rows & Hr & Hb).
    inversion Hb; subst rows u. split; [done|]. split; [done|].
    exists cells, arr, w0. done.
  - right. inversion Hb; subst. done.
Qed.

Lemma threshold_row_binary (row : list float) (t : float) :
  binary (threshold_row row t).
Proof.
  unfold binary, threshold_row. apply Forall_fmap, Forall_true.
  intros x. simpl. destruct (x <=? t)%float; auto.
Qed.

Lemma insert_zero_binary (row : list Z) (i : nat) :
  binary row -> binary (<[i := 0]> row).
Proof.
  unfold binary. intros H. apply Forall_insert; auto.
Qed.

Lemma weights_binary (df : DataFrame) (n : nat) (d : list (list float))
      (distance_threshold : option float) (w : list (list Z)) (u : Value)
      (i : nat) (row : list Z) :
  weights df n d distance_threshold = Return (w, u) ->
  w !! i = Some row -> binary row.
Proof.
  intros H Hrow.
  apply weights_Return in H
    as [(_ & _ & cells & arr & rows & _ & _ & Hv & ->) | (_ & _ & ->)];
    rewrite fill_diagonal_lookup in Hrow.
  - destruct (rows !! i) as [r0|] eqn:Hr0; [|done]. inversion Hrow; subst.
    apply insert_zero_binary.
    unfold variable_weights in Hv.
    destruct (mapM_lookup _ _ _ _ _ Hv Hr0) as (k & _ & Hf).
    apply bind_Return in Hf as (r1 & _ & Hf).
    apply bind_Return in Hf as (r2 & _ & Hf).
    inversion Hf; subst. apply threshold_row_binary.
  - unfold fixed_weights in Hrow. rewrite list_lookup_fmap in Hrow.
    destruct (d !! i) as [r0|]; [|done]. inversion Hrow; subst.
    apply insert_zero_binary, threshold_row_binary.
Qed.

Lemma same_entry_eq (a b : option float) : same_entry a b = true -> a = b.
Proof.
  destruct a as [x|], b as [y|]; simpl; try discriminate; [|reflexivity].
  intros H. apply FloatAxioms.Leibniz.eqb_spec in H. by subst.
Qed.

Lemma symmetricb_entry (n : nat) (m : list (list float)) (i j : nat) :
  symmetricb n m = true -> (i < n)%nat -> (j < n)%nat ->
  entry m i j = entry m j i.
Proof.
  unfold symmetricb. rewrite forallb_forall. intros H Hi Hj.
  assert (Hin : forall k, (k < n)%nat -> In k (seq 0 n))
    by (intros k Hk; apply in_seq; lia).
  specialize (H i (Hin i Hi)). rewrite forallb_forall in H.
  apply same_entry_eq, H, Hin, Hj.
Qed.

Lemma prepared_weights
      (os_path_exists : string -> bool)
      (pd_read_csv pd_read_excel : string -> Exc DataFrame)
      (haversine_distances :
         list (float * float) -> list (float * float) -> Exc (list (list float)))
      (file_path lat_col lon_col value_col : string)
      (distance_threshold : option float) (p : Prepared) :
  prepared os_path_exists pd_read_csv pd_read_excel haversine_distances
           file_path lat_col lon_col value_col distance_threshold = Some p ->
  exists df,
    read_table pd_read_csv pd_read_excel file_path = Return (Some df) /\
    len_df p = df_len df /\
    weights df (len_df p) (dists p) distance_threshold
    = Return (wij p, used_distance p).
Proof.
  intros (_ & df & Ht & _ & Hp)%prepared_Some.
  apply prepare_Return in Hp as (? & ? & ? & _ & _ & _ & _ & _ & _ & Hn & Hw).
  exists df. rewrite Hn. done.
Qed.

Lemma weights_diagonal (df : DataFrame) (n : nat) (d : list (list float))
      (distance_threshold : option float) (w : list (list Z)) (u : Value)
      (i : nat) (row : list Z) :
  weights df n d distance_threshold = Return (w, u) ->
  w !! i = Some row -> (i < length row)%nat ->
  row !! i = Some 0.
Proof.
  intros Hw Hrow Hi.
  assert (Hfd : exists rows, w = fill_diagonal rows 0).
  { apply weights_Return in Hw
      as [(_ & _ & ? & ? & rows & _ & _ & _ & ->) | (_ & _ & ->)]; eauto. }
  destruct Hfd as [rows ->]. rewrite fill_diagonal_lookup in Hrow.
  destruct (rows !! i) as [row0|] eqn:Hrow0; [|done].
  inversion Hrow; subst row. rewrite length_insert in Hi.
  by apply list_lookup_insert_eq.
Qed.

Section Weights.

Variable os_path_exists : string -> bool.
Variable pd_read_csv : string -> Exc DataFrame.
Variable pd_read_excel : string -> Exc DataFrame.
Variable haversine_distances :
  list (float * float) -> list (float * float) -> Exc (list (list float)).
Variable libm_pow : float -> float -> float.
Variable norm_cdf : float -> float.

Local Abbreviation analysis :=
  (hotspot_analysis_getis_ord_gi_star
     os_path_exists pd_read_csv pd_read_excel haversine_distances libm_pow norm_cdf).
Local Abbreviation state :=
  (prepared os_path_exists pd_read_csv pd_read_excel haversine_distances).
Local Abbreviation table := (read_table pd_read_csv pd_read_excel).

(** C7. Self-exclusion: whatever the policy, the weight matrix a run
    computes has [w[i][i] = 0] for every point [i], although a distance
    [dist[i][i] = 0] passes the threshold test for any threshold [t >= 0]. *)
Theorem self_exclusion
        (file_path lat_col lon_col value_col : string)
        (distance_threshold : Arg (option float)) (p : Prepared) (i : nat) :
  state file_path lat_col lon_col value_col (bound distance_threshold) = Some p ->
  well_shaped p = true ->
  (i < len_df p)%nat ->
  entry (wij p) i i = Some 0 /\
  forall t : float,
    (0 <=? t)%float = true -> entry (dists p) i i = Some 0%float ->
    entry (fixed_weights (dists p) t) i i = Some 1.
Proof.
  intros Hp Hs Hi. split.
  - apply well_shaped_lengths in Hs as (_ & _ & Hlen & Hrows).
    destruct (lookup_lt_is_Some_2 (wij p) i) as [row Hrow]; [lia|].
    pose proof (Hrows _ _ Hrow) as Hl.
    apply prepared_weights in Hp as (df & _ & _ & Hw).
    unfold entry. rewrite Hrow. simpl.
    eapply weights_diagonal; [exact Hw | exact Hrow | lia].
  - intros t Ht Hd. rewrite entry_fixed_weights, Hd. simpl. by rewrite Ht.
Qed.

(** C6. Under the fixed-threshold policy (the answer echoes a scalar [t])
    and for a symmetric distance matrix, the weight matrix is symmetric,
    and off the diagonal [w[i][j] = 1] exactly when [dist[i][j] <= t]. *)
Theorem fixed_policy_symmetry
        (file_path lat_col lon_col value_col : string)
        (distance_threshold : Arg (option float)) (p : Prepared) (t : float) :
  state file_path lat_col lon_col value_col (bound distance_threshold) = Some p ->
  used_distance p = VFloat t ->
  symmetricb (len_df p) (dists p) = true ->
  forall i j : nat, (i < len_df p)%nat -> (j < len_df p)%nat ->
    entry (wij p) i j = entry (wij p) j i /\
    (i <> j ->
     (entry (wij p) i j = Some 1 <->
      exists d, entry (dists p) i j = Some d /\ (d <=? t)%float = true)).
Proof.
  intros Hp Hu Hsym i j Hi Hj.
  apply prepared_weights in Hp as (df & _ & _ & Hw).
  apply weights_Return in Hw as [(_ & Hv & _) | (_ & Hf & Hwij)].
  { rewrite Hu in Hv. discriminate. }
  assert (Ht : t = fixed_threshold (bound distance_threshold)) by congruence.
  clear Hf Hu. subst t.
  set (t := fixed_threshold (bound distance_threshold)) in *.
  assert (Hoff : forall a b : nat, a <> b ->
            entry (wij p) a b
            = (fun x => if (x <=? t)%float then 1 else 0) <$> entry (dists p) a b).
  { intros a b Hab. by rewrite Hwij, entry_fill_diagonal_off, entry_fixed_weights. }
  split.
  - destruct (decide (i = j)) as [->|Hij]; [done|].
    rewrite !Hoff by done. by rewrite (symmetricb_entry _ _ i j Hsym).
  - intros Hij. rewrite Hoff by done.
    destruct (entry (dists p) i j) as [d|]; simpl.
    + split.
      * intros H. exists d. split; [done|].
        destruct (d <=? t)%float; [done | discriminate].
      * intros (d' & Hd' & Hle). inversion Hd'; subst. by rewrite Hle.
    + split; [discriminate | by intros (? & ? & _)].
Qed.

(** C3, as the code has it.  In the core function the per-point policy is
    selected exactly when [distance_threshold] is passed as [None] and
    the table has a "distance" column: row [i] is then thresholded by
    radius [i].  In every other case, an omitted argument included, the
    fixed policy is applied with the scalar passed, or 1000.0 when none
    was.  The answer echoes what was applied: the scalar, or the text
    "variable (from data)". *)
Theorem policy_selection
        (file_path lat_col lon_col value_col : string)
        (distance_threshold : Arg (option float))
        (df : DataFrame) (p : Prepared) :
  table file_path = Return (Some df) ->
  state file_path lat_col lon_col value_col (bound distance_threshold) = Some p ->
  (get "status"
       (analysis file_path lat_col lon_col value_col distance_threshold)
   = Some (VStr "success") ->
   get "distance_threshold"
       (analysis file_path lat_col lon_col value_col distance_threshold)
   = Some (used_distance p)) /\
  (distance_threshold = Passed None -> has_column df "distance" = true ->
   used_distance p = VStr "variable (from data)" /\
   exists cells distance_arr,
     column_values df "distance" = Return cells /\
     astype_float cells = Return distance_arr /\
     forall i : nat, (i < len_df p)%nat ->
       exists row r,
         dists p !! i = Some row /\ distance_arr !! i = Some r /\
         wij p !! i = Some (<[i := 0]> (threshold_row row r))) /\
  (distance_threshold <> Passed None \/ has_column df "distance" = false ->
   used_distance p = VFloat (applied_threshold distance_threshold) /\
   wij p = fill_diagonal
             (fixed_weights (dists p) (applied_threshold distance_threshold)) 0).
Proof.
  intros Ht Hp. split; [|split].
  - unfold hotspot_analysis_getis_ord_gi_star. fold (bound distance_threshold).
    rewrite (run_prepared _ _ _ _ libm_pow norm_cdf _ _ _ _ _ _ Hp).
    destruct (assemble libm_pow norm_cdf p) as [doc|e] eqn:Ha; [|discriminate].
    apply assemble_Return in Ha as (results & -> & _). done.
  - intros -> Hcol.
    apply prepared_weights in Hp as (df' & Ht' & Hn & Hw).
    rewrite Ht in Ht'. inversion Ht'; subst df'.
    apply weights_Return in Hw
      as [(_ & Hu & cells & arr & rows & Hc & Ha & Hv & Hwij) | (Hpol & _)].
    + split; [done|]. exists cells, arr. split; [done|]. split; [done|].
      apply variable_weights_lookup in Hv as [_ Hv].
      intros i Hi. destruct (Hv i Hi) as (row & r & Hrow & Hr & Hri).
      exists row, r. split; [done|]. split; [done|].
      by rewrite Hwij, fill_diagonal_lookup, Hri.
    + simpl in Hpol. congruence.
  - intros Hcase.
    apply prepared_weights in Hp as (df' & Ht' & Hn & Hw).
    rewrite Ht in Ht'. inversion Ht'; subst df'.
    apply weights_Return in Hw as [(Hpol & _) | (_ & Hu & Hwij)].
    + exfalso. destruct distance_threshold as [|[t|]]; simpl in Hpol;
        try discriminate. destruct Hcase; congruence.
    + assert (Heq : fixed_threshold (bound distance_threshold)
                    = applied_threshold distance_threshold)
        by (by destruct distance_threshold as [|[t|]]).
      rewrite Heq in Hu, Hwij. done.
Qed.

End Weights.

Lemma self_exclusion_witness :
  entry (wij Examples.three_state) 0 0 = Some 0 /\
  forall t : float,
    (0 <=? t)%float = true ->
    entry (dists Examples.three_state) 0 0 = Some 0%float ->
    entry (fixed_weights (dists Examples.three_state) t) 0 0 = Some 1.
Proof.
  apply (self_exclusion
           Sample.exists_ (fun _ => Return Sample.three_points) Sample.no_excel
           Sample.haversine "points.csv" "lat" "lon" "value" Omitted
           Examples.three_state 0);
    [vm_compute; reflexivity | vm_compute; reflexivity | simpl; lia].
Defined.

Lemma fixed_policy_symmetry_witness :
  entry (wij Examples.three_state) 0 2 = entry (wij Examples.three_state) 2 0 /\
  (0%nat <> 2%nat ->
   (entry (wij Examples.three_state) 0 2 = Some 1 <->
    exists d, entry (dists Examples.three_state) 0 2 = Some d /\
              (d <=? 1000)%float = true)).
Proof.
  apply (fixed_policy_symmetry
           Sample.exists_ (fun _ => Return Sample.three_points) Sample.no_excel
           Sample.haversine "points.csv" "lat" "lon" "value" Omitted
           Examples.three_state 1000%float);
    [vm_compute; reflexivity | reflexivity | vm_compute; reflexivity
     | simpl; lia | simpl; lia].
Defined.

Lemma policy_selection_witness :
  used_distance Examples.radii_state = VStr "variable (from data)" /\
  wij Examples.radii_state = [[0; 0; 1]; [0; 0; 0]; [0; 0; 0]] /\
  get "distance_threshold" (Sample.core Examples.radii_table (Passed None))
  = Some (used_distance Examples.radii_state).
Proof.
  assert (Ht : read_table (fun _ => Return Examples.radii_table) Sample.no_excel
                          "points.csv" = Return (Some Examples.radii_table))
    by reflexivity.
  assert (Hp : Sample.state Examples.radii_table (bound (Passed None))
               = Some Examples.radii_state)
    by (vm_compute; reflexivity).
  destruct (policy_selection
              Sample.exists_ (fun _ => Return Examples.radii_table) Sample.no_excel
              Sample.haversine Sample.glibc_pow Sample.cdf "points.csv" "lat" "lon" "value"
              (Passed None) Examples.radii_table Examples.radii_state Ht Hp)
    as (Hecho & Hvar & _).
  destruct (Hvar eq_refl) as [Hu _]; [vm_compute; reflexivity|].
  split; [exact Hu|]. split; [reflexivity|].
  apply Hecho. vm_compute; reflexivity.
Defined.

(** C3 as stated fails in the core function: with the argument left out
    and a "distance" column present, the fixed policy is applied at
    1000.0 m (point 2, whose own radius is 50 m, gets point 0, 111 m away,
    as a neighbour), and the answer echoes the scalar. *)
Lemma policy_selection_counterexample :
  has_column Examples.radii_table "distance" = true /\
  get "distance_threshold" (Sample.core Examples.radii_table Omitted)
  = Some (VFloat 1000) /\
  (exists p,
      Sample.state Examples.radii_table (bound Omitted) = Some p /\
      wij p = fill_diagonal (fixed_weights (dists p) 1000) 0 /\
      entry (wij p) 2 0 = Some 1) /\
  entry (wij Examples.radii_state) 2 0 = Some 0.
Proof.
  split; [vm_compute; reflexivity|]. split; [vm_compute; reflexivity|].
  split; [|vm_compute; reflexivity].
  eexists. split; [vm_compute; reflexivity|].
  split; vm_compute; reflexivity.
Qed.

(** ** Integer arithmetic without overflow *)

Lemma wrap64_small (z : Z) : - 2 ^ 63 <= z < 2 ^ 63 -> wrap64 z = z.
Proof.
  intros Hz. unfold wrap64. rewrite Z.mod_small; lia.
Qed.

Lemma binary_bounds (row : list Z) (x : Z) : binary row -> x ∈ row -> 0 <= x <= 1.
Proof.
  unfold binary. rewrite Forall_forall. intros H Hx.
  destruct (H x Hx); lia.
Qed.

Lemma binary_squares (row : list Z) :
  binary row ->
  map (fun w => int64_mul w w) row = row /\ map (fun w => w * w) row = row.
Proof.
  induction 1 as [|x row Hx _ [IH1 IH2]]; [done|].
  simpl. rewrite IH1, IH2.
  destruct Hx as [-> | ->]; split; reflexivity.
Qed.

Lemma sum_binary_acc (row : list Z) (acc : Z) :
  binary row -> 0 <= acc -> acc + Z.of_nat (length row) < 2 ^ 63 ->
  fold_left int64_add row acc = fold_left Z.add row acc /\
  acc <= fold_left Z.add row acc <= acc + Z.of_nat (length row).
Proof.
  intros H. revert acc. induction H as [|x row Hx _ IH]; intros acc Hacc Hlen.
  - simpl in *. lia.
  - simpl length in Hlen. simpl fold_left.
    assert (Hx' : 0 <= x <= 1) by (destruct Hx; lia).
    unfold int64_add at 2. rewrite wrap64_small by lia.
    destruct (IH (acc + x)) as [IH1 IH2]; [lia | lia |].
    split; [exact IH1 | simpl length; lia].
Qed.

Lemma sum_binary (row : list Z) :
  binary row -> Z.of_nat (length row) < 2 ^ 63 ->
  np_sum_int row = Spec.sum_int row /\
  0 <= Spec.sum_int row <= Z.of_nat (length row).
Proof.
  intros H Hlen. unfold np_sum_int, Spec.sum_int.
  destruct (sum_binary_acc row 0 H) as [H1 H2]; [lia | lia |].
  split; [exact H1 | lia].
Qed.


Lemma gi_star_stat_regular (norm_cdf : float -> float) (n : Z) (g : GlobalStats)
      (xj : list float) (wij_i : list Z) (sum_wij_i : Z) :
  (denom n (s g) wij_i sum_wij_i =? 0)%float = false ->
  gi_star_stat norm_cdf n g xj wij_i sum_wij_i
  = let gi_star := ((num wij_i xj - mean_x g * float_of_int sum_wij_i)
                    / denom n (s g) wij_i sum_wij_i)%float in
    mkStat gi_star gi_star (2 * (1 - norm_cdf (abs gi_star)))%float.
Proof.
  unfold gi_star_stat. by intros ->.
Qed.

Section Points.

Variable os_path_exists : string -> bool.
Variable pd_read_csv : string -> Exc DataFrame.
Variable pd_read_excel : string -> Exc DataFrame.
Variable haversine_distances :
  list (float * float) -> list (float * float) -> Exc (list (list float)).
Variable libm_pow : float -> float -> float.
Variable norm_cdf : float -> float.

Local Abbreviation analysis :=
  (hotspot_analysis_getis_ord_gi_star
     os_path_exists pd_read_csv pd_read_excel haversine_distances libm_pow norm_cdf).
Local Abbreviation state :=
  (prepared os_path_exists pd_read_csv pd_read_excel haversine_distances).

(** The result of point [i] in a run that reaches the loop with arrays of
    the right shape. *)
Lemma analysis_point
      (file_path lat_col lon_col value_col : string)
      (distance_threshold : Arg (option float))
      (p : Prepared) (i : nat) (wij_i : list Z) :
  state file_path lat_col lon_col value_col (bound distance_threshold) = Some p ->
  well_shaped p = true ->
  wij p !! i = Some wij_i ->
  exists results r,
    analysis file_path lat_col lon_col value_col distance_threshold
    = success p results /\
    length results = len_df p /\
    results !! i = Some r /\
    mkStat (gi_star r) (z_score r) (p_value r)
    = gi_star_stat norm_cdf (Z.of_nat (len_df p))
        (global_stats libm_pow (Z.of_nat (len_df p)) (values p))
        (values p) wij_i (np_sum_int wij_i) /\
    label r = classify (z_score r) /\
    neighbors r = np_sum_int wij_i.
Proof.
  intros Hp Hs Hw.
  destruct (run_well_shaped _ _ _ _ libm_pow norm_cdf _ _ _ _ _ _ Hp Hs)
    as (results & Ha & Hrun).
  apply well_shaped_lengths in Hs as (_ & _ & Hlen & _).
  assert (Hl : length results = len_df p).
  { apply assemble_Return in Ha as (rs & Heq & Hm). inversion Heq; subst rs.
    apply mapM_length in Hm. by rewrite length_seq in Hm. }
  destruct (lookup_lt_is_Some_2 results i) as [r Hr].
  { apply lookup_lt_Some in Hw. lia. }
  destruct (results_lookup _ _ _ _ _ _ Ha Hr)
    as (wij_i' & c & x & _ & Hw' & _ & _ & Heq).
  rewrite Hw in Hw'. inversion Hw'; subst wij_i'.
  exists results, r. split; [exact Hrun|]. split; [exact Hl|].
  split; [exact Hr|]. subst r. simpl.
  split; [|split; reflexivity].
  by destruct (gi_star_stat _ _ _ _ _ _).
Qed.

End Points.

(** ** NaN *)

Lemma Prim2SF_nan : Prim2SF nan = S754_nan.
Proof. reflexivity. Qed.

Lemma mul_nan_r (x : float) : (x * nan)%float = nan.
Proof.
  apply Prim2SF_inj. rewrite mul_spec, Prim2SF_nan.
  unfold SF64mul, SFmul. by destruct (Prim2SF x) as [[|]|[|]| |[|] m e].
Qed.

Lemma div_nan_r (x : float) : (x / nan)%float = nan.
Proof.
  apply Prim2SF_inj. rewrite div_spec, Prim2SF_nan.
  unfold SF64div, SFdiv. by destruct (Prim2SF x) as [[|]|[|]| |[|] m e].
Qed.

Lemma denom_single (s : float) : denom 1 s [0] 0 = nan.
Proof.
  unfold denom.
  replace (PrimFloat.sqrt _) with nan by (vm_compute; reflexivity).
  apply mul_nan_r.
Qed.

Lemma gi_star_stat_single (norm_cdf : float -> float) (g : GlobalStats)
      (xj : list float) :
  gi_star_stat norm_cdf 1 g xj [0] 0
  = mkStat nan nan (2 * (1 - norm_cdf nan))%float.
Proof.
  unfold gi_star_stat. rewrite denom_single.
  replace (nan =? 0)%float with false by reflexivity.
  cbv zeta. rewrite div_nan_r. reflexivity.
Qed.

(** ** Checked divisions *)

Lemma div_int_nonzero (x : float) (d : Z) :
  d <> 0 -> Checked.div_int x d = Some (x / float_of_int d)%float.
Proof.
  intros Hd. unfold Checked.div_int. by destruct (Z.eqb_spec d 0).
Qed.

Lemma checked_global_stats (libm_pow : float -> float -> float)
      (n : Z) (xj : list float) :
  n <> 0 ->
  Checked.global_stats libm_pow n xj = Some (global_stats libm_pow n xj).
Proof.
  intros Hn. unfold Checked.global_stats, global_stats.
  rewrite !div_int_nonzero by done. reflexivity.
Qed.

Lemma checked_denom (n : Z) (s : float) (wij_i : list Z) (sum_wij_i : Z) :
  n - 1 <> 0 -> Checked.denom n s wij_i sum_wij_i = Some (denom n s wij_i sum_wij_i).
Proof.
  intros Hn. unfold Checked.denom, denom.
  rewrite div_int_nonzero by done. reflexivity.
Qed.

Lemma checked_gi_star_stat (norm_cdf : float -> float) (n : Z) (g : GlobalStats)
      (xj : list float) (wij_i : list Z) (sum_wij_i : Z) :
  n - 1 <> 0 ->
  Checked.gi_star_stat norm_cdf n g xj wij_i sum_wij_i
  = Some (gi_star_stat norm_cdf n g xj wij_i sum_wij_i).
Proof.
  intros Hn. unfold Checked.gi_star_stat, gi_star_stat.
  rewrite checked_denom by done. simpl.
  destruct (denom n (s g) wij_i sum_wij_i =? 0)%float eqn:Hd; [reflexivity|].
  unfold Checked.div_float. rewrite Hd. reflexivity.
Qed.

Lemma checked_single (norm_cdf : float -> float) (g : GlobalStats)
      (xj : list float) (wij_i : list Z) (sum_wij_i : Z) :
  Checked.denom 1 (s g) wij_i sum_wij_i = None /\
  Checked.gi_star_stat norm_cdf 1 g xj wij_i sum_wij_i = None.
Proof.
  unfold Checked.gi_star_stat, Checked.denom. split; reflexivity.
Qed.

Section Safety.

Variable os_path_exists : string -> bool.
Variable pd_read_csv : string -> Exc DataFrame.
Variable pd_read_excel : string -> Exc DataFrame.
Variable haversine_distances :
  list (float * float) -> list (float * float) -> Exc (list (list float)).
Variable libm_pow : float -> float -> float.
Variable norm_cdf : float -> float.

Local Abbreviation analysis :=
  (hotspot_analysis_getis_ord_gi_star
     os_path_exists pd_read_csv pd_read_excel haversine_distances libm_pow norm_cdf).
Local Abbreviation state :=
  (prepared os_path_exists pd_read_csv pd_read_excel haversine_distances).

(** C10. With at least two points no division of a run has a zero
    divisor: the statistics computed with checked divisions (by [n], by
    [n - 1], and by [denom] on the branch where it is not zero) are the
    statistics of the run.  With a single point the division by [n - 1]
    has divisor zero, and the run does not answer 0/0/1 for that point: its
    [gi_star] and [z_score] are NaN. *)
Theorem division_safety
        (file_path lat_col lon_col value_col : string)
        (distance_threshold : Arg (option float)) (p : Prepared) :
  state file_path lat_col lon_col value_col (bound distance_threshold) = Some p ->
  well_shaped p = true ->
  ((2 <= len_df p)%nat ->
   Checked.global_stats libm_pow (Z.of_nat (len_df p)) (values p)
   = Some (global_stats libm_pow (Z.of_nat (len_df p)) (values p)) /\
   forall (i : nat) (wij_i : list Z),
     wij p !! i = Some wij_i ->
     Checked.gi_star_stat norm_cdf (Z.of_nat (len_df p))
       (global_stats libm_pow (Z.of_nat (len_df p)) (values p))
       (values p) wij_i (np_sum_int wij_i)
     = Some (gi_star_stat norm_cdf (Z.of_nat (len_df p))
               (global_stats libm_pow (Z.of_nat (len_df p)) (values p))
               (values p) wij_i (np_sum_int wij_i))) /\
  (len_df p = 1%nat ->
   wij p = [[0]] /\
   Checked.gi_star_stat norm_cdf 1 (global_stats libm_pow 1 (values p)) (values p) [0] 0
   = None /\
   exists r,
     analysis file_path lat_col lon_col value_col distance_threshold
     = success p [r] /\
     gi_star r = nan /\ z_score r = nan /\
     p_value r = (2 * (1 - norm_cdf nan))%float).
Proof.
  intros Hp Hs. split.
  - intros Hn. split.
    + apply checked_global_stats. lia.
    + intros i wij_i _. apply checked_gi_star_stat. lia.
  - intros Hn.
    pose proof Hs as Hs'.
    apply well_shaped_lengths in Hs' as (_ & _ & Hlen & Hrows).
    rewrite Hn in Hlen.
    destruct (wij p) as [|row [|? ?]] eqn:Hwij; try discriminate Hlen.
    pose proof (Hrows 0%nat row eq_refl) as Hrow. rewrite Hn in Hrow.
    destruct row as [|w0 [|? ?]]; try discriminate Hrow.
    assert (Hw0 : w0 = 0).
    { pose proof Hp as Hp'.
      apply prepared_weights in Hp' as (df & _ & _ & Hw).
      assert (H0 : [w0] !! 0%nat = Some 0).
      { eapply (weights_diagonal _ _ _ _ _ _ 0%nat [w0] Hw);
          [by rewrite Hwij | simpl; lia]. }
      by inversion H0. }
    subst w0. split; [reflexivity|].
    split; [apply checked_single|].
    destruct (analysis_point _ _ _ _ libm_pow norm_cdf
                file_path lat_col lon_col value_col distance_threshold
                p 0%nat [0] Hp Hs)
      as (results & r & Hrun & Hl & Hr & Hst & _ & _); [by rewrite Hwij|].
    rewrite Hn in Hl, Hst. simpl in Hst.
    change (np_sum_int [0]) with 0 in Hst.
    rewrite gi_star_stat_single in Hst.
    destruct results as [|r0 [|? ?]]; try discriminate Hl.
    inversion Hr; subst r0.
    exists r. split; [exact Hrun|].
    inversion Hst as [[Hg Hz Hpv]]. repeat split; reflexivity.
Qed.

End Safety.

Lemma division_safety_witness :
  Checked.global_stats Sample.glibc_pow 3 (values Examples.three_state)
  = Some (global_stats Sample.glibc_pow 3 (values Examples.three_state)) /\
  Checked.gi_star_stat Sample.cdf 3
    (global_stats Sample.glibc_pow 3 (values Examples.three_state))
    (values Examples.three_state) [1; 0; 0] 1
  = Some (gi_star_stat Sample.cdf 3
            (global_stats Sample.glibc_pow 3 (values Examples.three_state))
            (values Examples.three_state) [1; 0; 0] 1).
Proof.
  destruct (division_safety
              Sample.exists_ (fun _ => Return Sample.three_points) Sample.no_excel
              Sample.haversine Sample.glibc_pow Sample.cdf "points.csv" "lat" "lon" "value" Omitted
              Examples.three_state)
    as [Hsafe _]; [vm_compute; reflexivity | vm_compute; reflexivity |].
  destruct Hsafe as [Hg Hpt]; [simpl; lia|].
  split; [exact Hg|]. exact (Hpt 2%nat [1; 0; 0] eq_refl).
Defined.

(** A single point: the answer carries NaN, not 0/0/1. *)
Example single_point_answer :
  Sample.results_of (Sample.core Sample.one_point Omitted)
  = [mkResult 0 0 0 5 nan nan nan not_significant 0].
Proof. vm_compute. reflexivity. Qed.


(** ** Binary64 arithmetic between 1/2 and 1

    The two-tailed p-value is [2 * (1 - c)] for [c = Phi(|z|)].  For
    [1/2 <= c <= 1] both operations are exact in binary64, which gives
    the bounds of the p-value. *)

Lemma digits2_pos_size (m : positive) : digits2_pos m = Pos.size m.
Proof. induction m; simpl; congruence. Qed.

Lemma digits2_pos_bounds (m : positive) :
  2 ^ (Zpos (digits2_pos m) - 1) <= Zpos m < 2 ^ Zpos (digits2_pos m).
Proof.
  rewrite digits2_pos_size.
  pose proof (Pos.size_gt m) as Hgt. pose proof (Pos.size_le m) as Hle.
  assert (H2 : Zpos (2 ^ Pos.size m) = 2 ^ Zpos (Pos.size m)).
  { rewrite Pos2Z.inj_pow. reflexivity. }
  split.
  - assert (2 ^ Zpos (Pos.size m) = 2 * 2 ^ (Zpos (Pos.size m) - 1)).
    { rewrite <- Z.pow_succ_r by lia. f_equal. lia. }
    lia.
  - lia.
Qed.

Lemma digits2_pos_unique (m : positive) (k : Z) :
  2 ^ (k - 1) <= Zpos m < 2 ^ k -> 0 < k -> Zpos (digits2_pos m) = k.
Proof.
  intros [Hlo Hhi] Hk. pose proof (digits2_pos_bounds m) as [Dlo Dhi].
  set (d := Zpos (digits2_pos m)) in *.
  assert (0 < d) by (unfold d; lia).
  destruct (Z.lt_trichotomy d k) as [Hlt | [Heq | Hgt]]; [|exact Heq|].
  - assert (2 ^ d <= 2 ^ (k - 1)) by (apply Z.pow_le_mono_r; lia). lia.
  - assert (2 ^ k <= 2 ^ (d - 1)) by (apply Z.pow_le_mono_r; lia). lia.
Qed.

Lemma iter_xO_mul (m : positive) (d : positive) :
  Zpos (Pos.iter xO m d) = Zpos m * 2 ^ Zpos d.
Proof.
  revert m. induction d using Pos.peano_ind; intros m.
  - simpl. lia.
  - rewrite Pos.iter_succ. rewrite Pos2Z.inj_xO, IHd.
    rewrite Pos2Z.inj_succ, Z.pow_succ_r by lia. lia.
Qed.

Lemma round_aux_canonical (mz : positive) (ez : Z) :
  Zpos (digits2_pos mz) = 53 -> -1074 <= ez <= 971 ->
  binary_round_aux prec emax false (Zpos mz) ez loc_Exact = S754_finite false mz ez.
Proof.
  intros Hd He. unfold binary_round_aux, shr_fexp, Zdigits2. rewrite Hd.
  assert (Hf : fexp prec emax (53 + ez) - ez = 0).
  { unfold fexp, emin, prec, emax. lia. }
  rewrite Hf. simpl shr. cbv iota beta. simpl shr_m. simpl loc_of_shr_record.
  simpl round_nearest_even. unfold Zdigits2. rewrite Hd, Hf. simpl.
  change (emax - prec) with 971.
  replace (ez <=? 971) with true; [reflexivity|].
  symmetry. apply Z.leb_le. lia.
Qed.

Lemma round_small (d : positive) (e : Z) :
  Zpos (digits2_pos d) <= 53 ->
  -1074 <= e + Zpos (digits2_pos d) - 53 -> e + Zpos (digits2_pos d) - 53 <= 971 ->
  exists mz,
    binary_round prec emax false d e
    = S754_finite false mz (e + Zpos (digits2_pos d) - 53) /\
    Zpos (digits2_pos mz) = 53 /\
    Zpos mz = Zpos d * 2 ^ (53 - Zpos (digits2_pos d)).
Proof.
  intros Hk Hlo Hhi. unfold binary_round, shl_align.
  set (k := Zpos (digits2_pos d)) in *.
  assert (Hf : fexp prec emax (k + e) = e + k - 53).
  { unfold fexp, emin, prec, emax. lia. }
  rewrite Hf.
  destruct (Z.eq_dec k 53) as [Heq | Hne].
  - replace (e + k - 53 - e) with 0 by lia. cbv iota beta.
    exists d. rewrite Heq. replace (e + 53 - 53) with e by lia.
    split; [apply round_aux_canonical; [exact Heq | lia]|].
    split; [exact Heq|]. simpl. lia.
  - assert (Hsh : e + k - 53 - e = Zneg (Z.to_pos (53 - k))).
    { rewrite <- Pos2Z.opp_pos, Z2Pos.id by lia. lia. }
    rewrite Hsh. cbv iota beta.
    set (mz := Pos.iter xO d (Z.to_pos (53 - k))).
    assert (Hmz : Zpos mz = Zpos d * 2 ^ (53 - k)).
    { unfold mz. rewrite iter_xO_mul, Z2Pos.id by lia. reflexivity. }
    assert (Hdig : Zpos (digits2_pos mz) = 53).
    { apply digits2_pos_unique; [|lia]. rewrite Hmz.
      pose proof (digits2_pos_bounds d) as [Dlo Dhi]. fold k in Dlo, Dhi.
      assert (Hk0 : 0 < k) by (unfold k; lia).
      assert (E1 : 2 ^ (53 - 1) = 2 ^ (k - 1) * 2 ^ (53 - k))
        by (rewrite <- Z.pow_add_r by lia; f_equal; lia).
      assert (E2 : 2 ^ 53 = 2 ^ k * 2 ^ (53 - k))
        by (rewrite <- Z.pow_add_r by lia; f_equal; lia).
      assert (0 < 2 ^ (53 - k)) by (apply Z.pow_pos_nonneg; lia).
      rewrite E1, E2.
      split; [apply Z.mul_le_mono_nonneg_r; lia | apply Z.mul_lt_mono_pos_r; lia]. }
    exists mz. split; [apply round_aux_canonical; [exact Hdig | lia]|].
    split; [exact Hdig | exact Hmz].
Qed.

Lemma compare_cont_le (p q : positive) :
  Zpos p <= Zpos q -> Pos.compare_cont Eq p q <> Gt.
Proof. intros H. exact H. Qed.

Lemma Prim2SF_half : Prim2SF 0.5 = S754_finite false 4503599627370496 (-53).
Proof. reflexivity. Qed.
Lemma Prim2SF_one : Prim2SF 1 = S754_finite false 4503599627370496 (-52).
Proof. reflexivity. Qed.
Lemma Prim2SF_two : Prim2SF 2 = S754_finite false 4503599627370496 (-51).
Proof. reflexivity. Qed.
Lemma Prim2SF_zero : Prim2SF 0 = S754_zero false.
Proof. reflexivity. Qed.

Lemma canonical_53 (m : positive) (e : Z) :
  valid_binary (S754_finite false m e) = true -> -1021 <= e ->
  Zpos (digits2_pos m) = 53.
Proof.
  unfold SpecFloat.valid_binary, bounded, canonical_mantissa, fexp, emin, prec, emax.
  intros H He. apply andb_true_iff in H as [H _]. apply Z.eqb_eq in H. lia.
Qed.

Lemma half_to_one_shape (c : float) :
  (0.5 <=? c)%float = true -> (c <=? 1)%float = true ->
  c = 1%float \/
  exists m, Prim2SF c = S754_finite false m (-53) /\
            2 ^ 52 <= Zpos m < 2 ^ 53.
Proof.
  rewrite !leb_spec, Prim2SF_half, Prim2SF_one.
  pose proof (Prim2SF_valid c) as Hv.
  destruct (Prim2SF c) as [sz|sz| |sz m e] eqn:Hc;
    try destruct sz; try discriminate.
  unfold SFleb, SFcompare. intros H1 H2.
  destruct (Z.compare_spec (-53) e) as [He | He | He]; [| |discriminate H1].
  - subst e. right. exists m. split; [reflexivity|].
    pose proof (canonical_53 m (-53) Hv ltac:(lia)) as Hd.
    pose proof (digits2_pos_bounds m) as Hb. rewrite Hd in Hb. exact Hb.
  - left. destruct (Z.compare_spec e (-52)) as [He2 | He2 | He2];
      [| lia | discriminate H2].
    subst e.
    pose proof (canonical_53 m (-52) Hv ltac:(lia)) as Hd.
    pose proof (digits2_pos_bounds m) as Hb. rewrite Hd in Hb.
    assert (Hm : (m <= 4503599627370496)%positive).
    { unfold Pos.le, Pos.compare. intros Hgt. rewrite Hgt in H2. discriminate. }
    assert (m = 4503599627370496%positive).
    { apply Pos2Z.pos_le_pos in Hm. destruct Hb as [Hb _].
      change (2 ^ (53 - 1)) with (Zpos 4503599627370496) in Hb.
      apply Pos2Z.inj. apply Z.le_antisymm; assumption. }
    subst m. apply Prim2SF_inj. rewrite Hc. reflexivity.
Qed.

Lemma shr_52 (mz : positive) :
  SpecFloat.iter_pos shr_1 52
           (Build_shr_record (Zpos (Pos.iter xO mz 52)) false false)
  = Build_shr_record (Zpos mz) false false.
Proof. reflexivity. Qed.

Lemma mul_two_exact (mz : positive) (ez : Z) :
  Zpos (digits2_pos mz) = 53 -> -1075 <= ez <= 970 ->
  SFmul prec emax (S754_finite false 4503599627370496 (-51))
        (S754_finite false mz ez)
  = S754_finite false mz (ez + 1).
Proof.
  intros Hd He. unfold SFmul. cbv [xorb].
  change (Pos.mul 4503599627370496 mz) with (Pos.iter xO mz 52).
  assert (Hdig : Zpos (digits2_pos (Pos.iter xO mz 52)) = 105).
  { apply digits2_pos_unique; [|lia]. rewrite iter_xO_mul.
    pose proof (digits2_pos_bounds mz) as [Dlo Dhi]. rewrite Hd in Dlo, Dhi.
    assert (E1 : 2 ^ (105 - 1) = 2 ^ (53 - 1) * 2 ^ 52) by reflexivity.
    assert (E2 : 2 ^ 105 = 2 ^ 53 * 2 ^ 52) by reflexivity.
    assert (0 < 2 ^ 52) by reflexivity.
    rewrite E1, E2.
    split; [apply Z.mul_le_mono_nonneg_r; lia | apply Z.mul_lt_mono_pos_r; lia]. }
  unfold binary_round_aux, shr_fexp, Zdigits2. rewrite Hdig.
  assert (Hf : fexp prec emax (105 + (-51 + ez)) - (-51 + ez) = 52).
  { unfold fexp, emin, prec, emax. lia. }
  rewrite Hf. unfold shr_record_of_loc, shr. rewrite shr_52.
  cbv iota beta. simpl shr_m. simpl loc_of_shr_record.
  simpl round_nearest_even. unfold Zdigits2. rewrite Hd.
  assert (Hf2 : fexp prec emax (53 + (-51 + ez + 52)) - (-51 + ez + 52) = 0).
  { unfold fexp, emin, prec, emax. lia. }
  rewrite Hf2. cbv iota beta. simpl shr_m.
  replace (-51 + ez + 52) with (ez + 1) by lia.
  replace (ez + 1 <=? emax - prec) with true; [reflexivity|].
  symmetry. apply Z.leb_le. unfold emax, prec. lia.
Qed.

Lemma sub_from_one (m : positive) :
  2 ^ 52 <= Zpos m < 2 ^ 53 ->
  exists mz ez,
    SFsub prec emax (S754_finite false 4503599627370496 (-52))
          (S754_finite false m (-53))
    = S754_finite false mz ez /\
    Zpos (digits2_pos mz) = 53 /\ -105 <= ez <= -53 /\
    (ez = -53 -> Zpos mz = 9007199254740992 - Zpos m).
Proof.
  intros [Hlo Hhi].
  assert (Hs : SFsub prec emax (S754_finite false 4503599627370496 (-52))
                     (S754_finite false m (-53))
               = binary_normalize prec emax (9007199254740992 - Zpos m) (-53) false)
    by reflexivity.
  rewrite Hs.
  change (2 ^ 53) with 9007199254740992 in Hhi.
  change (2 ^ 52) with 4503599627370496 in Hlo.
  assert (Hd : 0 < 9007199254740992 - Zpos m <= 4503599627370496) by lia.
  destruct (9007199254740992 - Zpos m) as [|d|d] eqn:Hdiff; [lia| |lia].
  unfold binary_normalize.
  pose proof (digits2_pos_bounds d) as [Dlo Dhi].
  set (k := Zpos (digits2_pos d)) in *.
  assert (Hk0 : 0 < k) by (unfold k; lia).
  assert (Hk : k <= 53).
  { destruct (Z.le_gt_cases k 53) as [|Hgt]; [assumption|].
    assert (2 ^ 53 <= 2 ^ (k - 1)) by (apply Z.pow_le_mono_r; lia).
    change (2 ^ 53) with 9007199254740992 in *. lia. }
  destruct (round_small d (-53)) as (mz & Hr & Hdig & Hmz);
    fold k; [lia | lia | lia |].
  exists mz, (-53 + k - 53). split; [exact Hr|]. split; [exact Hdig|].
  split; [lia|]. intros Hez. assert (k = 53) by lia. fold k in Hmz.
  rewrite Hmz. replace (53 - k) with 0 by lia.
  change (2 ^ 0) with 1. lia.
Qed.

Lemma Prim2SF_finite_eq (x y : float) (sg : bool) (m : positive) (e : Z) :
  Prim2SF x = S754_finite sg m e -> Prim2SF y = S754_finite sg m e -> x = y.
Proof. intros Hx Hy. apply Prim2SF_inj. congruence. Qed.

(** For [c] between 1/2 and 1, [2 * (1 - c)] lies between 0 and 1, and is
    1 only for [c = 1/2]. *)
Lemma two_sided_bounds (c : float) :
  (0.5 <=? c)%float = true -> (c <=? 1)%float = true ->
  (0 <=? 2 * (1 - c))%float = true /\ (2 * (1 - c) <=? 1)%float = true /\
  ((2 * (1 - c))%float = 1%float <-> c = 0.5%float).
Proof.
  intros H1 H2.
  destruct (half_to_one_shape c H1 H2) as [-> | (m & Hc & Hm)].
  { split; [reflexivity|]. split; [reflexivity|].
    split; intros H; apply (f_equal Prim2SF) in H; discriminate H. }
  destruct (sub_from_one m Hm) as (mz & ez & Hs & Hdig & He & Hmz).
  assert (Hp : Prim2SF (2 * (1 - c)) = S754_finite false mz (ez + 1)).
  { rewrite mul_spec, sub_spec, Prim2SF_two, Prim2SF_one, Hc.
    unfold SF64mul, SF64sub. rewrite Hs. apply mul_two_exact; [exact Hdig | lia]. }
  destruct Hm as [Hmlo Hmhi].
  change (2 ^ 52) with 4503599627370496 in Hmlo.
  change (2 ^ 53) with 9007199254740992 in Hmhi.
  split; [|split].
  - rewrite leb_spec, Hp, Prim2SF_zero. reflexivity.
  - rewrite leb_spec, Hp, Prim2SF_one. unfold SFleb, SFcompare.
    destruct (Z.compare_spec (ez + 1) (-52)) as [Heq | Hlt | Hgt];
      [|reflexivity|lia].
    assert (He53 : ez = -53) by lia.
    assert (Hz : Zpos mz <= Zpos 4503599627370496) by (rewrite (Hmz He53); lia).
    pose proof (compare_cont_le _ _ Hz) as Hcmp.
    destruct (Pos.compare_cont Eq mz 4503599627370496);
      [reflexivity..|congruence].
  - split.
    + intros H1'. apply (f_equal Prim2SF) in H1'.
      rewrite Hp, Prim2SF_one in H1'. inversion H1' as [[Hmz1 Hez1]].
      assert (He53 : ez = -53) by lia.
      pose proof (Hmz He53) as Hval. rewrite Hmz1 in Hval.
      assert (Hm52 : Zpos m = Zpos 4503599627370496) by lia.
      apply Pos2Z.inj in Hm52. subst m.
      apply (Prim2SF_finite_eq _ _ _ _ _ Hc Prim2SF_half).
    + intros ->. reflexivity.
Qed.


(** ** Sums of a few numbers

    An addition of binary64 numbers gives -0 only when both numbers are
    -0.  So a sum that starts from 0 is never -0 and adding it to the
    identity 0 leaves it as it is, and a sum that starts from -0 is -0
    only when every term is, which adding it to the identity makes 0. *)

















(** The depth given to [pairwise_sum] is enough: any depth that is at
    least the length of the vector gives the same sum. *)
Lemma pairwise_sum_depth (d1 d2 : nat) (a : list float) :
  (length a <= d1)%nat -> (length a <= d2)%nat ->
  pairwise_sum d1 a = pairwise_sum d2 a.
Proof.
  revert d2 a. induction d1 as [|d1 IH]; intros d2 a H1 H2.
  - destruct a; [|simpl in H1; lia]. by destruct d2.
  - destruct d2 as [|d2].
    + destruct a; [|simpl in H2; lia]. reflexivity.
    + cbn [pairwise_sum]. destruct (Nat.ltb_spec 128 (length a)) as [Hl|Hl]; [|done].
      set (n := length a) in *.
      pose proof (Nat.div_mod_eq n 2) as Hd.
      pose proof (Nat.mod_upper_bound n 2 ltac:(lia)) as Hm.
      pose proof (Nat.mod_upper_bound (n / 2) 8 ltac:(lia)) as Hm8.
      pose proof (Nat.Div0.mod_le (n / 2) 8) as Hle.
      set (n2 := (n / 2 - (n / 2) mod 8)%nat) in *.
      assert (Hn2 : (0 < n2 < n)%nat) by (unfold n2; lia).
      f_equal; apply IH; rewrite ?length_take, ?length_drop; fold n; lia.
Qed.

(** ** The statistic and its formula *)



Section Formula.

Variable os_path_exists : string -> bool.
Variable pd_read_csv : string -> Exc DataFrame.
Variable pd_read_excel : string -> Exc DataFrame.
Variable haversine_distances :
  list (float * float) -> list (float * float) -> Exc (list (list float)).
Variable libm_pow : float -> float -> float.
Variable norm_cdf : float -> float.

Local Abbreviation analysis :=
  (hotspot_analysis_getis_ord_gi_star
     os_path_exists pd_read_csv pd_read_excel haversine_distances libm_pow norm_cdf).
Local Abbreviation state :=
  (prepared os_path_exists pd_read_csv pd_read_excel haversine_distances).


End Formula.



Section PValue.

Variable os_path_exists : string -> bool.
Variable pd_read_csv : string -> Exc DataFrame.
Variable pd_read_excel : string -> Exc DataFrame.
Variable haversine_distances :
  list (float * float) -> list (float * float) -> Exc (list (list float)).
Variable libm_pow : float -> float -> float.
Variable norm_cdf : float -> float.

Local Abbreviation analysis :=
  (hotspot_analysis_getis_ord_gi_star
     os_path_exists pd_read_csv pd_read_excel haversine_distances libm_pow norm_cdf).
Local Abbreviation state :=
  (prepared os_path_exists pd_read_csv pd_read_excel haversine_distances).

(** C4, as the code has it.  A point whose denominator is zero reports
    [p_value = 1].  Any other point reports
    [p_value = 2 * (1 - Phi(|z_score|))]; when [Phi(|z_score|)] lies
    between 1/2 and 1 this value lies between 0 and 1, and it is 1
    exactly when [Phi(|z_score|) = 1/2], as for [z_score = 0]: a zero
    denominator is not the only case of [p_value = 1]. *)
Theorem p_value_range
        (file_path lat_col lon_col value_col : string)
        (distance_threshold : Arg (option float))
        (p : Prepared) (i : nat) (wij_i : list Z) :
  state file_path lat_col lon_col value_col (bound distance_threshold) = Some p ->
  well_shaped p = true ->
  wij p !! i = Some wij_i ->
  exists results r,
    analysis file_path lat_col lon_col value_col distance_threshold
    = success p results /\
    results !! i = Some r /\
    ((denom (Z.of_nat (len_df p))
            (s (global_stats libm_pow (Z.of_nat (len_df p)) (values p)))
            wij_i (np_sum_int wij_i) =? 0)%float = true ->
     p_value r = 1%float) /\
    ((denom (Z.of_nat (len_df p))
            (s (global_stats libm_pow (Z.of_nat (len_df p)) (values p)))
            wij_i (np_sum_int wij_i) =? 0)%float = false ->
     p_value r = (2 * (1 - norm_cdf (abs (z_score r))))%float /\
     ((0.5 <=? norm_cdf (abs (z_score r)))%float = true ->
      (norm_cdf (abs (z_score r)) <=? 1)%float = true ->
      (0 <=? p_value r)%float = true /\ (p_value r <=? 1)%float = true /\
      (p_value r = 1%float <-> norm_cdf (abs (z_score r)) = 0.5%float))).
Proof.
  intros Hp Hs Hw.
  destruct (analysis_point _ _ _ _ libm_pow norm_cdf _ _ _ _ _ _ _ _ Hp Hs Hw)
    as (results & r & Hrun & _ & Hr & Hst & _ & _).
  exists results, r. split; [exact Hrun|]. split; [exact Hr|]. split.
  - intros Hd. rewrite (gi_star_stat_degenerate _ _ _ _ _ _ Hd) in Hst.
    by inversion Hst.
  - intros Hd. rewrite (gi_star_stat_regular _ _ _ _ _ _ Hd) in Hst.
    cbv zeta in Hst. set (G := (_ / _)%float) in Hst.
    injection Hst as Hg Hz Hpv. rewrite Hpv, Hz.
    split; [reflexivity|]. apply two_sided_bounds.
Qed.

End PValue.

Lemma p_value_range_witness :
  exists results r,
    Sample.core Sample.three_points Omitted = success Examples.three_state results /\
    results !! 2%nat = Some r /\
    ((denom 3 (s (global_stats Sample.glibc_pow 3 (values Examples.three_state)))
            [1; 0; 0]%Z (np_sum_int [1; 0; 0]%Z) =? 0)%float = true ->
     p_value r = 1%float) /\
    ((denom 3 (s (global_stats Sample.glibc_pow 3 (values Examples.three_state)))
            [1; 0; 0]%Z (np_sum_int [1; 0; 0]%Z) =? 0)%float = false ->
     p_value r = (2 * (1 - Sample.cdf (abs (z_score r))))%float /\
     ((0.5 <=? Sample.cdf (abs (z_score r)))%float = true ->
      (Sample.cdf (abs (z_score r)) <=? 1)%float = true ->
      (0 <=? p_value r)%float = true /\ (p_value r <=? 1)%float = true /\
      (p_value r = 1%float <-> Sample.cdf (abs (z_score r)) = 0.5%float))).
Proof.
  apply (p_value_range
           Sample.exists_ (fun _ => Return Sample.three_points) Sample.no_excel
           Sample.haversine Sample.glibc_pow Sample.cdf "points.csv" "lat" "lon" "value" Omitted
           Examples.three_state 2 [1; 0; 0]);
    vm_compute; reflexivity.
Defined.

(** C4 as stated fails: point 0 of the three sample points has point 2 as
    its only neighbour, whose value is the mean, so its numerator is 0
    while its denominator is not, and [p_value] is 1 all the same; and
    the single sample point reports a NaN [p_value], which is not within
    [0, 1]. *)
Lemma p_value_one_counterexample :
  (Sample.state Sample.three_points (bound Omitted) = Some Examples.three_state /\
   wij Examples.three_state !! 0%nat = Some [0; 0; 1] /\
   (denom 3 (s (global_stats Sample.glibc_pow 3 (values Examples.three_state)))
          [0; 0; 1]%Z (np_sum_int [0; 0; 1]%Z) =? 0)%float = false /\
   Sample.cdf 0 = 0.5%float /\
   exists r,
     Sample.results_of (Sample.core Sample.three_points Omitted) !! 0%nat = Some r /\
     p_value r = 1%float) /\
  (exists r,
     Sample.results_of (Sample.core Sample.one_point Omitted) !! 0%nat = Some r /\
     (0 <=? p_value r)%float = false /\ (p_value r <=? 1)%float = false).
Proof.
  split.
  - split; [vm_compute; reflexivity|]. split; [vm_compute; reflexivity|].
    split; [vm_compute; reflexivity|]. split; [vm_compute; reflexivity|].
    eexists. split; vm_compute; reflexivity.
  - eexists. split; [vm_compute; reflexivity|].
    split; vm_compute; reflexivity.
Qed.

(** ** Shapes follow from the inputs

    The shape assumed of the arrays of a run holds whenever the table is
    rectangular and [haversine_distances] returns one row and one column
    per point, as documented. *)

Lemma assoc_Some_In {A : Type} (k : string) (l : list (string * A)) (v : A) :
  assoc k l = Some v -> In (k, v) l.
Proof.
  induction l as [|[k' v'] l IH]; simpl; [discriminate|].
  destruct (String.eqb_spec k k') as [->|Hne].
  - intros [= ->]. by left.
  - intros H. right. by apply IH.
Qed.

Lemma column_values_length (df : DataFrame) (col : string) (cells : list Cell) :
  frame_ok df = true -> column_values df col = Return cells ->
  length cells = df_len df.
Proof.
  unfold frame_ok, column_values. rewrite forallb_forall. intros Hok H.
  destruct (assoc col (df_columns df)) as [c|] eqn:Hc; [|discriminate].
  inversion H; subst c. apply assoc_Some_In in Hc.
  apply Nat.eqb_eq. exact (Hok _ Hc).
Qed.

Lemma square_lengths (n : nat) (m : list (list float)) :
  square n m = true ->
  length m = n /\ forall i row, m !! i = Some row -> length row = n.
Proof.
  unfold square. rewrite andb_true_iff, Nat.eqb_eq, forallb_forall.
  intros [Hl Hr]. split; [done|]. intros i row Hi.
  apply Nat.eqb_eq, Hr, list_elem_of_In. by eapply list_elem_of_lookup_2.
Qed.

Lemma threshold_row_length (row : list float) (t : float) :
  length (threshold_row row t) = length row.
Proof. unfold threshold_row. apply length_map. Qed.

Lemma prepare_well_shaped
      (haversine_distances :
         list (float * float) -> list (float * float) -> Exc (list (list float)))
      (df : DataFrame) (lat_col lon_col value_col : string)
      (distance_threshold : option float) (p : Prepared) :
  frame_ok df = true ->
  (forall X h, haversine_distances X X = Return h -> square (length X) h = true) ->
  prepare haversine_distances df lat_col lon_col value_col distance_threshold
  = Return p ->
  well_shaped p = true.
Proof.
  intros Hok Hsq H. unfold prepare in H.
  apply bind_Return in H as (lat & Hlat & H).
  apply bind_Return in H as (lon & Hlon & H).
  apply bind_Return in H as (cells & Hcells & H).
  apply bind_Return in H as (vals & Hvals & H).
  apply bind_Return in H as (rad & Hrad & H).
  apply bind_Return in H as (d & Hd & H).
  apply bind_Return in H as ([w u] & Hw & H).
  inversion H; subst p; clear H.
  pose proof (column_values_length _ _ _ Hok Hlat) as Llat.
  pose proof (column_values_length _ _ _ Hok Hlon) as Llon.
  pose proof (column_values_length _ _ _ Hok Hcells) as Lcells.
  pose proof (astype_float_length _ _ Hvals) as Lvals.
  assert (Lco : length (coords_values lat lon) = df_len df).
  { unfold coords_values. rewrite length_zip. lia. }
  assert (Lrad : length rad = df_len df).
  { unfold np_radians in Hrad.
    destruct (numeric_coords (coords_values lat lon)); [|discriminate].
    inversion Hrad. by rewrite length_map. }
  assert (Hdsq : length d = df_len df /\
                 forall i row, d !! i = Some row -> length row = df_len df).
  { unfold distances in Hd. apply bind_Return in Hd as (h & Hh & Hd).
    inversion Hd; subst d. apply Hsq, square_lengths in Hh as [Hl Hr].
    rewrite Lrad in Hl, Hr. split; [by rewrite length_map|].
    intros i row Hi. rewrite list_lookup_fmap in Hi.
    destruct (h !! i) as [row0|] eqn:Hrow0; [|discriminate].
    inversion Hi. rewrite length_map. by eapply Hr. }
  destruct Hdsq as [Ld Lrows].
  assert (Hwsq : length w = df_len df /\
                 forall i row, w !! i = Some row -> length row = df_len df).
  { apply weights_Return in Hw
      as [(_ & _ & cs & arr & rows & _ & _ & Hv & ->) | (_ & _ & ->)].
    - apply variable_weights_lookup in Hv as [Hl Hv].
      split; [by rewrite fill_diagonal_length|].
      intros i row Hi. rewrite fill_diagonal_lookup in Hi.
      destruct (rows !! i) as [row0|] eqn:Hrow0; [|discriminate].
      inversion Hi. rewrite length_insert.
      assert (Hlt : (i < df_len df)%nat)
        by (rewrite <- Hl; by eapply lookup_lt_Some).
      destruct (Hv i Hlt) as (drow & r & Hdrow & _ & Hri).
      rewrite Hrow0 in Hri. inversion Hri.
      rewrite threshold_row_length. by eapply Lrows.
    - split; [unfold fixed_weights; by rewrite fill_diagonal_length, length_map|].
      intros i row Hi. rewrite fill_diagonal_lookup in Hi.
      unfold fixed_weights in Hi. rewrite list_lookup_fmap in Hi.
      destruct (d !! i) as [drow|] eqn:Hdrow; [|discriminate].
      inversion Hi. rewrite length_insert, threshold_row_length.
      by eapply Lrows. }
  destruct Hwsq as [Lw Lwrows].
  unfold well_shaped. simpl.
  rewrite !andb_true_iff, !Nat.eqb_eq, forallb_forall.
  repeat split; try done; try congruence.
  intros row Hin. apply Nat.eqb_eq.
  apply list_elem_of_In, list_elem_of_lookup in Hin as [i Hi]. by eapply Lwrows.
Qed.

(** ** The variant of src/mcp-client/server.py

    There an omitted [distance_threshold] is [None], so the per-point
    policy is selected whenever the caller supplies no scalar and the
    table has a "distance" column; the answer echoes the text "variable"
    or the scalar applied. *)

Lemma client_policy_selection (df : DataFrame) (n : nat) (d : list (list float))
      (distance_threshold : Arg (option float))
      (w : list (list Z)) (after : option float) :
  Client.weights df n d (with_default None distance_threshold) = Return (w, after) ->
  ((distance_threshold = Omitted \/ distance_threshold = Passed None) ->
   has_column df "distance" = true ->
   Client.echo after = VStr "variable" /\
   exists cells distance_arr rows,
     column_values df "distance" = Return cells /\
     astype_float cells = Return distance_arr /\
     variable_weights n d distance_arr = Return rows /\
     w = fill_diagonal rows 0) /\
  ((exists t, distance_threshold = Passed (Some t)) \/
   has_column df "distance" = false ->
   Client.echo after = VFloat (applied_threshold distance_threshold) /\
   w = fill_diagonal (fixed_weights d (applied_threshold distance_threshold)) 0).
Proof.
  unfold Client.weights. intros H.
  apply bind_Return in H as ([w0 a0] & Hb & H). inversion H; subst; clear H.
  simpl. split.
  - intros Hnone Hcol.
    assert (Hdt : with_default None distance_threshold = None)
      by (destruct Hnone; by subst).
    rewrite Hdt in Hb. simpl in Hb. rewrite Hcol in Hb.
    apply bind_Return in Hb as (cells & Hc & Hb).
    apply bind_Return in Hb as (arr & Ha & Hb).
    apply bind_Return in Hb as (rows & Hr & Hb).
    inversion Hb; subst. split; [reflexivity|].
    exists cells, arr, w0. done.
  - intros Hcase.
    assert (Hpol : variable_policy (with_default None distance_threshold) df = false).
    { destruct Hcase as [[t ->] | Hcol]; [reflexivity|].
      destruct distance_threshold as [|[t|]]; simpl; done. }
    rewrite Hpol in Hb. inversion Hb; subst.
    assert (Heq : fixed_threshold (with_default None distance_threshold)
                  = applied_threshold distance_threshold)
      by (by destruct distance_threshold as [|[t|]]).
    rewrite Heq. done.
Qed.

(** ** Further sample runs *)

(** In the variant of src/mcp-client/server.py a caller that leaves the
    threshold out of the call gets the per-point policy. *)
Example client_omitted_threshold :
  get "distance_threshold" (Sample.client Examples.radii_table Omitted)
  = Some (VStr "variable") /\
  get "distance_threshold" (Sample.client Sample.three_points Omitted)
  = Some (VFloat 1000).
Proof. split; vm_compute; reflexivity. Qed.

(** Identical values need not give a pooled standard deviation of 0: for
    three values 0.1 the rounded variance is negative, its square root
    is NaN, and so are the denominators and the statistics. *)
Example identical_values_nan :
  s (global_stats Sample.glibc_pow 3 [0.1; 0.1; 0.1]%float) = nan /\
  Sample.results_of
    (Sample.core (Sample.table [0; 0; 0]%float [0; 1; 0.001]%float
                               [0.1; 0.1; 0.1]%float) Omitted)
  = [mkResult 0 0 0 0.1 nan nan nan not_significant 1;
     mkResult 1 0 1 0.1 nan nan nan not_significant 0;
     mkResult 2 0 0.001 0.1 nan nan nan not_significant 1].
Proof. split; vm_compute; reflexivity. Qed.

(** * Further properties *)

Lemma assoc_dict_set_eq {A : Type} (k : string) (v : A) d :
  assoc k (dict_set k v d) = Some v.
Proof.
  induction d as [|[k' v'] d IH]; simpl.
  - by rewrite String.eqb_refl.
  - destruct (String.eqb k k') eqn:E; simpl.
    + by rewrite String.eqb_refl.
    + by rewrite E.
Qed.

Lemma assoc_dict_set_ne {A : Type} (k k' : string) (v : A) d :
  k' <> k -> assoc k' (dict_set k v d) = assoc k' d.
Proof.
  intros Hne. induction d as [|[k0 v0] d IH]; simpl.
  - destruct (String.eqb k' k) eqn:E; [|done].
    apply String.eqb_eq in E. done.
  - destruct (String.eqb k k0) eqn:E; simpl.
    + apply String.eqb_eq in E. subst k0.
      destruct (String.eqb k' k) eqn:E'; [|done].
      apply String.eqb_eq in E'. done.
    + by rewrite IH.
Qed.

Lemma split_on_nonempty sep s : split_on sep s <> [].
Proof.
  destruct s as [|c s]; simpl; [done|].
  destruct (Ascii.eqb c sep); [done|].
  by destruct (split_on sep s).
Qed.

Lemma split_on_absent sep s : occurs sep s = false -> split_on sep s = [s].
Proof.
  induction s as [|c s IH]; simpl; [done|].
  intros H. apply orb_false_iff in H as [Hc Hs].
  rewrite Hc, (IH Hs). done.
Qed.

Lemma split_on_app sep a b :
  occurs sep a = false ->
  split_on sep (a +:+ String sep b) = a :: split_on sep b.
Proof.
  induction a as [|c a IH].
  - intros _. simpl. by rewrite Ascii.eqb_refl.
  - intros H. simpl in H. apply orb_false_iff in H as [Hc Ha].
    change (String c a +:+ String sep b) with (String c (a +:+ String sep b)).
    cbn [split_on]. rewrite Hc, (IH Ha). done.
Qed.

Lemma occurs_app c a b : occurs c (a +:+ b) = occurs c a || occurs c b.
Proof.
  induction a as [|x a IH]; [done|].
  change (String x a +:+ b) with (String x (a +:+ b)).
  cbn [occurs]. rewrite IH. by rewrite orb_assoc.
Qed.

Lemma string_length_app (a b : string) :
  String.length (a +:+ b) = (String.length a + String.length b)%nat.
Proof. induction a as [|x a IH]; [done|]. simpl. f_equal. exact IH. Qed.

Lemma string_app_inv_tail (a b t : string) : a +:+ t = b +:+ t -> a = b.
Proof.
  intros H.
  assert (Hl : String.length a = String.length b).
  { apply (f_equal String.length) in H.
    rewrite !string_length_app in H. lia. }
  revert b H Hl. induction a as [|x a IH]; intros [|y b] H Hl; try done.
  change (String x (a +:+ t) = String y (b +:+ t)) in H.
  injection H as -> H. f_equal. apply IH; [done|]. simpl in Hl. lia.
Qed.

Lemma api_key_path api_name :
  occurs "." api_name = false ->
  split_on "." ("api." +:+ api_name +:+ "_key") = ["api"; api_name +:+ "_key"].
Proof.
  intros H.
  change ("api." +:+ api_name +:+ "_key")
    with ("api" +:+ String "." (api_name +:+ "_key")).
  rewrite split_on_app by reflexivity.
  rewrite split_on_absent; [done|].
  rewrite occurs_app, H. reflexivity.
Qed.

Lemma api_key_path_nonempty api_name :
  "api." +:+ api_name +:+ "_key" <> EmptyString.
Proof. done. Qed.

(** What [get_api_key] computes, in terms of the dictionaries. *)
Lemma get_api_key_unfold config api_name :
  Config.get_api_key config api_name =
  match config with
  | PDict d =>
      match assoc "api" d with
      | Some (PDict a) => default PNone (assoc (api_name +:+ "_key") a)
      | _ => PNone
      end
  | _ => PNone
  end.
Proof.
  unfold Config.get_api_key.
  destruct config as [| | | | s0 |l|d]; try reflexivity.
  - simpl. by destruct (contains "api" s0).
  - simpl. by destruct (existsb (is_str "api") l).
  - cbn [py_in bind py_getitem].
    destruct (assoc "api" d) as [api|] eqn:E; [|reflexivity].
    rewrite bool_decide_eq_true_2 by eauto. cbn [negb bind].
    destruct api as [| | | | s0 |l|a]; try reflexivity.
    + simpl. by destruct (contains _ s0).
    + simpl. by destruct (existsb _ l).
    + cbn [py_in bind py_getitem].
      destruct (assoc (api_name +:+ "_key") a) as [v|] eqn:E'.
      * rewrite bool_decide_eq_true_2 by eauto. reflexivity.
      * rewrite bool_decide_eq_false_2; [reflexivity|].
        intros [? ?]; done.
Qed.

(** [set_config_value] on the path of an API key. *)
Lemma set_api_key_path config api_name v :
  occurs "." api_name = false ->
  Config.set_config_value config ("api." +:+ api_name +:+ "_key") v =
  Config.set_path config ["api"] (api_name +:+ "_key") v.
Proof.
  intros H. unfold Config.set_config_value.
  change ("api." +:+ api_name +:+ "_key")
    with (String "a" ("pi." +:+ api_name +:+ "_key")) at 1.
  cbv iota.
  change (String "a" ("pi." +:+ api_name +:+ "_key"))
    with ("api." +:+ api_name +:+ "_key").
  rewrite (api_key_path _ H). reflexivity.
Qed.

Lemma set_api_key_absent d key v :
  assoc "api" d = None ->
  Config.set_path (PDict d) ["api"] key v =
  Return (PDict (dict_set "api" (PDict [(key, v)]) (dict_set "api" (PDict []) d))).
Proof.
  intros E. cbn [Config.set_path py_in bind].
  rewrite bool_decide_eq_false_2 by (rewrite E; intros [? ?]; done).
  cbn [negb bind py_getitem py_setitem].
  rewrite assoc_dict_set_eq. reflexivity.
Qed.

Lemma set_api_key_present d a key v :
  assoc "api" d = Some (PDict a) ->
  Config.set_path (PDict d) ["api"] key v =
  Return (PDict (dict_set "api" (PDict (dict_set key v a)) d)).
Proof.
  intros E. cbn [Config.set_path py_in bind].
  rewrite bool_decide_eq_true_2 by eauto.
  cbn [negb bind py_getitem]. rewrite E. reflexivity.
Qed.

(** Only a dictionary can be assigned into. *)
Lemma set_path_dict current keys last_key v c :
  Config.set_path current keys last_key v = Return c ->
  exists d, current = PDict d.
Proof.
  destruct current as [| | | | s0 |l|d]; [| | | | | |by eauto];
    destruct keys as [|k ks]; try discriminate.
  - cbn [Config.set_path py_in bind]. by destruct (contains k s0).
  - cbn [Config.set_path py_in bind]. by destruct (existsb (is_str k) l).
Qed.

Lemma set_api_key_inv config key v config' :
  Config.set_path config ["api"] key v = Return config' ->
  exists d, config = PDict d /\
            (assoc "api" d = None \/ exists a, assoc "api" d = Some (PDict a)).
Proof.
  intros H. destruct (set_path_dict _ _ _ _ _ H) as [d ->].
  exists d. split; [done|].
  destruct (assoc "api" d) as [api|] eqn:E; [|by left].
  right. revert H. cbn [Config.set_path py_in bind].
  rewrite bool_decide_eq_true_2 by eauto.
  cbn [negb bind py_getitem]. rewrite E. cbn [bind].
  destruct api; try discriminate. eauto.
Qed.

Lemma path_clear_empty keys : Config.path_clear (PDict []) keys = true.
Proof. by destruct keys. Qed.

Lemma set_path_clear current keys last_key v :
  (exists c, Config.set_path current keys last_key v = Return c) <->
  Config.path_clear current keys = true.
Proof.
  revert current. induction keys as [|k ks IH]; intros current.
  - split.
    + intros [c H]. destruct (set_path_dict _ _ _ _ _ H) as [d ->]. done.
    + destruct current; try discriminate. intros _. simpl. eauto.
  - split.
    + intros [c H]. destruct (set_path_dict _ _ _ _ _ H) as [d ->].
      cbn [Config.path_clear].
      destruct (assoc k d) as [child|] eqn:E; [|done].
      apply IH. revert H. cbn [Config.set_path py_in bind].
      rewrite bool_decide_eq_true_2 by eauto.
      cbn [negb bind py_getitem]. rewrite E. cbn [bind].
      destruct (Config.set_path child ks last_key v); [eauto|discriminate].
    + destruct current as [| | | | | |d]; try discriminate.
      cbn [Config.path_clear Config.set_path py_in bind].
      destruct (assoc k d) as [child|] eqn:E.
      * intros Hc. apply IH in Hc as [c Hc].
        rewrite bool_decide_eq_true_2 by eauto.
        cbn [negb bind py_getitem]. rewrite E. cbn [bind]. rewrite Hc.
        cbn [bind py_setitem]. eauto.
      * intros _.
        rewrite bool_decide_eq_false_2 by (intros [? ?]; done).
        cbn [negb bind py_getitem py_setitem].
        rewrite assoc_dict_set_eq. cbn [bind].
        destruct (proj2 (IH (PDict [])) (path_clear_empty ks)) as [c Hc].
        rewrite Hc. cbn [bind py_setitem]. eauto.
Qed.

(** X16. [get_api_key] returns a value other than [None] exactly
    when the configuration is a dictionary whose entry "api" is a
    dictionary that holds that value under "<api_name>_key"; in every other
    case (no "api" entry, an "api" entry that is a string or a list, a
    configuration that is not a dictionary) it returns [None]. *)
Theorem get_api_key_found config api_name v :
  v <> PNone ->
  Config.get_api_key config api_name = v <->
  exists d a, config = PDict d /\ assoc "api" d = Some (PDict a) /\
              assoc (api_name +:+ "_key") a = Some v.
Proof.
  intros Hv. rewrite get_api_key_unfold. split.
  - intros H. destruct config as [| | | | | |d]; try congruence.
    destruct (assoc "api" d) as [[| | | | | |a]|] eqn:E; try congruence.
    exists d, a. repeat split; try done.
    destruct (assoc _ a); simpl in H; congruence.
  - intros (d & a & -> & -> & ->). reflexivity.
Qed.

Lemma get_api_key_found_witness :
  PStr "default" <> PNone /\
  (Config.get_api_key Config._get_default_config "model" = PStr "default" <->
   exists d a, Config._get_default_config = PDict d /\
               assoc "api" d = Some (PDict a) /\
               assoc ("model" +:+ "_key") a = Some (PStr "default")).
Proof.
  split; [discriminate|].
  apply (get_api_key_found Config._get_default_config "model" (PStr "default")).
  discriminate.
Defined.

(** X17. a key written with [set_config_value] under the path
    "api.<name>_key" is the key [get_api_key] reads back for <name>,
    provided <name> has no dot and the configuration is a dictionary
    whose "api" entry is absent or a dictionary. *)
Theorem set_then_get_api_key d api_name v :
  occurs "." api_name = false ->
  assoc "api" d = None \/ (exists a, assoc "api" d = Some (PDict a)) ->
  exists config',
    Config.set_config_value (PDict d) ("api." +:+ api_name +:+ "_key") v
    = Return config' /\
    Config.get_api_key config' api_name = v.
Proof.
  intros Hdot Hd. rewrite (set_api_key_path _ _ _ Hdot).
  destruct Hd as [E|[a E]].
  - rewrite (set_api_key_absent _ _ _ E). eexists. split; [done|].
    rewrite get_api_key_unfold, assoc_dict_set_eq.
    cbn [assoc]. by rewrite String.eqb_refl.
  - rewrite (set_api_key_present _ _ _ _ E). eexists. split; [done|].
    rewrite get_api_key_unfold, !assoc_dict_set_eq. done.
Qed.

Lemma set_then_get_api_key_witness :
  exists config',
    Config.set_config_value (PDict [("debug", PDict [])])
                            ("api." +:+ "gaode" +:+ "_key") (PStr "k1")
    = Return config' /\
    Config.get_api_key config' "gaode" = PStr "k1".
Proof.
  apply (set_then_get_api_key [("debug", PDict [])] "gaode" (PStr "k1")).
  - reflexivity.
  - left. reflexivity.
Defined.

(** X18. writing the key of one API leaves the key [get_api_key]
    reads for every other API as it was. *)
Theorem set_keeps_other_api_keys config config' api_name other v :
  occurs "." api_name = false ->
  other <> api_name ->
  Config.set_config_value config ("api." +:+ api_name +:+ "_key") v
  = Return config' ->
  Config.get_api_key config' other = Config.get_api_key config other.
Proof.
  intros Hdot Hne. rewrite (set_api_key_path _ _ _ Hdot). intros H.
  assert (Hk : other +:+ "_key" <> api_name +:+ "_key").
  { intros E. by apply string_app_inv_tail in E. }
  destruct (set_api_key_inv _ _ _ _ H) as (d & -> & [E|[a E]]).
  - rewrite (set_api_key_absent _ _ _ E) in H. injection H as <-.
    rewrite !get_api_key_unfold, assoc_dict_set_eq, E.
    cbn [assoc]. destruct (String.eqb _ _) eqn:E'; [|done].
    by apply String.eqb_eq in E'.
  - rewrite (set_api_key_present _ _ _ _ E) in H. injection H as <-.
    rewrite !get_api_key_unfold, assoc_dict_set_eq, E.
    by rewrite assoc_dict_set_ne.
Qed.

Lemma set_keeps_other_api_keys_witness :
  Config.get_api_key
    (PDict [("api", PDict [("gaode_key", PStr "k1"); ("base_url", PStr "");
                           ("model", PStr "default")]);
            ("spatial", PDict [("default_crs", PStr "EPSG:4326");
                               ("distance_unit", PStr "km")]);
            ("debug", PDict [("enabled", PBool false); ("log_level", PStr "info")])])
    "model"
  = Config.get_api_key Config._get_default_config "model".
Proof.
  apply (set_keeps_other_api_keys Config._get_default_config _ "gaode" "model"
                                  (PStr "k1")).
  - reflexivity.
  - discriminate.
  - reflexivity.
Defined.

(** X19. [set_config_value] with a non-empty path returns (rather
    than raising a [TypeError]) exactly when the configuration and every
    value the path meets before its last key are dictionaries; keys that
    are missing on the way are created. *)
Theorem set_config_value_returns config key_path v :
  key_path <> EmptyString ->
  (exists config', Config.set_config_value config key_path v = Return config') <->
  Config.path_clear config (removelast (split_on "." key_path)) = true.
Proof.
  intros Hne. unfold Config.set_config_value.
  destruct key_path as [|c s0]; [done|].
  apply set_path_clear.
Qed.

Lemma set_config_value_returns_witness :
  "api.gaode_key.token" <> EmptyString /\
  ((exists config',
      Config.set_config_value Config._get_default_config "api.gaode_key.token"
                              (PStr "t") = Return config') <->
   Config.path_clear Config._get_default_config
                     (removelast (split_on "." "api.gaode_key.token")) = true).
Proof.
  split; [discriminate|].
  apply (set_config_value_returns Config._get_default_config
                                  "api.gaode_key.token" (PStr "t")).
  discriminate.
Defined.

(** X20. when the configuration file is missing, cannot be read or
    parsed, or is empty, [load_config] returns the default configuration,
    from which [get_api_key] reads the empty string as the Gaode key. *)
Theorem load_config_fallback (os_path_exists : string -> bool)
        (yaml_safe_load : string -> Exc PyVal) (config_path : Arg string) :
  os_path_exists (with_default "config.yaml" config_path) = false \/
  (exists e, yaml_safe_load (with_default "config.yaml" config_path) = Raise e) \/
  yaml_safe_load (with_default "config.yaml" config_path) = Return PNone ->
  Config.load_config os_path_exists yaml_safe_load config_path
  = Config._get_default_config /\
  Config.get_api_key
    (Config.load_config os_path_exists yaml_safe_load config_path) "gaode"
  = PStr "".
Proof.
  intros H.
  assert (E : Config.load_config os_path_exists yaml_safe_load config_path
              = Config._get_default_config).
  { unfold Config.load_config.
    destruct (os_path_exists _); [|reflexivity]. cbn [negb].
    destruct H as [H|[[e H]|H]]; [done| |]; by rewrite H. }
  rewrite E. split; reflexivity.
Qed.

Lemma load_config_fallback_witness :
  Config.load_config (fun _ => true) (fun _ => Return PNone) Omitted
  = Config._get_default_config /\
  Config.get_api_key
    (Config.load_config (fun _ => true) (fun _ => Return PNone) Omitted) "gaode"
  = PStr "".
Proof.
  apply (load_config_fallback (fun _ => true) (fun _ => Return PNone) Omitted).
  right. right. reflexivity.
Defined.

Lemma split_on_length sep s :
  length (split_on sep s) = S (count_char sep s).
Proof.
  induction s as [|c s IH]; [done|].
  cbn [split_on count_char]. destruct (Ascii.eqb c sep).
  - simpl. by rewrite IH.
  - destruct (split_on sep s) eqn:E; simpl in *; lia.
Qed.

Lemma split_on_two sep a b :
  occurs sep a = false -> occurs sep b = false ->
  split_on sep (a +:+ String sep b) = [a; b].
Proof.
  intros Ha Hb. rewrite split_on_app by done. by rewrite split_on_absent.
Qed.

Section GeodesicFacts.

Variable json_loads : string -> option PyVal.
Variable geodesic : PyVal -> PyVal -> Exc GeoDistance.Distance.
Variable py_float : string -> option float.
Variable round2 : float -> float.
Variable float_str : float -> string.

Local Abbreviation distance_of :=
  (GeoDistance.calculate_geodesic_distance json_loads geodesic py_float round2
                                           float_str).

Lemma json_format_geodesic_Raise s d point1 point2 e :
  GeoDistance.json_shaped s = true ->
  json_loads s = Some (PDict d) ->
  assoc "point1" d = Some point1 ->
  assoc "point2" d = Some point2 ->
  GeoDistance.is_pair point1 = true ->
  GeoDistance.is_pair point2 = true ->
  geodesic point1 point2 = Raise e ->
  distance_of s = Raise e.
Proof.
  intros Hs Hl H1 H2 Hp1 Hp2 Hg.
  unfold GeoDistance.calculate_geodesic_distance. rewrite Hs.
  unfold GeoDistance.json_format. rewrite Hl.
  cbn [py_in bind py_getitem]. rewrite H1, H2.
  rewrite !bool_decide_eq_true_2 by eauto.
  cbn [negb bind]. rewrite Hp1, Hp2. cbn [negb orb]. rewrite Hg. reflexivity.
Qed.

Lemma simple_format_Return s :
  exists doc,
    GeoDistance.simple_format geodesic py_float round2 float_str s = Return doc.
Proof.
  unfold GeoDistance.simple_format.
  destruct (GeoDistance.simple_body _ _ _ _ s); eauto.
Qed.

End GeodesicFacts.

(** X12. on an input in the simple format (one that does not both
    start with an opening and end with a closing brace)
    [calculate_geodesic_distance] always returns a document: every
    exception, also one of [geodesic], is turned into a failure. *)
Theorem simple_format_never_raises
        (json_loads : string -> option PyVal)
        (geodesic : PyVal -> PyVal -> Exc GeoDistance.Distance)
        (py_float : string -> option float) (round2 : float -> float)
        (float_str : float -> string) (coordinates_json : string) :
  GeoDistance.json_shaped coordinates_json = false ->
  exists doc,
    GeoDistance.calculate_geodesic_distance
      json_loads geodesic py_float round2 float_str coordinates_json
    = Return doc /\
    (py_getitem doc "status" = Return (PStr "success") \/
     py_getitem doc "status" = Return (PStr "failure")).
Proof.
  intros H. unfold GeoDistance.calculate_geodesic_distance. rewrite H.
  unfold GeoDistance.simple_format, GeoDistance.simple_body.
  destruct (split_on "," coordinates_json) as [|p1 [|p2 [|? ?]]];
    try (eexists; split; [reflexivity|by right]).
  destruct (GeoDistance.parse_point py_float p1) as [a|];
    [|eexists; split; [reflexivity|by right]].
  destruct (GeoDistance.parse_point py_float p2) as [b|];
    [|eexists; split; [reflexivity|by right]].
  destruct (geodesic _ _); cbn [bind];
    eexists; (split; [reflexivity|]); [by left|by right].
Qed.

Lemma simple_format_never_raises_witness :
  exists doc,
    SampleGeo.distance "91_0,0_0" = Return doc /\
    (py_getitem doc "status" = Return (PStr "success") \/
     py_getitem doc "status" = Return (PStr "failure")).
Proof.
  apply (simple_format_never_raises
           SampleGeo.json_loads SampleGeo.geodesic SampleGeo.py_float
           (fun x => x) SampleGeo.float_str "91_0,0_0").
  reflexivity.
Defined.

(** X11. on an input in the JSON format that parses to an object with
    two-element lists under "point1" and "point2", an exception of
    [geodesic] (for instance the [ValueError] for a latitude outside
    [-90, 90]) is not caught: the function raises it. *)
Theorem json_format_error_escapes
        (json_loads : string -> option PyVal)
        (geodesic : PyVal -> PyVal -> Exc GeoDistance.Distance)
        (py_float : string -> option float) (round2 : float -> float)
        (float_str : float -> string) (coordinates_json : string)
        (d : list (string * PyVal)) (point1 point2 : PyVal) (e : string) :
  GeoDistance.json_shaped coordinates_json = true ->
  json_loads coordinates_json = Some (PDict d) ->
  assoc "point1" d = Some point1 ->
  assoc "point2" d = Some point2 ->
  GeoDistance.is_pair point1 = true ->
  GeoDistance.is_pair point2 = true ->
  geodesic point1 point2 = Raise e ->
  GeoDistance.calculate_geodesic_distance
    json_loads geodesic py_float round2 float_str coordinates_json
  = Raise e.
Proof.
  intros Hs Hl H1 H2 Hp1 Hp2 Hg.
  unfold GeoDistance.calculate_geodesic_distance. rewrite Hs.
  unfold GeoDistance.json_format. rewrite Hl.
  cbn [py_in bind py_getitem]. rewrite H1, H2.
  rewrite !bool_decide_eq_true_2 by eauto.
  cbn [negb bind]. rewrite Hp1, Hp2. cbn [negb orb]. rewrite Hg. reflexivity.
Qed.

Lemma json_format_error_escapes_witness :
  SampleGeo.distance SampleGeo.north_of_pole
  = Raise "Latitude must be in the [-90; 90] range.".
Proof.
  apply (json_format_error_escapes
           SampleGeo.json_loads SampleGeo.geodesic SampleGeo.py_float
           (fun x => x) SampleGeo.float_str SampleGeo.north_of_pole
           [("point1", PList [PInt 91; PInt 0]); ("point2", PList [PInt 0; PInt 0])]
           (PList [PInt 91; PInt 0]) (PList [PInt 0; PInt 0])
           "Latitude must be in the [-90; 90] range.");
    reflexivity.
Defined.

(** X13. an input in the simple format that does not hold exactly one
    comma is answered with the failure "坐标格式错误，应为'纬度_经度,纬度_经度'",
    which echoes the whole input. *)
Theorem simple_format_one_comma
        (json_loads : string -> option PyVal)
        (geodesic : PyVal -> PyVal -> Exc GeoDistance.Distance)
        (py_float : string -> option float) (round2 : float -> float)
        (float_str : float -> string) (coordinates_json : string) :
  GeoDistance.json_shaped coordinates_json = false ->
  count_char "," coordinates_json <> 1%nat ->
  GeoDistance.calculate_geodesic_distance
    json_loads geodesic py_float round2 float_str coordinates_json
  = Return (GeoDistance.failure_input "坐标格式错误，应为'纬度_经度,纬度_经度'"
                                      coordinates_json).
Proof.
  intros Hs Hc. unfold GeoDistance.calculate_geodesic_distance. rewrite Hs.
  unfold GeoDistance.simple_format, GeoDistance.simple_body.
  pose proof (split_on_length "," coordinates_json) as Hl.
  destruct (split_on "," coordinates_json) as [|p1 [|p2 [|? ?]]]; try reflexivity.
  simpl in Hl. lia.
Qed.

Lemma simple_format_one_comma_witness :
  SampleGeo.distance "0_0,1_1,0_1"
  = Return (GeoDistance.failure_input "坐标格式错误，应为'纬度_经度,纬度_经度'"
                                      "0_0,1_1,0_1").
Proof.
  apply (simple_format_one_comma
           SampleGeo.json_loads SampleGeo.geodesic SampleGeo.py_float
           (fun x => x) SampleGeo.float_str "0_0,1_1,0_1").
  - reflexivity.
  - simpl. lia.
Defined.

(** X14. for an input "part1,part2" in the simple format, a first part
    that is not two numbers joined by one underscore is reported as such,
    with the first part echoed, whatever the second part is. *)
Theorem first_point_error_first
        (json_loads : string -> option PyVal)
        (geodesic : PyVal -> PyVal -> Exc GeoDistance.Distance)
        (py_float : string -> option float) (round2 : float -> float)
        (float_str : float -> string) (part1 part2 : string) :
  GeoDistance.json_shaped (part1 +:+ "," +:+ part2) = false ->
  occurs "," part1 = false ->
  occurs "," part2 = false ->
  GeoDistance.parse_point py_float part1 = None ->
  GeoDistance.calculate_geodesic_distance
    json_loads geodesic py_float round2 float_str (part1 +:+ "," +:+ part2)
  = Return (GeoDistance.failure_input "第一个坐标点格式错误，应为'纬度_经度'" part1).
Proof.
  intros Hs H1 H2 Hp. unfold GeoDistance.calculate_geodesic_distance. rewrite Hs.
  unfold GeoDistance.simple_format, GeoDistance.simple_body.
  change (part1 +:+ "," +:+ part2) with (part1 +:+ String "," part2).
  rewrite (split_on_two _ _ _ H1 H2), Hp. reflexivity.
Qed.

Lemma first_point_error_first_witness :
  SampleGeo.distance ("0_1_0" +:+ "," +:+ "south")
  = Return (GeoDistance.failure_input "第一个坐标点格式错误，应为'纬度_经度'" "0_1_0").
Proof.
  apply (first_point_error_first
           SampleGeo.json_loads SampleGeo.geodesic SampleGeo.py_float
           (fun x => x) SampleGeo.float_str "0_1_0" "south");
    reflexivity.
Defined.

(** A part without exactly one underscore is not a point. *)
Lemma parse_point_underscores (py_float : string -> option float) (part : string) :
  count_char "_" part <> 1%nat -> GeoDistance.parse_point py_float part = None.
Proof.
  intros H. unfold GeoDistance.parse_point.
  pose proof (split_on_length "_" part) as Hl.
  destruct (split_on "_" part) as [|a [|b [|? ?]]]; try reflexivity.
  simpl in Hl. lia.
Qed.

(** X10. called through the dispatcher with a request in the JSON
    format, [calculate_geodesic_distance] cannot make the call fail: the
    exception of [geodesic] that the function lets through is caught, and
    the answer is the dispatcher's failure document with the exception's
    message and the function's name. *)
Theorem dispatcher_catches_geodesic_error
        (json_loads : string -> option PyVal)
        (geodesic : PyVal -> PyVal -> Exc GeoDistance.Distance)
        (py_float : string -> option float) (round2 : float -> float)
        (float_str : float -> string)
        (read_table_file analyze_distance_distribution : PyVal -> PyVal -> Exc PyVal)
        (hotspot : PyVal -> PyVal -> PyVal -> PyVal -> PyVal -> Exc PyVal)
        (search_nearby_poi :
           PyVal -> PyVal -> PyVal -> PyVal -> PyVal -> PyVal -> PyVal -> Exc PyVal)
        (geocode_address : PyVal -> PyVal -> PyVal -> Exc PyVal)
        (calculate_route_distance : PyVal -> PyVal -> PyVal -> PyVal -> Exc PyVal)
        (gaode_api_key : Exc PyVal)
        (params : list (string * PyVal)) (coordinates_json : string)
        (d : list (string * PyVal)) (point1 point2 : PyVal) (e : string) :
  assoc "coordinates_json" params = Some (PStr coordinates_json) ->
  GeoDistance.json_shaped coordinates_json = true ->
  json_loads coordinates_json = Some (PDict d) ->
  assoc "point1" d = Some point1 ->
  assoc "point2" d = Some point2 ->
  GeoDistance.is_pair point1 = true ->
  GeoDistance.is_pair point2 = true ->
  geodesic point1 point2 = Raise e ->
  Sse.execute_mcp_function
    (geodesic_distance_on json_loads geodesic py_float round2 float_str)
    read_table_file analyze_distance_distribution hotspot search_nearby_poi
    geocode_address calculate_route_distance gaode_api_key
    "calculate_geodesic_distance" (PDict params)
  = Sse.failure_function e "calculate_geodesic_distance".
Proof.
  intros Hp Hs Hl H1 H2 Hp1 Hp2 Hg.
  unfold Sse.execute_mcp_function, Sse.try_body.
  cbn [String.eqb Ascii.eqb Bool.eqb andb py_get]. rewrite Hp.
  cbn [default from_option id bind]. unfold id. cbn [geodesic_distance_on].
  by rewrite (json_format_geodesic_Raise _ _ _ _ _ _ _ _ _ _ Hs Hl H1 H2 Hp1 Hp2 Hg).
Qed.

Lemma dispatcher_catches_geodesic_error_witness :
  Sse.execute_mcp_function
    (geodesic_distance_on SampleGeo.json_loads SampleGeo.geodesic
                          SampleGeo.py_float (fun x => x) SampleGeo.float_str)
    (fun _ _ => Raise "") (fun _ _ => Raise "")
    (fun _ _ _ _ _ => Raise "") (fun _ _ _ _ _ _ _ => Raise "")
    (fun _ _ _ => Raise "") (fun _ _ _ _ => Raise "") (Return PNone)
    "calculate_geodesic_distance"
    (PDict [("coordinates_json", PStr SampleGeo.north_of_pole)])
  = Sse.failure_function "Latitude must be in the [-90; 90] range."
                         "calculate_geodesic_distance".
Proof.
  apply (dispatcher_catches_geodesic_error
           SampleGeo.json_loads SampleGeo.geodesic SampleGeo.py_float
           (fun x => x) SampleGeo.float_str
           (fun _ _ => Raise "") (fun _ _ => Raise "")
           (fun _ _ _ _ _ => Raise "") (fun _ _ _ _ _ _ _ => Raise "")
           (fun _ _ _ => Raise "") (fun _ _ _ _ => Raise "") (Return PNone)
           [("coordinates_json", PStr SampleGeo.north_of_pole)]
           SampleGeo.north_of_pole
           [("point1", PList [PInt 91; PInt 0]); ("point2", PList [PInt 0; PInt 0])]
           (PList [PInt 91; PInt 0]) (PList [PInt 0; PInt 0])
           "Latitude must be in the [-90; 90] range.");
    reflexivity.
Defined.

(** X9. a hotspot request answered through the dispatcher is the
    answer of the core function called the same way: a request without a
    "distance_threshold" entry is a call that leaves the argument out
    (the fixed 1000.0 m policy, also when the table has a "distance"
    column), an entry [null] is a call with [None], and a float is a
    call with that float. *)
Theorem dispatcher_hotspot_threshold
        (os_path_exists : string -> bool)
        (pd_read_csv pd_read_excel : string -> Exc DataFrame)
        (haversine_distances :
           list (float * float) -> list (float * float) -> Exc (list (list float)))
        (libm_pow : float -> float -> float)
        (norm_cdf : float -> float)
        (hotspot_otherwise : PyVal -> PyVal -> PyVal -> PyVal -> PyVal -> Exc PyVal)
        (calculate_geodesic_distance : PyVal -> Exc PyVal)
        (read_table_file analyze_distance_distribution : PyVal -> PyVal -> Exc PyVal)
        (search_nearby_poi :
           PyVal -> PyVal -> PyVal -> PyVal -> PyVal -> PyVal -> PyVal -> Exc PyVal)
        (geocode_address : PyVal -> PyVal -> PyVal -> Exc PyVal)
        (calculate_route_distance : PyVal -> PyVal -> PyVal -> PyVal -> Exc PyVal)
        (gaode_api_key : Exc PyVal)
        (params : list (string * PyVal))
        (file_path lat_col lon_col value_col : string)
        (distance_threshold : Arg (option float)) :
  assoc "file_path" params = Some (PStr file_path) ->
  assoc "lat_col" params = Some (PStr lat_col) ->
  assoc "lon_col" params = Some (PStr lon_col) ->
  assoc "value_col" params = Some (PStr value_col) ->
  assoc "distance_threshold" params
  = match distance_threshold with
    | Omitted => None
    | Passed None => Some PNone
    | Passed (Some t) => Some (PFloat t)
    end ->
  Sse.execute_mcp_function
    calculate_geodesic_distance read_table_file analyze_distance_distribution
    (hotspot_on os_path_exists pd_read_csv pd_read_excel haversine_distances
                libm_pow norm_cdf hotspot_otherwise)
    search_nearby_poi geocode_address calculate_route_distance gaode_api_key
    "hotspot_analysis_getis_ord_gi_star" (PDict params)
  = doc_value
      (hotspot_analysis_getis_ord_gi_star
         os_path_exists pd_read_csv pd_read_excel haversine_distances libm_pow norm_cdf
         file_path lat_col lon_col value_col distance_threshold).
Proof.
  intros Hf Hlat Hlon Hval Ht.
  unfold Sse.execute_mcp_function, Sse.try_body.
  cbn [String.eqb Ascii.eqb Bool.eqb andb py_get].
  rewrite Hf, Hlat, Hlon, Hval, Ht.
  destruct distance_threshold as [|[t|]]; reflexivity.
Qed.

Lemma dispatcher_hotspot_threshold_witness :
  Sse.execute_mcp_function
    (fun _ => Raise "") (fun _ _ => Raise "") (fun _ _ => Raise "")
    (hotspot_on Sample.exists_ (fun _ => Return Examples.radii_table)
                Sample.no_excel Sample.haversine Sample.glibc_pow Sample.cdf
                (fun _ _ _ _ _ => Raise ""))
    (fun _ _ _ _ _ _ _ => Raise "") (fun _ _ _ => Raise "")
    (fun _ _ _ _ => Raise "") (Return PNone)
    "hotspot_analysis_getis_ord_gi_star"
    (PDict [("file_path", PStr "points.csv"); ("lat_col", PStr "lat");
            ("lon_col", PStr "lon"); ("value_col", PStr "value")])
  = doc_value (Sample.core Examples.radii_table Omitted).
Proof.
  apply (dispatcher_hotspot_threshold
           Sample.exists_ (fun _ => Return Examples.radii_table)
           Sample.no_excel Sample.haversine Sample.glibc_pow Sample.cdf
           (fun _ _ _ _ _ => Raise "")
           (fun _ => Raise "") (fun _ _ => Raise "") (fun _ _ => Raise "")
           (fun _ _ _ _ _ _ _ => Raise "") (fun _ _ _ => Raise "")
           (fun _ _ _ _ => Raise "") (Return PNone)
           [("file_path", PStr "points.csv"); ("lat_col", PStr "lat");
            ("lon_col", PStr "lon"); ("value_col", PStr "value")]
           "points.csv" "lat" "lon" "value" Omitted);
    reflexivity.
Defined.

(** ** Sums of rows *)

Lemma fold_add_acc (l : list Z) (acc : Z) :
  fold_left Z.add l acc = acc + fold_left Z.add l 0.
Proof.
  revert acc. induction l as [|x l IH]; intros acc; simpl; [lia|].
  rewrite (IH (acc + x)), (IH (0 + x)). lia.
Qed.

Lemma sum_int_cons (x : Z) (l : list Z) :
  Spec.sum_int (x :: l) = x + Spec.sum_int l.
Proof. unfold Spec.sum_int. simpl. by rewrite fold_add_acc. Qed.

Lemma sum_int_binary (row : list Z) :
  binary row -> 0 <= Spec.sum_int row <= Z.of_nat (length row).
Proof.
  induction 1 as [|x row Hx _ IH]; [done|].
  rewrite sum_int_cons. simpl length. destruct Hx; lia.
Qed.

(** A row of zeros and ones with a zero in it sums to less than its length. *)
Lemma sum_int_binary_zero (row : list Z) (i : nat) :
  binary row -> row !! i = Some 0 ->
  Spec.sum_int row <= Z.of_nat (length row) - 1.
Proof.
  intros H. revert i. induction H as [|x row Hx Hrow IH]; intros i Hi; [done|].
  rewrite sum_int_cons. simpl length. destruct i as [|i]; simpl in Hi.
  - inversion Hi; subst x. pose proof (sum_int_binary row Hrow). lia.
  - specialize (IH i Hi). destruct Hx; lia.
Qed.

(** A row of zeros and ones that sums to zero has no neighbour in it. *)
Lemma sum_int_zero (row : list Z) :
  binary row -> Spec.sum_int row = 0 -> Forall (fun w => w = 0) row.
Proof.
  induction 1 as [|x row Hx Hrow IH]; [done|].
  rewrite sum_int_cons. intros Hs.
  pose proof (sum_int_binary row Hrow).
  constructor; [destruct Hx; lia|]. apply IH. destruct Hx; lia.
Qed.

(** ** Conversions of small integers *)

Lemma float_of_int_finite (m : positive) :
  Zpos m < 2 ^ 53 ->
  exists mz e, Prim2SF (float_of_int (Zpos m)) = S754_finite false mz e.
Proof.
  intros Hm. unfold float_of_int, binary_normalize.
  pose proof (digits2_pos_bounds m) as [Dlo _].
  set (k := Zpos (digits2_pos m)) in *.
  assert (Hk : 0 < k <= 53).
  { split; [unfold k; lia|].
    destruct (Z.le_gt_cases k 53) as [|Hgt]; [done|].
    assert (2 ^ 53 <= 2 ^ (k - 1)) by (apply Z.pow_le_mono_r; lia). lia. }
  destruct (round_small m 0) as (mz & Hr & Hd & _); [fold k; lia..|].
  fold k in Hr. rewrite Hr. exists mz, (0 + k - 53).
  apply Prim2SF_SF2Prim.
  unfold SpecFloat.valid_binary, bounded, canonical_mantissa.
  rewrite Hd. unfold fexp, emin, prec, emax.
  apply andb_true_iff. split.
  - apply Z.eqb_eq. lia.
  - apply Z.leb_le. lia.
Qed.

Lemma zero_div_finite (y : float) (mz : positive) (e : Z) :
  Prim2SF y = S754_finite false mz e -> (0 / y)%float = 0%float.
Proof.
  intros H. apply Prim2SF_inj. rewrite FloatAxioms.div_spec, H. reflexivity.
Qed.

Lemma mul_zero_number (x : float) :
  is_number x = true -> (x * 0 =? 0)%float = true.
Proof.
  unfold is_number. intros H.
  rewrite FloatAxioms.eqb_spec, FloatAxioms.mul_spec.
  destruct (Prim2SF x) as [sg|sg| |sg m e]; try discriminate H;
    destruct sg; reflexivity.
Qed.

(** The denominator of a point without neighbours. *)
Lemma denom_isolated (n : Z) (s : float) (wij_i : list Z) :
  2 <= n -> n - 1 < 2 ^ 53 -> is_number s = true ->
  binary wij_i -> np_sum_int wij_i = 0 ->
  (denom n s wij_i 0 =? 0)%float = true.
Proof.
  intros Hn Hn' Hs Hb Hsum. unfold denom.
  destruct (binary_squares wij_i Hb) as [-> _]. rewrite Hsum.
  replace (int64_sub (int64_mul n 0) (int64_mul 0 0)) with 0
    by (unfold int64_sub, int64_mul; rewrite Z.mul_0_r; reflexivity).
  destruct (n - 1) as [|m|m] eqn:E; try lia.
  destruct (float_of_int_finite m Hn') as (mz & e & Hf).
  change (float_of_int 0) with 0%float.
  rewrite (zero_div_finite _ _ _ Hf).
  change (PrimFloat.sqrt 0) with 0%float.
  by apply mul_zero_number.
Qed.

(** ** The two implementations *)

Section Agreement.

Variable haversine_distances :
  list (float * float) -> list (float * float) -> Exc (list (list float)).

Lemma client_prepare_fixed (df : DataFrame) (lat_col lon_col value_col : string)
      (client core : option float) :
  variable_policy client df = false -> variable_policy core df = false ->
  fixed_threshold client = fixed_threshold core ->
  Client.prepare haversine_distances df lat_col lon_col value_col client
  = prepare haversine_distances df lat_col lon_col value_col core.
Proof.
  intros Hc Hk Ht. unfold Client.prepare, prepare, Client.weights, weights.
  rewrite Hc, Hk, Ht.
  destruct (column_values df lat_col); [|reflexivity].
  destruct (column_values df lon_col); [|reflexivity].
  destruct (column_values df value_col) as [cells|]; [|reflexivity].
  cbn [bind].
  destruct (astype_float cells); [|reflexivity]. cbn [bind].
  destruct (np_radians _); [|reflexivity]. cbn [bind].
  destruct (distances _ _); reflexivity.
Qed.

End Agreement.


(** ** Extensions *)

Lemma lower_app (a b : string) : lower (a +:+ b) = lower a +:+ lower b.
Proof.
  induction a as [|c a IH]; [done|].
  change (String (lower_ascii c) (lower (a +:+ b))
          = String (lower_ascii c) (lower a +:+ lower b)).
  by rewrite IH.
Qed.

Lemma lower_length (a : string) : String.length (lower a) = String.length a.
Proof. induction a as [|c a IH]; [done|]. simpl. by rewrite IH. Qed.

Lemma substring_app (a b : string) (k n : nat) :
  substring (String.length a + k) n (a +:+ b) = substring k n b.
Proof. induction a as [|c a IH]; [done|]. exact IH. Qed.

Lemma endswith_app (a b suffix : string) :
  (String.length suffix <= String.length b)%nat ->
  endswith (a +:+ b) suffix = endswith b suffix.
Proof.
  intros H. unfold endswith. rewrite string_length_app.
  replace (String.length a + String.length b - String.length suffix)%nat
    with (String.length a + (String.length b - String.length suffix))%nat by lia.
  rewrite substring_app.
  destruct (Nat.leb_spec (String.length suffix) (String.length b)); [|lia].
  destruct (Nat.leb_spec (String.length suffix)
                         (String.length a + String.length b)); [|lia].
  reflexivity.
Qed.

Section Hotspot.

Variable os_path_exists : string -> bool.
Variable pd_read_csv : string -> Exc DataFrame.
Variable pd_read_excel : string -> Exc DataFrame.
Variable haversine_distances :
  list (float * float) -> list (float * float) -> Exc (list (list float)).
Variable libm_pow : float -> float -> float.
Variable norm_cdf : float -> float.

Local Abbreviation analysis :=
  (hotspot_analysis_getis_ord_gi_star
     os_path_exists pd_read_csv pd_read_excel haversine_distances libm_pow norm_cdf).
Local Abbreviation client_analysis :=
  (Client.hotspot_analysis_getis_ord_gi_star
     os_path_exists pd_read_csv pd_read_excel haversine_distances libm_pow norm_cdf).
Local Abbreviation state :=
  (prepared os_path_exists pd_read_csv pd_read_excel haversine_distances).
Local Abbreviation table := (read_table pd_read_csv pd_read_excel).

(** X3. when every column of the table has as many cells as the
    table has rows and [haversine_distances] returns a square matrix, the
    weight matrix of a run has one row per point, every row has one entry
    per point, and every entry is 0 or 1. *)
Theorem weight_matrix_shape
        (file_path lat_col lon_col value_col : string)
        (distance_threshold : Arg (option float))
        (df : DataFrame) (p : Prepared) :
  table file_path = Return (Some df) ->
  frame_ok df = true ->
  (forall X h, haversine_distances X X = Return h -> square (length X) h = true) ->
  state file_path lat_col lon_col value_col (bound distance_threshold) = Some p ->
  length (wij p) = len_df p /\
  forall i row, wij p !! i = Some row ->
                length row = len_df p /\ binary row.
Proof.
  intros Ht Hok Hsq Hp.
  pose proof Hp as (_ & df0 & Ht0 & _ & Hprep)%prepared_Some.
  rewrite Ht in Ht0. injection Ht0 as <-.
  pose proof (prepare_well_shaped _ _ _ _ _ _ _ Hok Hsq Hprep) as Hs.
  apply well_shaped_lengths in Hs as (_ & _ & Hlen & Hrows).
  split; [exact Hlen|]. intros i row Hrow. split; [by eapply Hrows|].
  apply prepared_weights in Hp as (df' & _ & _ & Hw).
  by eapply weights_binary.
Qed.

(** X1. the [neighbors] entry of point [i] is the sum of row [i] of
    the weight matrix, as a sum of integers (the [int64] sum of the code
    does not wrap), and it lies between 0 and [n - 1]. *)
Theorem neighbor_count
        (file_path lat_col lon_col value_col : string)
        (distance_threshold : Arg (option float))
        (p : Prepared) (i : nat) (wij_i : list Z) :
  state file_path lat_col lon_col value_col (bound distance_threshold) = Some p ->
  well_shaped p = true ->
  Z.of_nat (len_df p) < 2 ^ 63 ->
  wij p !! i = Some wij_i ->
  exists results r,
    analysis file_path lat_col lon_col value_col distance_threshold
    = success p results /\
    results !! i = Some r /\
    neighbors r = Spec.sum_int wij_i /\
    0 <= neighbors r <= Z.of_nat (len_df p) - 1.
Proof.
  intros Hp Hs Hn Hw.
  destruct (analysis_point _ _ _ _ libm_pow norm_cdf _ _ _ _ _ _ _ _ Hp Hs Hw)
    as (results & r & Hrun & _ & Hr & _ & _ & Hnb).
  exists results, r. split; [exact Hrun|]. split; [exact Hr|].
  pose proof Hs as (_ & _ & _ & Hrows)%well_shaped_lengths.
  pose proof (Hrows _ _ Hw) as Hlen.
  apply prepared_weights in Hp as (df & _ & _ & Hwe).
  pose proof (weights_binary _ _ _ _ _ _ _ _ Hwe Hw) as Hb.
  assert (Hi : (i < length wij_i)%nat).
  { rewrite Hlen. apply lookup_lt_Some in Hw.
    apply well_shaped_lengths in Hs as (_ & _ & <- & _). exact Hw. }
  pose proof (weights_diagonal _ _ _ _ _ _ _ _ Hwe Hw Hi) as Hd.
  destruct (sum_binary wij_i Hb) as [Hsum Hge]; [by rewrite Hlen|].
  rewrite Hnb, Hsum. split; [reflexivity|].
  pose proof (sum_int_binary_zero _ _ Hb Hd). lia.
Qed.

(** X2. in a run over at least two points whose pooled standard
    deviation is a number (not NaN, not infinite), a point without
    neighbours gets the degenerate output: [gi_star] and [z_score] 0,
    [p_value] 1, label "not significant". *)
Theorem isolated_point
        (file_path lat_col lon_col value_col : string)
        (distance_threshold : Arg (option float))
        (p : Prepared) (i : nat) (wij_i : list Z) :
  state file_path lat_col lon_col value_col (bound distance_threshold) = Some p ->
  well_shaped p = true ->
  2 <= Z.of_nat (len_df p) <= 2 ^ 53 ->
  is_number (s (global_stats libm_pow (Z.of_nat (len_df p)) (values p))) = true ->
  wij p !! i = Some wij_i ->
  np_sum_int wij_i = 0 ->
  exists results r,
    analysis file_path lat_col lon_col value_col distance_threshold
    = success p results /\
    results !! i = Some r /\
    neighbors r = 0 /\
    gi_star r = 0%float /\ z_score r = 0%float /\ p_value r = 1%float /\
    label r = not_significant.
Proof.
  intros Hp Hs Hn Hnum Hw Hsum.
  destruct (analysis_point _ _ _ _ libm_pow norm_cdf _ _ _ _ _ _ _ _ Hp Hs Hw)
    as (results & r & Hrun & _ & Hr & Hst & Hl & Hnb).
  exists results, r. split; [exact Hrun|]. split; [exact Hr|].
  apply prepared_weights in Hp as (df & _ & _ & Hwe).
  pose proof (weights_binary _ _ _ _ _ _ _ _ Hwe Hw) as Hb.
  rewrite Hsum in Hst, Hnb.
  rewrite gi_star_stat_degenerate in Hst
    by (apply denom_isolated; [lia | lia | done | done | done]).
  injection Hst as Hg Hz Hpv.
  repeat split; try done. rewrite Hl, Hz. reflexivity.
Qed.

(** X6. the function of src/mcp-client/server.py and the core
    function give the same answer to the same call whenever the call
    passes a number as threshold, or the table read has no "distance"
    column; they can differ only where the per-point policy comes in. *)
Theorem client_agrees_with_core
        (file_path lat_col lon_col value_col : string)
        (distance_threshold : Arg (option float)) :
  (exists t, distance_threshold = Passed (Some t)) \/
  (forall df, table file_path = Return (Some df) ->
              has_column df "distance" = false) ->
  client_analysis file_path lat_col lon_col value_col distance_threshold
  = analysis file_path lat_col lon_col value_col distance_threshold.
Proof.
  intros H.
  unfold Client.hotspot_analysis_getis_ord_gi_star,
    hotspot_analysis_getis_ord_gi_star, run, Client.try_body, try_body.
  destruct (os_path_exists file_path); [|reflexivity]. cbn [negb].
  destruct (table file_path) as [[df|]|e] eqn:Ht; try reflexivity.
  cbn [bind].
  destruct (missing_column df lat_col lon_col value_col); [reflexivity|].
  rewrite (client_prepare_fixed _ df lat_col lon_col value_col
             (with_default None distance_threshold) (bound distance_threshold)).
  - reflexivity.
  - destruct H as [[t ->]|H]; [reflexivity|].
    destruct distance_threshold as [|[t|]]; simpl; try reflexivity; by apply H.
  - destruct H as [[t ->]|H]; [reflexivity|].
    destruct distance_threshold as [|[t|]]; simpl; try reflexivity; by apply H.
  - by destruct distance_threshold as [|[t|]].
Qed.

End Hotspot.

(** X8. the reader is chosen by the extension whatever the case of
    its letters, and is given the path as written: a path that ends in
    ".csv", ".CSV", ".Csv", ... is read by [pandas.read_csv], one that
    ends in a spelling of ".xls" or ".xlsx" by [pandas.read_excel]. *)
Theorem reader_by_extension
        (pd_read_csv pd_read_excel : string -> Exc DataFrame)
        (stem ext : string) :
  lower ext = ".csv" \/ lower ext = ".xls" \/ lower ext = ".xlsx" ->
  read_table pd_read_csv pd_read_excel (stem +:+ ext)
  = try! df := (if String.eqb (lower ext) ".csv" then pd_read_csv
                else pd_read_excel) (stem +:+ ext) in
    Return (Some df).
Proof.
  intros H. unfold read_table. rewrite lower_app.
  destruct H as [H|[H|H]]; rewrite H;
    rewrite !endswith_app by (simpl; lia); reflexivity.
Qed.

Lemma reader_by_extension_witness :
  read_table (fun _ => Return Sample.one_point) Sample.no_excel
             ("Points" +:+ ".CSV")
  = try! df := (if String.eqb (lower ".CSV") ".csv"
                then fun _ => Return Sample.one_point
                else Sample.no_excel) ("Points" +:+ ".CSV") in
    Return (Some df).
Proof.
  apply (reader_by_extension (fun _ => Return Sample.one_point) Sample.no_excel
                             "Points" ".CSV").
  left. reflexivity.
Defined.

Lemma sample_haversine_square (X : list (float * float)) (h : list (list float)) :
  Sample.haversine X X = Return h -> square (length X) h = true.
Proof.
  intros [= <-]. unfold square. rewrite length_map, Nat.eqb_refl. simpl.
  apply forallb_forall. intros row Hin. apply in_map_iff in Hin as (x & <- & _).
  rewrite length_map. apply Nat.eqb_refl.
Qed.

Lemma weight_matrix_shape_witness :
  length (wij Examples.three_state) = len_df Examples.three_state /\
  forall i row, wij Examples.three_state !! i = Some row ->
                length row = len_df Examples.three_state /\ binary row.
Proof.
  apply (weight_matrix_shape
           Sample.exists_ (fun _ => Return Sample.three_points) Sample.no_excel
           Sample.haversine "points.csv" "lat" "lon" "value" Omitted
           Sample.three_points Examples.three_state).
  - reflexivity.
  - reflexivity.
  - apply sample_haversine_square.
  - vm_compute. reflexivity.
Defined.

Lemma neighbor_count_witness :
  exists results r,
    Sample.core Sample.three_points Omitted = success Examples.three_state results /\
    results !! 2%nat = Some r /\
    neighbors r = Spec.sum_int [1; 0; 0] /\
    0 <= neighbors r <= Z.of_nat (len_df Examples.three_state) - 1.
Proof.
  apply (neighbor_count
           Sample.exists_ (fun _ => Return Sample.three_points) Sample.no_excel
           Sample.haversine Sample.glibc_pow Sample.cdf "points.csv" "lat" "lon" "value" Omitted
           Examples.three_state 2 [1; 0; 0]);
    vm_compute; reflexivity.
Defined.

Lemma isolated_point_witness :
  exists results r,
    Sample.core Sample.three_points Omitted = success Examples.three_state results /\
    results !! 1%nat = Some r /\
    neighbors r = 0 /\
    gi_star r = 0%float /\ z_score r = 0%float /\ p_value r = 1%float /\
    label r = not_significant.
Proof.
  apply (isolated_point
           Sample.exists_ (fun _ => Return Sample.three_points) Sample.no_excel
           Sample.haversine Sample.glibc_pow Sample.cdf "points.csv" "lat" "lon" "value" Omitted
           Examples.three_state 1 [0; 0; 0]);
    try (vm_compute; reflexivity).
  split; vm_compute; discriminate.
Defined.

Lemma client_agrees_with_core_witness :
  Sample.client Examples.radii_table (Passed (Some 500%float))
  = Sample.core Examples.radii_table (Passed (Some 500%float)).
Proof.
  apply (client_agrees_with_core
           Sample.exists_ (fun _ => Return Examples.radii_table) Sample.no_excel
           Sample.haversine Sample.glibc_pow Sample.cdf "points.csv" "lat" "lon" "value"
           (Passed (Some 500%float))).
  left. eexists. reflexivity.
Defined.

(** ** Comparisons *)

Lemma ltb_infinity (x : float) : (infinity <? x)%float = false.
Proof.
  rewrite FloatAxioms.ltb_spec.
  change (Prim2SF infinity) with (S754_infinity false).
  unfold SFltb, SFcompare.
  destruct (Prim2SF x) as [sg|sg| |sg m e]; try reflexivity; by destruct sg.
Qed.

Lemma SFeqb_refl (x : spec_float) : x <> S754_nan -> SFeqb x x = true.
Proof.
  intros H. unfold SFeqb, SFcompare.
  destruct x as [sg|sg| |sg m e]; try done.
  - by destruct sg.
  - rewrite Z.compare_refl, Pos.compare_cont_refl. by destruct sg.
Qed.

Lemma nan_not_positive (x : float) :
  is_nan x = true -> (0 <? x)%float = false.
Proof.
  unfold is_nan. rewrite FloatAxioms.eqb_spec, FloatAxioms.ltb_spec.
  intros H. destruct (Prim2SF x) eqn:E; try reflexivity;
    rewrite SFeqb_refl in H; discriminate.
Qed.

(** A distance is cut into one of the six ranges exactly when it is
    positive. *)
Lemma cut_positive (x : float) :
  (DataProcessing.cut DataProcessing.bins x = None /\ (0 <? x)%float = false) \/
  (exists k, (k < 6)%nat /\ DataProcessing.cut DataProcessing.bins x = Some k /\
             (0 <? x)%float = true).
Proof.
  unfold DataProcessing.cut, DataProcessing.searchsorted_left, DataProcessing.bins.
  destruct (is_nan x) eqn:Hnan.
  - left. split; [reflexivity | by apply nan_not_positive].
  - cbn [orb length DataProcessing.leading_below].
    rewrite ltb_infinity.
    destruct (0 <? x)%float; [right|left; split; reflexivity].
    destruct (100 <? x)%float; [|exists 0%nat; repeat split; lia].
    destruct (500 <? x)%float; [|exists 1%nat; repeat split; lia].
    destruct (1000 <? x)%float; [|exists 2%nat; repeat split; lia].
    destruct (2000 <? x)%float; [|exists 3%nat; repeat split; lia].
    destruct (5000 <? x)%float; [|exists 4%nat; repeat split; lia].
    exists 5%nat; repeat split; lia.
Qed.

Lemma range_counts_cons (x : float) (distances : list float) :
  map snd (DataProcessing.range_counts (x :: distances))
  = zip_with (fun k c => ((if DataProcessing.has_code k
                                (DataProcessing.cut DataProcessing.bins x)
                           then 1 else 0) + c)%nat)
             (seq 0 6) (map snd (DataProcessing.range_counts distances)).
Proof.
  unfold DataProcessing.range_counts, DataProcessing.value_counts,
    DataProcessing.labels.
  cbn [imap map List.filter zip_with seq snd compose].
  repeat f_equal;
    by destruct (DataProcessing.has_code _ _).
Qed.

Lemma range_counts_length (distances : list float) :
  length (map snd (DataProcessing.range_counts distances)) = 6%nat.
Proof. reflexivity. Qed.

Lemma assoc_has_column (df : DataFrame) (col : string) (cells : list Cell) :
  column_values df col = Return cells -> has_column df col = true.
Proof.
  unfold column_values, has_column. intros H.
  destruct (assoc col (df_columns df)) as [c|] eqn:E; [|discriminate].
  apply bool_decide_eq_true_2, list_elem_of_In.
  apply assoc_Some_In in E. apply in_map_iff. by exists (col, c).
Qed.

Lemma range_counts_total (distances : list float) :
  sum_list (map snd (DataProcessing.range_counts distances))
  = length (List.filter (fun x => (0 <? x)%float) distances).
Proof.
  induction distances as [|x distances IH]; [reflexivity|].
  rewrite range_counts_cons. cbn [List.filter].
  pose proof (range_counts_length distances) as Hl.
  destruct (map snd (DataProcessing.range_counts distances))
    as [|c0 [|c1 [|c2 [|c3 [|c4 [|c5 [|? ?]]]]]]]; try discriminate Hl.
  destruct (cut_positive x) as [[-> ->]|(k & Hk & -> & ->)].
  - simpl in *. lia.
  - destruct k as [|[|[|[|[|[|k]]]]]]; try lia; simpl in *; lia.
Qed.

(** X15. when the distance column is read and converted,
    [analyze_distance_distribution] answers with one count for each of
    the six ranges, and the counts add up to the number of distances
    greater than zero: a positive distance is counted in exactly one range
    (an infinite one in ">5km"), a distance that is zero, negative or NaN
    in none, so that the counts can add up to less than "count". *)
Theorem distance_ranges_total
        (os_path_exists : string -> bool)
        (pd_read_csv pd_read_excel : string -> Exc DataFrame)
        (series_mean series_std series_min series_max series_median
         : list float -> float)
        (series_quantile : list float -> float -> float)
        (file_path distance_col : string)
        (df : DataFrame) (cells : list Cell) (distances : list float) :
  os_path_exists file_path = true ->
  read_table pd_read_csv pd_read_excel file_path = Return (Some df) ->
  column_values df distance_col = Return cells ->
  astype_float cells = Return distances ->
  exists stats counts,
    DataProcessing.analyze_distance_distribution
      os_path_exists pd_read_csv pd_read_excel
      series_mean series_std series_min series_max series_median series_quantile
      file_path (Passed distance_col)
    = PDict [("status", PStr "success");
             ("statistics", stats);
             ("distance_ranges",
              PDict (map (fun lc => (lc.1, PInt (Z.of_nat lc.2))) counts))] /\
    py_getitem stats "count" = Return (PInt (Z.of_nat (length distances))) /\
    map fst counts = DataProcessing.labels /\
    sum_list (map snd counts)
    = length (List.filter (fun x => (0 <? x)%float) distances) /\
    (sum_list (map snd counts) <= length distances)%nat.
Proof.
  intros He Ht Hc Ha.
  unfold DataProcessing.analyze_distance_distribution, DataProcessing.try_body.
  rewrite He, Ht. cbn [negb bind with_default].
  rewrite (assoc_has_column _ _ _ Hc), Hc. cbn [negb bind]. rewrite Ha.
  cbn [bind].
  eexists _, (DataProcessing.range_counts distances).
  split; [reflexivity|]. split; [reflexivity|]. split; [reflexivity|].
  rewrite range_counts_total. split; [reflexivity|].
  clear. induction distances as [|x l IH]; [done|].
  cbn [List.filter]. destruct (0 <? x)%float; simpl; lia.
Qed.

Lemma distance_ranges_total_witness :
  exists stats counts,
    DataProcessing.analyze_distance_distribution
      Sample.exists_ (fun _ => Return Examples.radii_table) Sample.no_excel
      (fun _ => 0%float) (fun _ => 0%float) (fun _ => 0%float)
      (fun _ => 0%float) (fun _ => 0%float) (fun _ _ => 0%float)
      "points.csv" (Passed "distance")
    = PDict [("status", PStr "success");
             ("statistics", stats);
             ("distance_ranges",
              PDict (map (fun lc => (lc.1, PInt (Z.of_nat lc.2))) counts))] /\
    py_getitem stats "count"
    = Return (PInt (Z.of_nat (length [200; 0; 50]%float))) /\
    map fst counts = DataProcessing.labels /\
    sum_list (map snd counts)
    = length (List.filter (fun x => (0 <? x)%float) [200; 0; 50]%float) /\
    (sum_list (map snd counts) <= length [200; 0; 50]%float)%nat.
Proof.
  apply (distance_ranges_total
           Sample.exists_ (fun _ => Return Examples.radii_table) Sample.no_excel
           (fun _ => 0%float) (fun _ => 0%float) (fun _ => 0%float)
           (fun _ => 0%float) (fun _ => 0%float) (fun _ _ => 0%float)
           "points.csv" "distance" Examples.radii_table
           (CNum <$> [200; 0; 50]%float) [200; 0; 50]%float);
    reflexivity.
Defined.

(** ** The order of [float64] *)

Lemma key_le_trans (e1 e2 e3 : Z) (m1 m2 m3 : positive) :
  match e1 ?= e2 with Eq => Pos.compare_cont Eq m1 m2 | Lt => Lt | Gt => Gt end <> Gt ->
  match e2 ?= e3 with Eq => Pos.compare_cont Eq m2 m3 | Lt => Lt | Gt => Gt end <> Gt ->
  match e1 ?= e3 with Eq => Pos.compare_cont Eq m1 m3 | Lt => Lt | Gt => Gt end <> Gt.
Proof.
  change (Pos.compare_cont Eq m1 m2) with (m1 ?= m2)%positive.
  change (Pos.compare_cont Eq m2 m3) with (m2 ?= m3)%positive.
  change (Pos.compare_cont Eq m1 m3) with (m1 ?= m3)%positive.
  destruct (Z.compare_spec e1 e2), (Z.compare_spec e2 e3),
    (Z.compare_spec e1 e3); try done; try lia; subst;
    destruct (Pos.compare_spec m1 m2), (Pos.compare_spec m2 m3),
      (Pos.compare_spec m1 m3); try done; lia.
Qed.

Lemma key_ge_trans (e1 e2 e3 : Z) (m1 m2 m3 : positive) :
  match e1 ?= e2 with Eq => Pos.compare_cont Eq m1 m2 | Lt => Lt | Gt => Gt end <> Lt ->
  match e2 ?= e3 with Eq => Pos.compare_cont Eq m2 m3 | Lt => Lt | Gt => Gt end <> Lt ->
  match e1 ?= e3 with Eq => Pos.compare_cont Eq m1 m3 | Lt => Lt | Gt => Gt end <> Lt.
Proof.
  change (Pos.compare_cont Eq m1 m2) with (m1 ?= m2)%positive.
  change (Pos.compare_cont Eq m2 m3) with (m2 ?= m3)%positive.
  change (Pos.compare_cont Eq m1 m3) with (m1 ?= m3)%positive.
  destruct (Z.compare_spec e1 e2), (Z.compare_spec e2 e3),
    (Z.compare_spec e1 e3); try done; try lia; subst;
    destruct (Pos.compare_spec m1 m2), (Pos.compare_spec m2 m3),
      (Pos.compare_spec m1 m3); try done; lia.
Qed.

Lemma SFleb_trans (a b c : spec_float) :
  SFleb a b = true -> SFleb b c = true -> SFleb a c = true.
Proof.
  unfold SFleb, SFcompare.
  destruct a as [sa|sa| |sa ma ea], b as [sb|sb| |sb mb eb],
    c as [sc|sc| |sc mc ec]; try done;
    try (destruct sa, sb, sc; done);
    try (destruct sa, sb; done); try (destruct sb, sc; done);
    try (destruct sa, sc; done).
  destruct sa, sb, sc; try done.
  - pose proof (key_ge_trans ea eb ec ma mb mc) as H.
    destruct (ea ?= eb), (eb ?= ec), (ea ?= ec); try done;
      repeat match goal with
             | |- context [Pos.compare_cont Eq ?x ?y] =>
                 destruct (Pos.compare_cont Eq x y)
             end; simpl in *; try done; intros; exfalso; by apply H.
  - pose proof (key_le_trans ea eb ec ma mb mc) as H.
    destruct (ea ?= eb), (eb ?= ec), (ea ?= ec); try done;
      repeat match goal with
             | |- context [Pos.compare_cont Eq ?x ?y] =>
                 destruct (Pos.compare_cont Eq x y)
             end; simpl in *; try done; intros; exfalso; by apply H.
Qed.

Lemma leb_trans (x y z : float) :
  (x <=? y)%float = true -> (y <=? z)%float = true -> (x <=? z)%float = true.
Proof. rewrite !FloatAxioms.leb_spec. apply SFleb_trans. Qed.

(** ** Rows under two thresholds *)

Lemma sum_int_le (l l' : list Z) :
  Forall2 Z.le l l' -> Spec.sum_int l <= Spec.sum_int l'.
Proof.
  induction 1 as [|x y l l' Hxy _ IH]; [done|].
  rewrite !sum_int_cons. lia.
Qed.

Lemma threshold_row_le (row : list float) (t t' : float) :
  (t <=? t')%float = true ->
  Forall2 Z.le (threshold_row row t) (threshold_row row t').
Proof.
  intros Ht. induction row as [|d row IH]; [constructor|].
  simpl. constructor; [|exact IH].
  destruct (d <=? t)%float eqn:E.
  - by rewrite (leb_trans _ _ _ E Ht).
  - destruct (d <=? t')%float; lia.
Qed.

Lemma prepare_same_distances
      (haversine_distances :
         list (float * float) -> list (float * float) -> Exc (list (list float)))
      (df : DataFrame) (lat_col lon_col value_col : string)
      (t t' : option float) (p p' : Prepared) :
  prepare haversine_distances df lat_col lon_col value_col t = Return p ->
  prepare haversine_distances df lat_col lon_col value_col t' = Return p' ->
  dists p = dists p' /\ len_df p = len_df p'.
Proof.
  unfold prepare. intros H H'.
  apply bind_Return in H as (lat & Hlat & H).
  apply bind_Return in H' as (lat' & Hlat' & H').
  rewrite Hlat in Hlat'. injection Hlat' as <-.
  apply bind_Return in H as (lon & Hlon & H).
  apply bind_Return in H' as (lon' & Hlon' & H').
  rewrite Hlon in Hlon'. injection Hlon' as <-.
  apply bind_Return in H as (cells & Hcells & H).
  apply bind_Return in H' as (cells' & Hcells' & H').
  rewrite Hcells in Hcells'. injection Hcells' as <-.
  apply bind_Return in H as (vals & Hvals & H).
  apply bind_Return in H' as (vals' & Hvals' & H').
  apply bind_Return in H as (rad & Hrad & H).
  apply bind_Return in H' as (rad' & Hrad' & H').
  rewrite Hrad in Hrad'. injection Hrad' as <-.
  apply bind_Return in H as (d & Hd & H).
  apply bind_Return in H' as (d' & Hd' & H').
  rewrite Hd in Hd'. injection Hd' as <-.
  apply bind_Return in H as (w & Hw & H).
  apply bind_Return in H' as (w' & Hw' & H').
  injection H as <-. injection H' as <-. done.
Qed.

(** X4. under the fixed policy a larger threshold never removes a
    neighbour: for two runs over the same table with thresholds
    [t <= t'], the [neighbors] entry of every point in the first run is
    at most its entry in the second. *)
Theorem neighbors_monotone
        (os_path_exists : string -> bool)
        (pd_read_csv pd_read_excel : string -> Exc DataFrame)
        (haversine_distances :
           list (float * float) -> list (float * float) -> Exc (list (list float)))
        (libm_pow : float -> float -> float)
        (norm_cdf : float -> float)
        (file_path lat_col lon_col value_col : string)
        (t t' : float) (p p' : Prepared) (i : nat) :
  prepared os_path_exists pd_read_csv pd_read_excel haversine_distances
           file_path lat_col lon_col value_col (Some t) = Some p ->
  prepared os_path_exists pd_read_csv pd_read_excel haversine_distances
           file_path lat_col lon_col value_col (Some t') = Some p' ->
  well_shaped p = true ->
  well_shaped p' = true ->
  Z.of_nat (len_df p) < 2 ^ 63 ->
  (t <=? t')%float = true ->
  (i < len_df p)%nat ->
  exists results results' r r',
    hotspot_analysis_getis_ord_gi_star
      os_path_exists pd_read_csv pd_read_excel haversine_distances libm_pow norm_cdf
      file_path lat_col lon_col value_col (Passed (Some t))
    = success p results /\
    hotspot_analysis_getis_ord_gi_star
      os_path_exists pd_read_csv pd_read_excel haversine_distances libm_pow norm_cdf
      file_path lat_col lon_col value_col (Passed (Some t'))
    = success p' results' /\
    results !! i = Some r /\ results' !! i = Some r' /\
    neighbors r <= neighbors r'.
Proof.
  intros Hp Hp' Hs Hs' Hn Ht Hi.
  pose proof Hp as (_ & df & Htab & _ & Hprep)%prepared_Some.
  pose proof Hp' as (_ & df' & Htab' & _ & Hprep')%prepared_Some.
  rewrite Htab in Htab'. injection Htab' as <-.
  destruct (prepare_same_distances _ _ _ _ _ _ _ _ _ Hprep Hprep') as [Hd Hlen].
  pose proof Hs as (_ & _ & Hl & Hrows)%well_shaped_lengths.
  pose proof Hs' as (_ & _ & Hl' & Hrows')%well_shaped_lengths.
  destruct (lookup_lt_is_Some_2 (wij p) i) as [wi Hwi]; [lia|].
  destruct (lookup_lt_is_Some_2 (wij p') i) as [wi' Hwi']; [lia|].
  destruct (analysis_point _ _ _ _ libm_pow norm_cdf _ _ _ _ (Passed (Some t)) _ _ _
                           Hp Hs Hwi)
    as (results & r & Hrun & _ & Hr & _ & _ & Hnb).
  destruct (analysis_point _ _ _ _ libm_pow norm_cdf _ _ _ _ (Passed (Some t')) _ _ _
                           Hp' Hs' Hwi')
    as (results' & r' & Hrun' & _ & Hr' & _ & _ & Hnb').
  exists results, results', r, r'. repeat split; try done.
  apply prepared_weights in Hp as (df1 & _ & _ & Hw).
  apply prepared_weights in Hp' as (df2 & _ & _ & Hw').
  pose proof (weights_binary _ _ _ _ _ _ _ _ Hw Hwi) as Hb.
  pose proof (weights_binary _ _ _ _ _ _ _ _ Hw' Hwi') as Hb'.
  destruct (sum_binary wi Hb) as [Hsum _]; [rewrite (Hrows _ _ Hwi); lia|].
  destruct (sum_binary wi' Hb') as [Hsum' _];
    [rewrite (Hrows' _ _ Hwi'); lia|].
  rewrite Hnb, Hnb', Hsum, Hsum'. apply sum_int_le.
  apply weights_Return in Hw as [(Hpol & _) | (_ & _ & Hwij)]; [done|].
  apply weights_Return in Hw' as [(Hpol & _) | (_ & _ & Hwij')]; [done|].
  rewrite Hwij, fill_diagonal_lookup in Hwi.
  rewrite Hwij', fill_diagonal_lookup in Hwi'.
  unfold fixed_weights in Hwi, Hwi'. rewrite list_lookup_fmap in Hwi, Hwi'.
  rewrite <- Hd in Hwi'.
  destruct (dists p !! i) as [row|]; [|done].
  simpl in Hwi, Hwi'. injection Hwi as <-. injection Hwi' as <-.
  apply Forall2_insert; [|done]. by apply threshold_row_le.
Qed.

Lemma neighbors_monotone_witness :
  exists results results' r r',
    Sample.core Sample.three_points (Passed (Some 100%float))
    = success three_state_100 results /\
    Sample.core Sample.three_points (Passed (Some 1000%float))
    = success Examples.three_state results' /\
    results !! 0%nat = Some r /\ results' !! 0%nat = Some r' /\
    neighbors r <= neighbors r'.
Proof.
  apply (neighbors_monotone
           Sample.exists_ (fun _ => Return Sample.three_points) Sample.no_excel
           Sample.haversine Sample.glibc_pow Sample.cdf "points.csv" "lat" "lon" "value"
           100%float 1000%float three_state_100 Examples.three_state 0);
    try (vm_compute; reflexivity).
  vm_compute. lia.
Defined.

(** ** Equal radii *)

Lemma mapM_ext_Return {A B : Type} (f : A -> Exc B) (g : A -> B) (l : list A) :
  (forall a, a ∈ l -> f a = Return (g a)) -> mapM f l = Return (map g l).
Proof.
  induction l as [|a l IH]; intros H; [done|].
  simpl. rewrite (H a) by left. rewrite IH by (intros; apply H; by right).
  reflexivity.
Qed.

Lemma astype_float_constant (cells : list Cell) (t : float) :
  Forall (fun c => c = CNum t) cells ->
  astype_float cells = Return (replicate (length cells) t).
Proof.
  unfold astype_float. induction 1 as [|c cells -> _ IH]; [done|].
  simpl. by rewrite IH.
Qed.

Lemma variable_weights_constant (n : nat) (d : list (list float)) (t : float) :
  length d = n ->
  variable_weights n d (replicate n t) = Return (fixed_weights d t).
Proof.
  intros Hn. unfold variable_weights.
  rewrite (mapM_ext_Return _ (fun i => threshold_row (default [] (d !! i)) t)).
  - f_equal. unfold fixed_weights. apply list_eq. intros i.
    rewrite !list_lookup_fmap.
    destruct (decide (i < n)%nat) as [Hi|Hi].
    + rewrite lookup_seq_lt by done. simpl.
      destruct (lookup_lt_is_Some_2 d i) as [row ->]; [lia|]. done.
    + rewrite lookup_seq_ge by lia. rewrite lookup_ge_None_2 by lia. done.
  - intros i [_ Hi]%elem_of_seq. simpl in Hi.
    destruct (getitem_lt d i) as (row & -> & ->); [lia|]. cbn [bind].
    destruct (getitem_lt (replicate n t) i) as (r & -> & Hr);
      [by rewrite length_replicate|].
    apply lookup_replicate in Hr as [-> _]. reflexivity.
Qed.

Section EqualRadii.

Variable haversine_distances :
  list (float * float) -> list (float * float) -> Exc (list (list float)).
Hypothesis haversine_square :
  forall X h, haversine_distances X X = Return h -> square (length X) h = true.
Variable libm_pow : float -> float -> float.
Variable norm_cdf : float -> float.

Lemma prepare_constant (df : DataFrame) (lat_col lon_col value_col : string)
      (cells : list Cell) (t : float) :
  frame_ok df = true ->
  column_values df "distance" = Return cells ->
  Forall (fun c => c = CNum t) cells ->
  prepare haversine_distances df lat_col lon_col value_col None
  = try! p := prepare haversine_distances df lat_col lon_col value_col (Some t) in
    Return (echoing variable_from_data p).
Proof.
  intros Hok Hc Hall. unfold prepare.
  destruct (column_values df lat_col) as [lat|] eqn:Hlat; [|reflexivity].
  destruct (column_values df lon_col) as [lon|] eqn:Hlon; [|reflexivity].
  destruct (column_values df value_col) as [vc|] eqn:Hvc; [|reflexivity].
  cbn [bind].
  destruct (astype_float vc) as [vals|] eqn:Hvals; [|reflexivity]. cbn [bind].
  destruct (np_radians (coords_values lat lon)) as [rad|] eqn:Hrad;
    [|reflexivity]. cbn [bind].
  destruct (distances haversine_distances rad) as [d|] eqn:Hd; [|reflexivity].
  cbn [bind].
  assert (Hlen : length d = df_len df).
  { pose proof (column_values_length _ _ _ Hok Hlat) as Llat.
    pose proof (column_values_length _ _ _ Hok Hlon) as Llon.
    assert (Lrad : length rad = df_len df).
    { unfold np_radians in Hrad.
      destruct (numeric_coords (coords_values lat lon)); [|discriminate].
      injection Hrad as <-. unfold coords_values.
      rewrite length_map, length_zip. lia. }
    unfold distances in Hd. apply bind_Return in Hd as (h & Hh & Hd).
    injection Hd as <-. apply haversine_square, square_lengths in Hh as [Hl _].
    by rewrite length_map, Hl. }
  unfold weights. cbn [variable_policy fixed_threshold].
  rewrite (assoc_has_column _ _ _ Hc), Hc. cbn [bind].
  rewrite (astype_float_constant _ _ Hall). cbn [bind].
  rewrite (column_values_length _ _ _ Hok Hc).
  rewrite (variable_weights_constant _ _ _ Hlen). reflexivity.
Qed.

Lemma assemble_echoing (u : Value) (p : Prepared) (key : string) :
  key <> "distance_threshold" ->
  get key match assemble libm_pow norm_cdf (echoing u p) with
          | Return doc => doc
          | Raise e => failure ("热点分析出错: " +:+ e)
          end
  = get key match assemble libm_pow norm_cdf p with
            | Return doc => doc
            | Raise e => failure ("热点分析出错: " +:+ e)
            end.
Proof.
  intros Hkey. unfold assemble. cbn [echoing len_df coords values wij used_distance].
  destruct (mapM _ _) as [results|e]; [|reflexivity].
  cbn [bind get assoc].
  destruct (String.eqb key "status"); [reflexivity|].
  destruct (String.eqb key "count"); [reflexivity|].
  destruct (String.eqb_spec key "distance_threshold"); [done|reflexivity].
Qed.

End EqualRadii.

(** X5. when every radius in the "distance" column is the same
    number [t], the per-point policy (threshold [None]) and the fixed
    policy with threshold [t] give the same answer, entry by entry, except
    for the "distance_threshold" entry that names the policy. *)
Theorem equal_radii
        (os_path_exists : string -> bool)
        (pd_read_csv pd_read_excel : string -> Exc DataFrame)
        (haversine_distances :
           list (float * float) -> list (float * float) -> Exc (list (list float)))
        (libm_pow : float -> float -> float)
        (norm_cdf : float -> float)
        (file_path lat_col lon_col value_col : string)
        (df : DataFrame) (cells : list Cell) (t : float) (key : string) :
  (forall X h, haversine_distances X X = Return h -> square (length X) h = true) ->
  read_table pd_read_csv pd_read_excel file_path = Return (Some df) ->
  frame_ok df = true ->
  column_values df "distance" = Return cells ->
  Forall (fun c => c = CNum t) cells ->
  key <> "distance_threshold" ->
  get key (hotspot_analysis_getis_ord_gi_star
             os_path_exists pd_read_csv pd_read_excel haversine_distances libm_pow norm_cdf
             file_path lat_col lon_col value_col (Passed None))
  = get key (hotspot_analysis_getis_ord_gi_star
               os_path_exists pd_read_csv pd_read_excel haversine_distances
               libm_pow norm_cdf
               file_path lat_col lon_col value_col (Passed (Some t))).
Proof.
  intros Hsq Ht Hok Hc Hall Hkey.
  unfold hotspot_analysis_getis_ord_gi_star, run, try_body.
  destruct (os_path_exists file_path); [|reflexivity]. cbn [negb bound with_default].
  rewrite Ht. cbn [bind].
  destruct (missing_column df lat_col lon_col value_col); [reflexivity|].
  rewrite (prepare_constant _ Hsq _ _ _ _ _ _ Hok Hc Hall).
  destruct (prepare haversine_distances df lat_col lon_col value_col (Some t))
    as [p|e]; [|reflexivity].
  cbn [bind]. by apply assemble_echoing.
Qed.

Lemma equal_radii_witness :
  get "results"
      (hotspot_analysis_getis_ord_gi_star
         Sample.exists_ (fun _ => Return equal_radii_table) Sample.no_excel
         Sample.haversine Sample.glibc_pow Sample.cdf "points.csv" "lat" "lon" "value"
         (Passed None))
  = get "results"
        (hotspot_analysis_getis_ord_gi_star
           Sample.exists_ (fun _ => Return equal_radii_table) Sample.no_excel
           Sample.haversine Sample.glibc_pow Sample.cdf "points.csv" "lat" "lon" "value"
           (Passed (Some 1000%float))).
Proof.
  apply (equal_radii
           Sample.exists_ (fun _ => Return equal_radii_table) Sample.no_excel
           Sample.haversine Sample.glibc_pow Sample.cdf "points.csv" "lat" "lon" "value"
           equal_radii_table (CNum <$> [1000; 1000; 1000]%float) 1000%float
           "results").
  - apply sample_haversine_square.
  - reflexivity.
  - reflexivity.
  - reflexivity.
  - repeat constructor.
  - discriminate.
Defined.

(** X7. in the function of src/mcp-client/server.py, whose
    [distance_threshold] defaults to [None], a call that leaves the
    threshold out (or passes [None]) on a table with a "distance" column
    applies the per-point policy: a successful answer echoes the text
    "variable". *)
Theorem client_default_policy
        (os_path_exists : string -> bool)
        (pd_read_csv pd_read_excel : string -> Exc DataFrame)
        (haversine_distances :
           list (float * float) -> list (float * float) -> Exc (list (list float)))
        (libm_pow : float -> float -> float)
        (norm_cdf : float -> float)
        (file_path lat_col lon_col value_col : string)
        (distance_threshold : Arg (option float)) (df : DataFrame) :
  distance_threshold = Omitted \/ distance_threshold = Passed None ->
  read_table pd_read_csv pd_read_excel file_path = Return (Some df) ->
  has_column df "distance" = true ->
  get "status"
      (Client.hotspot_analysis_getis_ord_gi_star
         os_path_exists pd_read_csv pd_read_excel haversine_distances libm_pow norm_cdf
         file_path lat_col lon_col value_col distance_threshold)
  = Some (VStr "success") ->
  get "distance_threshold"
      (Client.hotspot_analysis_getis_ord_gi_star
         os_path_exists pd_read_csv pd_read_excel haversine_distances libm_pow norm_cdf
         file_path lat_col lon_col value_col distance_threshold)
  = Some (VStr "variable").
Proof.
  intros Hdt Ht Hcol.
  unfold Client.hotspot_analysis_getis_ord_gi_star, Client.try_body.
  destruct (os_path_exists file_path); [|discriminate]. cbn [negb].
  rewrite Ht. cbn [bind].
  destruct (missing_column df lat_col lon_col value_col); [discriminate|].
  destruct (Client.prepare _ _ _ _ _ _) as [p|e] eqn:Hp; [|discriminate].
  cbn [bind].
  destruct (assemble libm_pow norm_cdf p) as [doc|e] eqn:Ha; [|discriminate].
  apply assemble_Return in Ha as (results & -> & _). intros _.
  cbn [get assoc success String.eqb Ascii.eqb Bool.eqb andb]. f_equal.
  unfold Client.prepare in Hp.
  apply bind_Return in Hp as (lat & _ & Hp).
  apply bind_Return in Hp as (lon & _ & Hp).
  apply bind_Return in Hp as (vc & _ & Hp).
  apply bind_Return in Hp as (vals & _ & Hp).
  apply bind_Return in Hp as (rad & _ & Hp).
  apply bind_Return in Hp as (d & _ & Hp).
  apply bind_Return in Hp as ([w after] & Hw & Hp).
  injection Hp as <-. cbn [used_distance snd].
  by destruct (client_policy_selection _ _ _ _ _ _ Hw) as [[-> _] _].
Qed.

Lemma client_default_policy_witness :
  get "distance_threshold"
      (Client.hotspot_analysis_getis_ord_gi_star
         Sample.exists_ (fun _ => Return Examples.radii_table) Sample.no_excel
         Sample.haversine Sample.glibc_pow Sample.cdf "points.csv" "lat" "lon" "value" Omitted)
  = Some (VStr "variable").
Proof.
  apply (client_default_policy
           Sample.exists_ (fun _ => Return Examples.radii_table) Sample.no_excel
           Sample.haversine Sample.glibc_pow Sample.cdf "points.csv" "lat" "lon" "value" Omitted
           Examples.radii_table).
  - by left.
  - reflexivity.
  - reflexivity.
  - vm_compute. reflexivity.
Defined.

Lemma valid_mode_accepted (mode : string) :
  mode ∈ Route.valid_modes -> Route.invalid_mode mode = false.
Proof.
  intros Hm. unfold Route.invalid_mode. apply negb_false_iff, existsb_exists.
  exists mode. split; [by apply list_elem_of_In|]. apply String.eqb_refl.
Qed.

(** X21. [calculate_route_distance] sends a request only for one of
    the four modes, and then to the endpoint of that mode with exactly
    the key, the origin, the destination and extensions "base"; for any
    other mode it answers with a failure document without a request. *)
Theorem request_only_for_valid_mode
        (api_key : PyVal) (origin destination : string) (mode : Arg string) :
  (with_default "driving" mode ∈ Route.valid_modes ->
   Route.calculate_route_distance api_key origin destination mode
   = Route.Get (Route.base_url (with_default "driving" mode))
               (PDict [("key", api_key); ("origin", PStr origin);
                       ("destination", PStr destination);
                       ("extensions", PStr "base")])
               (Route.answer origin destination (with_default "driving" mode)) /\
   Route.base_url (with_default "driving" mode)
   ∈ ["https://restapi.amap.com/v3/direction/driving";
      "https://restapi.amap.com/v3/direction/walking";
      "https://restapi.amap.com/v4/direction/bicycling";
      "https://restapi.amap.com/v3/direction/transit/integrated"]) /\
  (with_default "driving" mode ∉ Route.valid_modes ->
   exists info,
     Route.calculate_route_distance api_key origin destination mode
     = Route.Done
         (Return (PDict [("status", PStr "failure"); ("info", PStr info);
                         ("query", Route.query origin destination
                                               (with_default "driving" mode))]))).
Proof.
  unfold Route.calculate_route_distance, Route.invalid_mode.
  set (m := with_default "driving" mode). split.
  - intros Hm. apply list_elem_of_In in Hm. simpl in Hm.
    destruct Hm as [<-|[<-|[<-|[<-|[]]]]]; (split; [reflexivity|]);
      apply list_elem_of_In; simpl; tauto.
  - intros Hm.
    destruct (existsb (String.eqb m) Route.valid_modes) eqn:E.
    + exfalso. apply Hm. apply existsb_exists in E as (x & Hx & Heq).
      apply String.eqb_eq in Heq. subst x. by apply list_elem_of_In.
    + eexists. reflexivity.
Qed.

Lemma request_only_for_valid_mode_witness :
  Route.calculate_route_distance (PStr "k1") "116.48,39.99" "116.43,39.91" Omitted
  = Route.Get "https://restapi.amap.com/v3/direction/driving"
              (PDict [("key", PStr "k1"); ("origin", PStr "116.48,39.99");
                      ("destination", PStr "116.43,39.91");
                      ("extensions", PStr "base")])
              (Route.answer "116.48,39.99" "116.43,39.91" "driving") /\
  exists info,
    Route.calculate_route_distance
      (PStr "k1") "116.48,39.99" "116.43,39.91" (Passed "flying")
    = Route.Done
        (Return (PDict [("status", PStr "failure"); ("info", PStr info);
                        ("query", Route.query "116.48,39.99" "116.43,39.91"
                                              "flying")])).
Proof.
  split.
  - apply (proj1 (request_only_for_valid_mode
                    (PStr "k1") "116.48,39.99" "116.43,39.91" Omitted)).
    apply list_elem_of_In. simpl. tauto.
  - apply (proj2 (request_only_for_valid_mode
                    (PStr "k1") "116.48,39.99" "116.43,39.91" (Passed "flying"))).
    intros Hm. apply list_elem_of_In in Hm. simpl in Hm.
    repeat (destruct Hm as [Hm|Hm]; [discriminate Hm|]). exact Hm.
Defined.

(** X22. in src/mcp-client/server.py the check of line 508 is on
    the presence of the key, not on its value.  For a configuration whose
    "api" entry is a dictionary and a valid mode, the call sends the value
    found under "gaode_key", whatever it is (the empty string and [None]
    included), and answers with the failure document for a missing
    configuration, without a request, only when the key is absent. *)
Theorem route_key_presence
        (d a : list (string * PyVal))
        (origin destination : string) (mode : Arg string) :
  with_default "driving" mode ∈ Route.valid_modes ->
  assoc "api" d = Some (PDict a) ->
  Route.server_calculate_route_distance (PDict d) origin destination mode
  = match assoc "gaode_key" a with
    | Some key =>
        Route.Get (Route.base_url (with_default "driving" mode))
                  (PDict [("key", key); ("origin", PStr origin);
                          ("destination", PStr destination);
                          ("extensions", PStr "base")])
                  (Route.answer origin destination (with_default "driving" mode))
    | None =>
        Route.Done
          (Return (PDict [("status", PStr "failure");
                          ("info", PStr "高德API配置缺失或PyYAML未安装")]))
    end.
Proof.
  intros Hm E. apply valid_mode_accepted in Hm.
  unfold Route.server_calculate_route_distance, Route.key_missing.
  assert (Hne : py_truthy (PDict d) = true) by (by destruct d).
  rewrite Hne. cbn [negb py_in py_getitem bind]. rewrite E.
  rewrite bool_decide_eq_true_2 by eauto. cbn [negb bind py_in].
  destruct (assoc "gaode_key" a) as [key|] eqn:Ek.
  - rewrite bool_decide_eq_true_2 by eauto. cbn [negb bind].
    rewrite Hm. cbn [py_getitem]. rewrite Ek. reflexivity.
  - rewrite bool_decide_eq_false_2 by (intros [x Hx]; discriminate Hx).
    reflexivity.
Qed.

Lemma route_key_presence_witness :
  Route.server_calculate_route_distance
    Config._get_default_config "116.48,39.99" "116.43,39.91" Omitted
  = Route.Get "https://restapi.amap.com/v3/direction/driving"
              (PDict [("key", PStr ""); ("origin", PStr "116.48,39.99");
                      ("destination", PStr "116.43,39.91");
                      ("extensions", PStr "base")])
              (Route.answer "116.48,39.99" "116.43,39.91" "driving").
Proof.
  apply (route_key_presence
           [("api", PDict [("gaode_key", PStr ""); ("base_url", PStr "");
                           ("model", PStr "default")]);
            ("spatial", PDict [("default_crs", PStr "EPSG:4326");
                               ("distance_unit", PStr "km")]);
            ("debug", PDict [("enabled", PBool false);
                             ("log_level", PStr "info")])]
           [("gaode_key", PStr ""); ("base_url", PStr "");
            ("model", PStr "default")]
           "116.48,39.99" "116.43,39.91" Omitted).
  - apply list_elem_of_In. simpl. tauto.
  - reflexivity.
Defined.

(** X23. in src/mcp-client/server.py a configuration whose "api"
    entry is empty (YAML null), a number or a boolean makes the call
    raise (a [TypeError]) rather than answer with the failure document
    for a missing configuration, whatever the arguments. *)
Theorem empty_api_section_raises
        (d : list (string * PyVal)) (api : PyVal)
        (origin destination : string) (mode : Arg string) :
  assoc "api" d = Some api ->
  py_type api ∈ ["NoneType"; "bool"; "int"; "float"] ->
  exists e,
    Route.server_calculate_route_distance (PDict d) origin destination mode
    = Route.Done (Raise e).
Proof.
  intros E Hty.
  unfold Route.server_calculate_route_distance, Route.key_missing.
  assert (Hne : py_truthy (PDict d) = true) by (by destruct d).
  rewrite Hne. cbn [negb py_in py_getitem bind]. rewrite E.
  rewrite bool_decide_eq_true_2 by eauto. cbn [negb bind].
  apply list_elem_of_In in Hty. simpl in Hty.
  destruct api; simpl in Hty;
    repeat (destruct Hty as [Hty|Hty]; try discriminate Hty); try done;
    eexists; reflexivity.
Qed.

Lemma empty_api_section_raises_witness :
  exists e,
    Route.server_calculate_route_distance
      (PDict [("api", PNone)]) "116.48,39.99" "116.43,39.91" Omitted
    = Route.Done (Raise e).
Proof.
  apply (empty_api_section_raises [("api", PNone)] PNone
                                  "116.48,39.99" "116.43,39.91" Omitted).
  - reflexivity.
  - apply list_elem_of_In. simpl. tauto.
Defined.

(** X24. a document with status "success" is only ever built from
    a response with HTTP status 200 whose body is a JSON object with the
    status '1'; every other response that is answered at all is answered
    with a failure document. *)
Theorem success_needs_status_one
        (origin destination mode : string) (response : Route.Response)
        (doc : list (string * PyVal)) :
  Route.answer origin destination mode response = Return (PDict doc) ->
  assoc "status" doc = Some (PStr "success") ->
  Route.status_code response = 200 /\
  exists result,
    Route.json response = Return (PDict result) /\
    assoc "status" result = Some (PStr "1").
Proof.
  unfold Route.answer. intros Ha Hs.
  destruct (Route.status_code response =? 200) eqn:Ec.
  2:{ injection Ha as <-. discriminate Hs. }
  apply Z.eqb_eq in Ec. split; [exact Ec|].
  destruct (Route.json response) as [result|e]; [|discriminate Ha].
  destruct result as [| | | | | |result]; try discriminate Ha.
  exists result. split; [reflexivity|].
  cbn [py_get bind] in Ha.
  destruct (assoc "status" result) as [st|] eqn:Est.
  - cbn [default from_option id] in Ha. unfold id in Ha.
    destruct (is_str "1" st) eqn:E1.
    + destruct st; try discriminate E1. simpl in E1.
      apply String.eqb_eq in E1. by subst.
    + cbn [bind] in Ha. injection Ha as <-. discriminate Hs.
  - cbn [default from_option is_str bind] in Ha.
    injection Ha as <-. discriminate Hs.
Qed.

Lemma success_needs_status_one_witness :
  Route.status_code
    (Route.mkResponse 200
       (Return (PDict [("status", PStr "1");
                       ("route", PDict [("distance", PStr "1200")])]))) = 200 /\
  exists result,
    Route.json
      (Route.mkResponse 200
         (Return (PDict [("status", PStr "1");
                         ("route", PDict [("distance", PStr "1200")])])))
    = Return (PDict result) /\
    assoc "status" result = Some (PStr "1").
Proof.
  apply (success_needs_status_one
           "116.48,39.99" "116.43,39.91" "transit"
           (Route.mkResponse 200
              (Return (PDict [("status", PStr "1");
                              ("route", PDict [("distance", PStr "1200")])])))
           [("status", PStr "success"); ("mode", PStr "transit");
            ("origin", PStr "116.48,39.99");
            ("destination", PStr "116.43,39.91");
            ("distance", PStr "1200"); ("taxi_cost", PStr "0");
            ("transits", PList [])]).
  - reflexivity.
  - reflexivity.
Defined.
